(** * Simulador Nube Verde: reading generator, point directory and clocks

    A shallow embedding of the JavaScript sources
      - [config/config.js]        (the [CONFIG] object,
                                   [validarConfiguracion]),
      - [src/generador.js]        ([generarLectura], [deberiaaplicarPico],
                                   [esHorarioPico], [debugLectura]),
      - [src/obtenerPuntos.js]    ([obtenerPuntos], [obtenerIdsPuntos]),
      - [src/envio.js]            ([enviarLectura], [enviarLecturasBatch]),
      - [index.js]                ([iniciar], [ejecutarHistorico],
                                   [ejecutarTiempoReal], [cicloLecturas]),
      - [server.js]               ([/api/iniciar], [/api/detener],
                                   [iniciarModoHistorico], [procesarLote],
                                   [ejecutarCiclo], [detenerSimulador];
                                   [/api/config], [/api/login],
                                   [/api/logout], [/api/lecturas], the
                                   toggles of the points,
                                   [checkFirebaseHealth]),
    followed by the properties of the specification that were checked
    against them, and by further properties of the code.

    Conventions.
      - A JavaScript Number is an IEEE 754 binary64 value: Rocq's primitive
        [float], with the kernel's own multiplication, addition, subtraction
        and comparisons.
      - A (valid) [Date] is its time value, the number of milliseconds since
        the epoch, as a [Z].  Hours and week days are local: [tz] is the
        offset of local time from UTC in minutes (El Salvador is [-360]).
      - [Math.random] reads a sequence of draws fixed in advance and counts
        how many of them were consumed. *)

From Stdlib Require Import ZArith List Bool Lia String Floats.
From Stdlib Require Uint63.
Import ListNotations.

Set Warnings "-inexact-float".

Open Scope Z_scope.

(* ================================================================== *)
(** ** JavaScript numbers                                              *)
(* ================================================================== *)

Module Num.

(** [redondeo m e] is the integer [n] of [Number.prototype.toFixed(2)]
    for the positive value [m * 2^e]: the integer for which [n / 100] is
    closest to the value, the larger one on a tie. *)
Definition redondeo (m : positive) (e : Z) : Z :=
  match e with
  | Zneg p => (Zpos m * 200 + 2 ^ Zpos p) / 2 ^ (Zpos p + 1)
  | _ => Zpos m * 100 * 2 ^ e
  end.

(** The binary64 value denoted by the decimal string of [n / 100]: the
    quotient rounded to nearest, ties to even. *)
Definition centesimas (n : Z) : spec_float :=
  match n with
  | Zpos p => SFdiv prec emax (S754_finite false p 0) (S754_finite false 100 0)
  | _ => S754_zero false
  end.

(** [+x.toFixed(2)].  [toFixed] prints NaN, the infinities and values of
    magnitude at least 1e21 as [String(x)], which unary plus reads back
    unchanged; a negative [x] keeps its sign even when it rounds to zero
    (the string is "-0.00"). *)
Definition toFixed2 (x : float) : float :=
  match Prim2SF x with
  | S754_zero _ => 0%float
  | S754_finite s m e =>
      if (1e21 <=? abs x)%float then x
      else
        let r := SF2Prim (centesimas (redondeo m e)) in
        if s then (- r)%float else r
  | _ => x
  end.

(** [x] is not below zero: a zero of either sign, a positive number,
    plus infinity, or NaN. *)
Definition no_negativo (x : spec_float) : bool :=
  match x with
  | S754_zero _ => true
  | S754_infinity s => negb s
  | S754_nan => true
  | S754_finite s _ _ => negb s
  end.

End Num.

(* ================================================================== *)
(** ** Magnitudes of binary64 values                                   *)
(* ================================================================== *)

(** The mantissa [m] at exponent [e] denotes a value of magnitude at
    most [2^j]. *)
Definition cota (j : Z) (m : positive) (e : Z) : Prop :=
  e <= j /\ Zpos m <= 2 ^ (j - e).

(** [x] is finite and of magnitude at most [2^j]. *)
Definition acotado (j : Z) (x : spec_float) : Prop :=
  match x with
  | S754_zero _ => True
  | S754_finite _ m e => cota j m e
  | _ => False
  end.

(** [x] is finite, not negative and at most [2^j]. *)
Definition en_rango (j : Z) (x : spec_float) : Prop :=
  match x with
  | S754_zero _ => True
  | S754_finite false m e => cota j m e
  | _ => False
  end.

(** Nothing has been shifted out of the mantissa. *)
Definition exacto (mrs : shr_record) : Prop :=
  shr_r mrs = false /\ shr_s mrs = false.

(** The numbers 1 and 2. *)
Definition uno_sf : spec_float := S754_finite false 4503599627370496 (-52).
Definition dos_sf : spec_float := S754_finite false 4503599627370496 (-51).

(* ================================================================== *)
(** ** Dates                                                           *)
(* ================================================================== *)

Definition Fecha := Z.

Module Date.

Definition ms_por_minuto : Z := 60000.
Definition ms_por_hora : Z := 3600000.
Definition ms_por_dia : Z := 86400000.

(** [Date.prototype.getHours]: the local hour, 0 to 23. *)
Definition getHours (tz : Z) (t : Fecha) : Z :=
  ((t + tz * ms_por_minuto) / ms_por_hora) mod 24.

(** [Date.prototype.getDay]: the local day of the week, 0 (Sunday) to
    6 (Saturday).  The epoch fell on a Thursday. *)
Definition getDay (tz : Z) (t : Fecha) : Z :=
  ((t + tz * ms_por_minuto) / ms_por_dia + 4) mod 7.

(** The instant of the local wall-clock time [h]:00:00 on the day that
    lies [dias] days after 1970-01-01. *)
Definition local (tz : Z) (dias h : Z) : Fecha :=
  dias * ms_por_dia + h * ms_por_hora - tz * ms_por_minuto.

(** 2025-01-01 is day 20089 of the epoch (a Wednesday). *)
Definition dia_2025_01_01 : Z := 20089.

End Date.

(* ================================================================== *)
(** ** config/config.js                                                *)
(* ================================================================== *)

Record Horario := { inicio : Z; fin : Z }.

Record HorariosPico := { MANANA : Horario; TARDE : Horario }.

(** The [CONFIG] object.  The two dates are already resolved: [None] is
    [null] (or the empty string), [Some t] the instant the string
    "YYYY-MM-DD HH:mm:ss" denotes in local time. *)
Record Config := {
  INTERVALO_MS : Z;
  FECHA_INICIO : option Fecha;
  FECHA_FIN : option Fecha;
  INCREMENTO_TIEMPO_MS : Z;
  SIMULAR_PICOS : bool;
  HORARIOS_PICO : HorariosPico;
  FACTOR_PICO : float;
  FACTOR_FIN_SEMANA : float;
  VARIACION_CONSUMO : float;
  PROBABILIDAD_ERROR : float;
  BATCH_SIZE : Z;
  DELAY_ENTRE_LOTES : Z
}.

(** The values written in config.js. *)
Definition CONFIG_inicial (tz : Z) : Config := {|
  INTERVALO_MS := 10000;
  FECHA_INICIO := Some (Date.local tz Date.dia_2025_01_01 0);
  FECHA_FIN := None;
  INCREMENTO_TIEMPO_MS := 3600000;
  SIMULAR_PICOS := false;
  HORARIOS_PICO := {| MANANA := {| inicio := 8; fin := 12 |};
                      TARDE := {| inicio := 14; fin := 18 |} |};
  FACTOR_PICO := 1.5%float;
  FACTOR_FIN_SEMANA := 0.3%float;
  VARIACION_CONSUMO := 0.2%float;
  PROBABILIDAD_ERROR := 0.02%float;
  BATCH_SIZE := 10;
  DELAY_ENTRE_LOTES := 1000
|}.

(** [get MODO()]: historical when [FECHA_INICIO] is set. *)
Definition MODO (c : Config) : string :=
  match FECHA_INICIO c with
  | Some _ => "historico"
  | None => "tiempo_real"
  end.

(* ================================================================== *)
(** ** Points, readings and the random source                          *)
(* ================================================================== *)

(** A monitoring point as the generator and the clocks use it. *)
Record Punto := {
  docId : string;
  id : string;
  nombre : string;
  activo : bool;
  consumo_base_kwh : float;
  potencia_base_w : float
}.

Record Lectura := {
  id_punto : string;
  estado : string;
  consumo_kwh : float;
  fecha : Fecha
}.

(** The draws [Math.random] will return, and how many were taken. *)
Record Azar := {
  fuente : nat -> float;
  consumidos : nat
}.

Definition Math_random (a : Azar) : float * Azar :=
  (fuente a (consumidos a),
   {| fuente := fuente a; consumidos := S (consumidos a) |}).

(* ================================================================== *)
(** ** src/generador.js                                                *)
(* ================================================================== *)

Section Generador.

Variable tz : Z.
Variable CONFIG : Config.

(** Peaks are simulated from [FECHA_INICIO] onwards only; always when no
    [FECHA_INICIO] is configured. *)
Definition deberiaaplicarPico (fecha : Fecha) : bool :=
  match FECHA_INICIO CONFIG with
  | None => true
  | Some fechaInicio => fechaInicio <=? fecha
  end.

Definition esHorarioPico (hora : Z) : bool :=
  let manana := MANANA (HORARIOS_PICO CONFIG) in
  let tarde := TARDE (HORARIOS_PICO CONFIG) in
  let enPicoManana := (inicio manana <=? hora) && (hora <? fin manana) in
  let enPicoTarde := (inicio tarde <=? hora) && (hora <? fin tarde) in
  enPicoManana || enPicoTarde.

Definition generarLectura (punto : Punto) (fechaSimulada : Fecha) (az : Azar)
  : Lectura * Azar :=
  (* REGLA 1: inactive point *)
  if negb (activo punto) then
    ({| id_punto := id punto; estado := "inactivo";
        consumo_kwh := 0%float; fecha := fechaSimulada |}, az)
  else
    (* REGLA 2: error probability *)
    let (u1, az1) := Math_random az in
    if (u1 <? PROBABILIDAD_ERROR CONFIG)%float then
      ({| id_punto := id punto; estado := "error";
          consumo_kwh := 0%float; fecha := fechaSimulada |}, az1)
    else
      let consumo := consumo_base_kwh punto in
      (* REGLA 3: peak factor *)
      let consumo :=
        if SIMULAR_PICOS CONFIG && deberiaaplicarPico fechaSimulada then
          let hora := Date.getHours tz fechaSimulada in
          if esHorarioPico hora then (consumo * FACTOR_PICO CONFIG)%float
          else consumo
        else consumo in
      (* REGLA 4: weekend factor *)
      let diaSemana := Date.getDay tz fechaSimulada in
      let esFinDeSemana := (diaSemana =? 0) || (diaSemana =? 6) in
      let consumo :=
        if esFinDeSemana then (consumo * FACTOR_FIN_SEMANA CONFIG)%float
        else consumo in
      (* random variation *)
      let (u2, az2) := Math_random az1 in
      let variacion := (1 + (u2 * 2 - 1) * VARIACION_CONSUMO CONFIG)%float in
      let consumo := (consumo * variacion)%float in
      ({| id_punto := id punto; estado := "activo";
          consumo_kwh := Num.toFixed2 consumo; fecha := fechaSimulada |}, az2).

End Generador.

(* ================================================================== *)
(** ** src/obtenerPuntos.js                                            *)
(* ================================================================== *)

Module JS.

(** The values a Firestore field can hold, as JavaScript sees them.
    [undefined] is what reading an absent field gives; [arreglo] is an
    array field with its elements; [objeto s] is any other object (a
    map, a timestamp, a reference), of which the program can only see
    that it is an object and the string [s] its own [toString] returns:
    "[object Object]" for a map. *)
#[local] Unset Elimination Schemes.

Inductive Valor :=
| undefined
| null
| boolean (b : bool)
| number (x : float)
| cadena (s : string)
| arreglo (vs : list Valor)
| objeto (s : string).

#[local] Set Elimination Schemes.

(** [ToBoolean]: the falsy values are undefined, null, false, +0, -0, NaN
    and the empty string. *)
Definition ToBoolean (v : Valor) : bool :=
  match v with
  | undefined | null => false
  | boolean b => b
  | number x => negb ((x =? 0)%float || is_nan x)
  | cadena s => negb (String.eqb s "")
  | arreglo _ | objeto _ => true
  end.

(** [a || b]. *)
Definition o (a b : Valor) : Valor := if ToBoolean a then a else b.

(** [a ?? b]. *)
Definition coalesce (a b : Valor) : Valor :=
  match a with
  | undefined | null => b
  | _ => a
  end.

End JS.

Module Doc.

(** [docSnap.data()]: the fields [obtenerPuntos] reads. *)
Record Data := {
  id : JS.Valor;
  nombre : JS.Valor;
  descripcion : JS.Valor;
  ubicacion : JS.Valor;
  activo : JS.Valor;
  consumo_base_kwh : JS.Valor;
  potencia_base_w : JS.Valor
}.

(** A document snapshot: its Firestore id and its data. *)
Record Snapshot := { snap_id : string; data : Data }.

End Doc.

Module ObtenerPuntos.

(** The object built for each document. *)
Record PuntoLeido := {
  docId : string;
  id : JS.Valor;
  nombre : JS.Valor;
  descripcion : JS.Valor;
  ubicacion : JS.Valor;
  activo : JS.Valor;
  consumo_base_kwh : JS.Valor;
  potencia_base_w : JS.Valor
}.

Section Mapeo.

(** [String(x)] for a number [x], as the template literal needs it. *)
Variable Number_toString : float -> string.

(** [ToString], which the template literal applies to [data.id].  An
    array prints as [Array.prototype.join] does: its elements separated
    by commas, [null] and [undefined] as nothing. *)
Fixpoint ToString (v : JS.Valor) : string :=
  match v with
  | JS.undefined => "undefined"
  | JS.null => "null"
  | JS.boolean true => "true"
  | JS.boolean false => "false"
  | JS.number x => Number_toString x
  | JS.cadena s => s
  | JS.arreglo vs =>
      (fix join (l : list JS.Valor) : string :=
         match l with
         | [] => EmptyString
         | x :: r =>
             let sx := match x with
                       | JS.undefined | JS.null => EmptyString
                       | _ => ToString x
                       end in
             match r with
             | [] => sx
             | _ :: _ => (sx ++ "," ++ join r)%string
             end
         end) vs
  | JS.objeto s => s
  end.

(** The callback of [snap.docs.map]. *)
Definition mapear (docSnap : Doc.Snapshot) : PuntoLeido :=
  let data := Doc.data docSnap in
  {| docId := Doc.snap_id docSnap;
     id := Doc.id data;
     nombre := JS.o (Doc.nombre data)
                    (JS.cadena ("Punto " ++ ToString (Doc.id data)));
     descripcion := JS.o (Doc.descripcion data) (JS.cadena "");
     ubicacion := JS.o (Doc.ubicacion data) (JS.cadena "");
     activo := JS.coalesce (Doc.activo data) (JS.boolean true);
     consumo_base_kwh := JS.o (Doc.consumo_base_kwh data) (JS.number 5.0);
     potencia_base_w := JS.o (Doc.potencia_base_w data) (JS.number 500) |}.

(** [obtenerPuntos], given the documents [getDocs] resolved with. *)
Definition obtenerPuntos (docs : list Doc.Snapshot) : list PuntoLeido :=
  map mapear docs.

End Mapeo.

(** The value is a number, and above zero.  (A string or a boolean is
    not, whatever [>] would make of it.) *)
Definition positivo (v : JS.Valor) : bool :=
  match v with
  | JS.number x => (0 <? x)%float
  | _ => false
  end.

(** [v || d] as the specification reads it: [d] for a falsy [v], [v]
    itself otherwise. *)
Definition con_defecto (v d r : JS.Valor) : Prop :=
  (JS.ToBoolean v = false -> r = d) /\ (JS.ToBoolean v = true -> r = v).

(** What the mapping guarantees for one document. *)
Definition mapeo_correcto (toS : float -> string)
           (d : Doc.Snapshot) (r : PuntoLeido) : Prop :=
  let data := Doc.data d in
  docId r = Doc.snap_id d
  /\ id r = Doc.id data
  /\ (Doc.activo data = JS.undefined \/ Doc.activo data = JS.null ->
      activo r = JS.boolean true)
  /\ (Doc.activo data <> JS.undefined -> Doc.activo data <> JS.null ->
      activo r = Doc.activo data)
  /\ con_defecto (Doc.nombre data)
                 (JS.cadena ("Punto " ++ ToString toS (Doc.id data))) (nombre r)
  /\ (JS.ToBoolean (Doc.nombre data) = false ->
      (forall s, Doc.id data = JS.cadena s -> nombre r = JS.cadena ("Punto " ++ s))
      /\ (Doc.id data = JS.undefined -> nombre r = JS.cadena "Punto undefined")
      /\ (forall a b, Doc.id data = JS.arreglo [JS.cadena a; JS.cadena b] ->
          nombre r = JS.cadena ("Punto " ++ a ++ "," ++ b))
      /\ (forall s, Doc.id data = JS.objeto s -> nombre r = JS.cadena ("Punto " ++ s)))
  /\ con_defecto (Doc.consumo_base_kwh data) (JS.number 5.0) (consumo_base_kwh r)
  /\ con_defecto (Doc.potencia_base_w data) (JS.number 500) (potencia_base_w r)
  /\ (Doc.consumo_base_kwh data = JS.number 0 ->
      consumo_base_kwh r = JS.number 5.0)
  /\ JS.ToBoolean (consumo_base_kwh r) = true
  /\ JS.ToBoolean (potencia_base_w r) = true
  /\ (positivo (consumo_base_kwh r) = true <->
      JS.ToBoolean (Doc.consumo_base_kwh data) = false
      \/ positivo (Doc.consumo_base_kwh data) = true)
  /\ (positivo (potencia_base_w r) = true <->
      JS.ToBoolean (Doc.potencia_base_w data) = false
      \/ positivo (Doc.potencia_base_w data) = true).

(** A document that stores a negative base consumption, a zero power and
    no optional field. *)
Definition doc_negativo : Doc.Snapshot := {|
  Doc.snap_id := "abc123";
  Doc.data := {| Doc.id := JS.cadena "N7";
                 Doc.nombre := JS.undefined;
                 Doc.descripcion := JS.undefined;
                 Doc.ubicacion := JS.undefined;
                 Doc.activo := JS.undefined;
                 Doc.consumo_base_kwh := JS.number (-3);
                 Doc.potencia_base_w := JS.number 0 |}
|}.

End ObtenerPuntos.

(* ================================================================== *)
(** ** src/envio.js and index.js: the command-line simulator           *)
(* ================================================================== *)

Module Cli.

(** The console lines the run prints. *)
Inductive Linea :=
| LoteInicia (lote : Z) (fechaActual : Fecha)
| CicloInicia (fecha : Fecha)
| LecturaEnviada (l : Lectura)
| ErrorEnPunto (idPunto : string)
| Pausa (ms : Z)
| Completada (totalLecturas : Z) (puntosProcesados : nat)
| ErrorFatal.

(** What lies outside the program: the random source, Firestore (whether
    the n-th [addDoc] resolves, how many were asked for, the documents of
    the collection "lecturas", oldest first) and the console. *)
Record Mundo := {
  azar : Azar;
  envio : nat -> bool;
  llamadas : nat;
  almacen : list Lectura;
  consola : list Linea
}.

Definition imprimir (l : Linea) (m : Mundo) : Mundo :=
  {| azar := azar m; envio := envio m; llamadas := llamadas m;
     almacen := almacen m; consola := consola m ++ [l] |}.

(** [Math.random] calls made by the generator. *)
Definition generar (tz : Z) (CONFIG : Config) (punto : Punto) (f : Fecha)
           (m : Mundo) : Lectura * Mundo :=
  let (lectura, az) := generarLectura tz CONFIG punto f (azar m) in
  (lectura,
   {| azar := az; envio := envio m; llamadas := llamadas m;
      almacen := almacen m; consola := consola m |}).

(** [await enviarLectura(lectura)]: [true] when the promise resolves,
    [false] when it rejects. *)
Definition enviarLectura (lectura : Lectura) (m : Mundo) : bool * Mundo :=
  let ok := envio m (llamadas m) in
  (ok,
   {| azar := azar m; envio := envio m; llamadas := S (llamadas m);
      almacen := if ok then almacen m ++ [lectura] else almacen m;
      consola := consola m |}).

(** How [ejecutarHistorico] ends: [process.exit(0)], or an exception that
    leaves the function. *)
Inductive Fin := Sale0 | Excepcion.

Section Index.

Variable tz : Z.
Variable CONFIG : Config.

(** The body of [cicloLecturas]'s loop: each point in its own try/catch. *)
Fixpoint cicloPuntos (puntos : list Punto) (fecha : Fecha) (m : Mundo) : Mundo :=
  match puntos with
  | [] => m
  | punto :: resto =>
      let (lectura, m1) := generar tz CONFIG punto fecha m in
      let (ok, m2) := enviarLectura lectura m1 in
      let m3 := if ok then imprimir (LecturaEnviada lectura) m2
                else imprimir (ErrorEnPunto (id punto)) m2 in
      cicloPuntos resto fecha m3
  end.

Definition cicloLecturas (puntos : list Punto) (fecha : Fecha) (m : Mundo) : Mundo :=
  cicloPuntos puntos fecha (imprimir (CicloInicia fecha) m).

(** The inner loop of [ejecutarHistorico]: no try/catch, a rejected
    [enviarLectura] leaves the loop.  [Some total] is the updated
    [totalLecturas]. *)
Fixpoint lotePuntos (puntos : list Punto) (fechaActual : Fecha)
         (totalLecturas : Z) (m : Mundo) : option Z * Mundo :=
  match puntos with
  | [] => (Some totalLecturas, m)
  | punto :: resto =>
      let (lectura, m1) := generar tz CONFIG punto fechaActual m in
      let (ok, m2) := enviarLectura lectura m1 in
      if ok then
        lotePuntos resto fechaActual (totalLecturas + 1)
                   (imprimir (LecturaEnviada lectura) m2)
      else (None, m2)
  end.

(** The [while (fechaActual <= fechaFin)] loop; [None] when [n] turns
    are not enough to leave it.  The cursor is the time value of a
    [Date]: the loop is followed for a step that is not negative, which
    keeps the cursor one until the loop is left (a negative step would
    in the end take it below the least time value a [Date] has). *)
Fixpoint bucle (n : nat) (puntos : list Punto) (fechaFin fechaActual : Fecha)
         (totalLecturas lote : Z) (m : Mundo) : option (Fin * Mundo) :=
  match n with
  | O => None
  | S n' =>
      if fechaActual <=? fechaFin then
        let lote := lote + 1 in
        let m := imprimir (LoteInicia lote fechaActual) m in
        match lotePuntos puntos fechaActual totalLecturas m with
        | (None, m') => Some (Excepcion, m')
        | (Some totalLecturas, m') =>
            let fechaActual := fechaActual + INCREMENTO_TIEMPO_MS CONFIG in
            let m' := if Z.rem lote (BATCH_SIZE CONFIG) =? 0
                      then imprimir (Pausa (DELAY_ENTRE_LOTES CONFIG)) m'
                      else m' in
            bucle n' puntos fechaFin fechaActual totalLecturas lote m'
        end
      else
        Some (Sale0, imprimir (Completada totalLecturas (List.length puntos)) m)
  end.

(** [ejecutarHistorico(puntos)], called when [CONFIG.MODO] is
    "historico"; [ahora] is the wall clock read when FECHA_FIN is null.
    With no FECHA_INICIO the first date access throws. *)
Definition ejecutarHistorico (n : nat) (ahora : Fecha) (puntos : list Punto)
           (m : Mundo) : option (Fin * Mundo) :=
  match FECHA_INICIO CONFIG with
  | None => Some (Excepcion, m)
  | Some fechaInicio =>
      let fechaFin := match FECHA_FIN CONFIG with
                      | Some f => f
                      | None => ahora
                      end in
      bucle n puntos fechaFin fechaInicio 0 0 m
  end.

(** The part of [iniciar] around it: an exception is reported as fatal
    and the process exits with code 1. *)
Definition iniciar (n : nat) (ahora : Fecha) (puntos : list Punto)
           (m : Mundo) : option (Z * Mundo) :=
  match ejecutarHistorico n ahora puntos m with
  | None => None
  | Some (Sale0, m') => Some (0, m')
  | Some (Excepcion, m') => Some (1, imprimir ErrorFatal m')
  end.

End Index.

(** The instants at which a lot was started, in order. *)
Fixpoint visitas (c : list Linea) : list Fecha :=
  match c with
  | [] => []
  | LoteInicia _ f :: r => f :: visitas r
  | _ :: r => visitas r
  end.

Definition mundo_inicial (az : Azar) (envio : nat -> bool) : Mundo :=
  {| azar := az; envio := envio; llamadas := 0; almacen := []; consola := [] |}.

End Cli.

(* ================================================================== *)
(** ** server.js: the web simulator                                    *)
(* ================================================================== *)

(** The server runs on Node's event loop.  Between two [await]s a handler
    runs alone; what is pending (an armed timer, a promise not yet
    settled) is a task of the process, and an event is the arrival of a
    request or the completion of a task.  Any order of events is a
    possible execution.

    Two editions of server.js are embedded: the current one (login
    through /api/login, progress reports) and the basic one, whose
    /api/iniciar logs in and fetches the points itself.  (A third one
    stands between them: its /api/iniciar is the basic one's without the
    login.)  The requests that neither start a run nor run a cycle
    (/api/config, /api/login, /api/logout, the toggles of a point, the
    reads) are not events of the model. *)

Module Servidor.

(** An entry of [lecturasLote]: the reading and [nombrePunto]
    ([fechaFormateada] is the reading's date, formatted). *)
Definition LecturaVista : Type := Lectura * string.

Inductive Mensaje :=
| ModoTiempoReal (intervaloMs : Z)
| ModoHistorico
| Rango (desde hasta : Fecha)
| Estimados (totalLotes lecturasEstimadas : Z)
| ProcesandoLote (lote totalLotes : Z) (fechaActual : Fecha)
| HistoricoCompletado (total : Z)
| Detenido
| ErrorEnPunto (idPunto : string)
| PuntosCargados (n : nat)
| Autenticado
| ErrorAlIniciar.

(** What [io.emit] sends. *)
Inductive Emision :=
| Log (m : Mensaje)
| Status (corriendo : bool)
| EmPuntos (ps : list Punto)
| EmLecturas (lecturasLote : list LecturaVista)
| Stats (totalEnviadas : Z) (ultimaLectura : Fecha)
| HistoricoProgreso (loteActual totalLotes : Z) (fechaActual : Fecha).

(** The variables [procesarLote] closes over, one set per call of
    [iniciarModoHistorico].  [corrida] numbers the calls and [informa]
    tells the current edition (which reports progress) from the basic
    one; neither exists in the program. *)
Record Historico := {
  corrida : nat;
  informa : bool;
  fechaFin : Fecha;
  incremento : Z;
  totalLotes : Z;
  fechaActual : Fecha;
  lote : Z
}.

(** [ejecutarCiclo] suspended at [await enviarLectura(lectura)]: the
    point and reading in flight, the points still to visit, the readings
    gathered, and who awaits the cycle ([procesarLote], or nobody). *)
Record Ciclo := {
  c_fecha : Fecha;
  c_punto : Punto;
  c_lectura : Lectura;
  c_resto : list Punto;
  c_lote : list LecturaVista;
  c_sigue : option Historico
}.

Inductive Tarea :=
| Temporizador (h : Historico)   (* setTimeout(procesarLote, 100) *)
| Intervalo (handle : nat)       (* setInterval(..., INTERVALO_MS) *)
| Envio (c : Ciclo)              (* await enviarLectura(lectura) *)
| Obteniendo                     (* /api/iniciar at await obtenerPuntos() *)
| Autenticando1                  (* basic /api/iniciar at await loginSimulador() *)
| Obteniendo1.                   (* basic /api/iniciar at await obtenerPuntos() *)

Record SimuladorState := {
  corriendo : bool;
  autenticado : bool;
  puntos : list Punto;
  lecturas : list LecturaVista;
  totalEnviadas : Z;
  ultimaLectura : option Fecha;
  intervalo : option nat;
  config : Config
}.

(** The process: [simuladorState], the Firebase session
    ([auth.currentUser]), the pending tasks, the random source, the
    collection "lecturas", what was emitted (oldest first), the next
    timer handle, and a record of the cycles entered, each with the
    [corrida] that asked for it. *)
Record Proceso := {
  sim : SimuladorState;
  sesion : bool;
  tareas : list Tarea;
  azar : Azar;
  almacen : list Lectura;
  emitido : list Emision;
  siguiente : nat;
  ciclos : list (option nat * Fecha)
}.

Record Respuesta := { codigo : Z; success : bool }.

Inductive Evento :=
| PostIniciar                                   (* POST /api/iniciar *)
| PostIniciar1                                  (* the basic edition's *)
| PostDetener                                   (* POST /api/detener *)
| Vence (i : nat)                               (* a timeout fires *)
| Tic (i : nat)                                 (* an interval fires *)
| EnvioResuelto (i : nat) (ok : bool)           (* enviarLectura settles *)
| PuntosObtenidos (i : nat) (r : option (list Punto))
| SesionIniciada (i : nat) (ok : bool).

(** *** Updates *)

Definition con_sim (f : SimuladorState -> SimuladorState) (w : Proceso) : Proceso :=
  {| sim := f (sim w); sesion := sesion w; tareas := tareas w; azar := azar w;
     almacen := almacen w; emitido := emitido w; siguiente := siguiente w;
     ciclos := ciclos w |}.

Definition con_tareas (f : list Tarea -> list Tarea) (w : Proceso) : Proceso :=
  {| sim := sim w; sesion := sesion w; tareas := f (tareas w); azar := azar w;
     almacen := almacen w; emitido := emitido w; siguiente := siguiente w;
     ciclos := ciclos w |}.

Definition emitir (e : Emision) (w : Proceso) : Proceso :=
  {| sim := sim w; sesion := sesion w; tareas := tareas w; azar := azar w;
     almacen := almacen w; emitido := emitido w ++ [e]; siguiente := siguiente w;
     ciclos := ciclos w |}.

Definition agendar (t : Tarea) (w : Proceso) : Proceso :=
  con_tareas (fun ts => ts ++ [t]) w.

Definition quitar (i : nat) (w : Proceso) : Proceso :=
  con_tareas (fun ts => firstn i ts ++ skipn (S i) ts) w.

Definition poner_corriendo (b : bool) (s : SimuladorState) : SimuladorState :=
  {| corriendo := b; autenticado := autenticado s; puntos := puntos s;
     lecturas := lecturas s; totalEnviadas := totalEnviadas s;
     ultimaLectura := ultimaLectura s; intervalo := intervalo s;
     config := config s |}.

Definition poner_autenticado (b : bool) (s : SimuladorState) : SimuladorState :=
  {| corriendo := corriendo s; autenticado := b; puntos := puntos s;
     lecturas := lecturas s; totalEnviadas := totalEnviadas s;
     ultimaLectura := ultimaLectura s; intervalo := intervalo s;
     config := config s |}.

Definition poner_puntos (ps : list Punto) (s : SimuladorState) : SimuladorState :=
  {| corriendo := corriendo s; autenticado := autenticado s; puntos := ps;
     lecturas := lecturas s; totalEnviadas := totalEnviadas s;
     ultimaLectura := ultimaLectura s; intervalo := intervalo s;
     config := config s |}.

Definition poner_intervalo (h : option nat) (s : SimuladorState) : SimuladorState :=
  {| corriendo := corriendo s; autenticado := autenticado s; puntos := puntos s;
     lecturas := lecturas s; totalEnviadas := totalEnviadas s;
     ultimaLectura := ultimaLectura s; intervalo := h;
     config := config s |}.

Definition contar_enviada (s : SimuladorState) : SimuladorState :=
  {| corriendo := corriendo s; autenticado := autenticado s; puntos := puntos s;
     lecturas := lecturas s; totalEnviadas := totalEnviadas s + 1;
     ultimaLectura := ultimaLectura s; intervalo := intervalo s;
     config := config s |}.

Definition guardar_lecturas (lote : list LecturaVista) (ahora : Fecha)
           (s : SimuladorState) : SimuladorState :=
  {| corriendo := corriendo s; autenticado := autenticado s; puntos := puntos s;
     lecturas := firstn 100 (lote ++ lecturas s);
     totalEnviadas := totalEnviadas s;
     ultimaLectura := Some ahora; intervalo := intervalo s;
     config := config s |}.

Definition avanzar (h : Historico) : Historico :=
  {| corrida := corrida h; informa := informa h; fechaFin := fechaFin h;
     incremento := incremento h; totalLotes := totalLotes h;
     fechaActual := fechaActual h + incremento h; lote := lote h |}.

Definition otro_lote (h : Historico) : Historico :=
  {| corrida := corrida h; informa := informa h; fechaFin := fechaFin h;
     incremento := incremento h; totalLotes := totalLotes h;
     fechaActual := fechaActual h; lote := lote h + 1 |}.

Definition es_intervalo (handle : nat) (t : Tarea) : bool :=
  match t with
  | Intervalo h => Nat.eqb h handle
  | _ => false
  end.

(** [Math.ceil(a / b)]. *)
Definition ceil_div (a b : Z) : Z := - ((- a) / b).

Section Simulador.

Variable tz : Z.
Variable CONFIG : Config.

Definition detenerSimulador (w : Proceso) : Proceso :=
  let w :=
    match intervalo (sim w) with
    | Some handle =>
        con_sim (poner_intervalo None)
                (con_tareas (filter (fun t => negb (es_intervalo handle t))) w)
    | None => w
    end in
  let w := con_sim (poner_corriendo false) w in
  let w := emitir (Status false) w in
  emitir (Log Detenido) w.

(** The end of [ejecutarCiclo], and of the turn of [procesarLote] that
    awaited it. *)
Definition finCiclo (ahora : Fecha) (lecturasLote : list LecturaVista)
           (k : option Historico) (w : Proceso) : Proceso :=
  let w := con_sim (guardar_lecturas lecturasLote ahora) w in
  let w := emitir (EmLecturas lecturasLote) w in
  let w := emitir (Stats (totalEnviadas (sim w)) ahora) w in
  match k with
  | None => w
  | Some h =>
      let h := avanzar h in
      let w := if informa h
               then emitir (HistoricoProgreso (lote h) (totalLotes h) (fechaActual h)) w
               else w in
      agendar (Temporizador h) w
  end.

(** The loop of [ejecutarCiclo] from the points [resto] on: it runs up to
    the next [await enviarLectura], or to the end of the cycle. *)
Definition continuarCiclo (ahora fecha : Fecha) (resto : list Punto)
           (lecturasLote : list LecturaVista) (k : option Historico)
           (w : Proceso) : Proceso :=
  match resto with
  | [] => finCiclo ahora lecturasLote k w
  | punto :: resto' =>
      let (lectura, az) := generarLectura tz CONFIG punto fecha (azar w) in
      let w := {| sim := sim w; sesion := sesion w; tareas := tareas w;
                  azar := az; almacen := almacen w; emitido := emitido w;
                  siguiente := siguiente w; ciclos := ciclos w |} in
      agendar (Envio {| c_fecha := fecha; c_punto := punto;
                        c_lectura := lectura; c_resto := resto';
                        c_lote := lecturasLote; c_sigue := k |}) w
  end.

Definition ejecutarCiclo (ahora fecha : Fecha) (k : option Historico)
           (w : Proceso) : Proceso :=
  let w := {| sim := sim w; sesion := sesion w; tareas := tareas w;
              azar := azar w; almacen := almacen w; emitido := emitido w;
              siguiente := siguiente w;
              ciclos := ciclos w ++ [(option_map corrida k, fecha)] |} in
  continuarCiclo ahora fecha (puntos (sim w)) [] k w.

(** [enviarLectura] settled for the cycle [c]: the rest of the try block,
    or the catch block, then the loop goes on. *)
Definition reanudarCiclo (ahora : Fecha) (c : Ciclo) (ok : bool)
           (w : Proceso) : Proceso :=
  if ok then
    let w := {| sim := contar_enviada (sim w); sesion := sesion w;
                tareas := tareas w; azar := azar w;
                almacen := almacen w ++ [c_lectura c];
                emitido := emitido w; siguiente := siguiente w;
                ciclos := ciclos w |} in
    continuarCiclo ahora (c_fecha c) (c_resto c)
                   (c_lote c ++ [(c_lectura c, nombre (c_punto c))])
                   (c_sigue c) w
  else
    let w := emitir (Log (ErrorEnPunto (id (c_punto c)))) w in
    continuarCiclo ahora (c_fecha c) (c_resto c) (c_lote c) (c_sigue c) w.

Definition procesarLote (ahora : Fecha) (h : Historico) (w : Proceso) : Proceso :=
  if negb (corriendo (sim w)) || (fechaFin h <? fechaActual h) then
    detenerSimulador
      (emitir (Log (HistoricoCompletado (totalEnviadas (sim w)))) w)
  else
    let h := otro_lote h in
    let w := if informa h && ((lote h =? 1) || (Z.rem (lote h) 10 =? 0))
             then emitir (Log (ProcesandoLote (lote h) (totalLotes h) (fechaActual h))) w
             else w in
    ejecutarCiclo ahora (fechaActual h) (Some h) w.

(** [iniciarModoHistorico]; the mode is chosen only when FECHA_INICIO is
    set. *)
Definition iniciarModoHistorico (mejorado : bool) (ahora : Fecha)
           (w : Proceso) : Proceso :=
  let w := emitir (Log ModoHistorico) w in
  match FECHA_INICIO (config (sim w)) with
  | None => w
  | Some fechaInicio =>
      let fechaFin := match FECHA_FIN (config (sim w)) with
                      | Some f => f
                      | None => ahora
                      end in
      let incremento :=
        if INCREMENTO_TIEMPO_MS (config (sim w)) =? 0 then 3600000
        else INCREMENTO_TIEMPO_MS (config (sim w)) in
      let totalLotes := ceil_div (fechaFin - fechaInicio) incremento in
      let w := emitir (Log (Rango fechaInicio fechaFin)) w in
      let w := if mejorado
               then emitir (Log (Estimados totalLotes
                                   (totalLotes * Z.of_nat (List.length (puntos (sim w)))))) w
               else w in
      let h := {| corrida := siguiente w; informa := mejorado;
                  fechaFin := fechaFin; incremento := incremento;
                  totalLotes := totalLotes; fechaActual := fechaInicio;
                  lote := 0 |} in
      let w := {| sim := sim w; sesion := sesion w; tareas := tareas w;
                  azar := azar w; almacen := almacen w; emitido := emitido w;
                  siguiente := S (siguiente w); ciclos := ciclos w |} in
      procesarLote ahora h w
  end.

Definition iniciarModoTiempoReal (ahora : Fecha) (w : Proceso) : Proceso :=
  let w := emitir (Log (ModoTiempoReal (INTERVALO_MS (config (sim w))))) w in
  let w := ejecutarCiclo ahora ahora None w in
  let handle := siguiente w in
  let w := {| sim := poner_intervalo (Some handle) (sim w); sesion := sesion w;
              tareas := tareas w; azar := azar w; almacen := almacen w;
              emitido := emitido w; siguiente := S handle; ciclos := ciclos w |} in
  agendar (Intervalo handle) w.

Definition iniciarModo (mejorado : bool) (ahora : Fecha) (w : Proceso) : Proceso :=
  match FECHA_INICIO (config (sim w)) with
  | Some _ => iniciarModoHistorico mejorado ahora w
  | None => iniciarModoTiempoReal ahora w
  end.

(** The current /api/iniciar from the choice of the mode on: the flag is
    raised before the mode starts. *)
Definition arrancar (ahora : Fecha) (w : Proceso) : Proceso * Respuesta :=
  let w := con_sim (poner_corriendo true) w in
  let w := emitir (Status true) w in
  let w := iniciarModo true ahora w in
  (w, {| codigo := 200; success := true |}).

Definition api_iniciar (ahora : Fecha) (w : Proceso) : Proceso * option Respuesta :=
  if negb (sesion w) then
    (w, Some {| codigo := 401; success := false |})
  else if corriendo (sim w) then
    (w, Some {| codigo := 200; success := false |})
  else
    match puntos (sim w) with
    | [] => (agendar Obteniendo w, None)
    | _ :: _ => let (w', r) := arrancar ahora w in (w', Some r)
    end.

(** The basic /api/iniciar: it logs in when needed, always fetches the
    points, and raises the flag after the mode has started. *)
Definition api_iniciar1 (w : Proceso) : Proceso * option Respuesta :=
  if corriendo (sim w) then
    (w, Some {| codigo := 200; success := false |})
  else if negb (autenticado (sim w)) then
    (agendar Autenticando1 w, None)
  else
    (agendar Obteniendo1 w, None).

Definition arrancar1 (ahora : Fecha) (ps : list Punto) (w : Proceso)
  : Proceso * Respuesta :=
  let w := con_sim (poner_puntos ps) w in
  let w := emitir (Log (PuntosCargados (List.length ps))) w in
  let w := emitir (EmPuntos ps) w in
  let w := iniciarModo false ahora w in
  let w := con_sim (poner_corriendo true) w in
  let w := emitir (Status true) w in
  (w, {| codigo := 200; success := true |}).

Definition fallo_al_iniciar (w : Proceso) : Proceso * option Respuesta :=
  (emitir (Log ErrorAlIniciar) w, Some {| codigo := 200; success := false |}).

(** One event, at wall-clock time [ahora].  An event that names no
    pending task of its kind changes nothing. *)
Definition paso (ahora : Fecha) (e : Evento) (w : Proceso)
  : Proceso * option Respuesta :=
  match e with
  | PostIniciar => api_iniciar ahora w
  | PostIniciar1 => api_iniciar1 w
  | PostDetener =>
      (detenerSimulador w, Some {| codigo := 200; success := true |})
  | Vence i =>
      match nth_error (tareas w) i with
      | Some (Temporizador h) => (procesarLote ahora h (quitar i w), None)
      | _ => (w, None)
      end
  | Tic i =>
      match nth_error (tareas w) i with
      | Some (Intervalo _) => (ejecutarCiclo ahora ahora None w, None)
      | _ => (w, None)
      end
  | EnvioResuelto i ok =>
      match nth_error (tareas w) i with
      | Some (Envio c) => (reanudarCiclo ahora c ok (quitar i w), None)
      | _ => (w, None)
      end
  | PuntosObtenidos i r =>
      match nth_error (tareas w) i, r with
      | Some Obteniendo, Some ps =>
          let w := quitar i w in
          let w := con_sim (poner_puntos ps) w in
          let w := emitir (Log (PuntosCargados (List.length ps))) w in
          let w := emitir (EmPuntos ps) w in
          let (w', r) := arrancar ahora w in (w', Some r)
      | Some Obteniendo1, Some ps =>
          let (w', r) := arrancar1 ahora ps (quitar i w) in (w', Some r)
      | Some Obteniendo, None | Some Obteniendo1, None =>
          fallo_al_iniciar (quitar i w)
      | _, _ => (w, None)
      end
  | SesionIniciada i ok =>
      match nth_error (tareas w) i with
      | Some Autenticando1 =>
          let w := quitar i w in
          if ok then
            let w := con_sim (poner_autenticado true) w in
            let w := emitir (Log Autenticado) w in
            (agendar Obteniendo1 w, None)
          else fallo_al_iniciar w
      | _ => (w, None)
      end
  end.

(** A sequence of events, each with its time. *)
Fixpoint correr (es : list (Fecha * Evento)) (w : Proceso) : Proceso :=
  match es with
  | [] => w
  | (ahora, e) :: es' => correr es' (fst (paso ahora e w))
  end.

(** The first pending task completes: a timeout fires, or a send settles
    with the outcome [ok]. *)
Definition completar_primera (ahora : Fecha) (ok : bool) (w : Proceso) : Proceso :=
  match tareas w with
  | Temporizador _ :: _ => fst (paso ahora (Vence 0) w)
  | Envio _ :: _ => fst (paso ahora (EnvioResuelto 0 ok) w)
  | _ => w
  end.

(** The process left alone for as many completions as [oks] is long,
    the sends of which settle with the outcomes [oks] gives. *)
Fixpoint dejar_correr (oks : list bool) (ahora : Fecha) (w : Proceso) : Proceso :=
  match oks with
  | [] => w
  | ok :: oks' => dejar_correr oks' ahora (completar_primera ahora ok w)
  end.

End Simulador.

(** A process that has just been started and logged in to, with the
    points loaded at login. *)
Definition proceso_inicial (c : Config) (ps : list Punto) (az : Azar) : Proceso :=
  {| sim := {| corriendo := false; autenticado := false; puntos := ps;
               lecturas := []; totalEnviadas := 0; ultimaLectura := None;
               intervalo := None; config := c |};
     sesion := true; tareas := []; azar := az; almacen := [];
     emitido := []; siguiente := 0; ciclos := [] |}.

(** The tasks that can still run a cycle: the chains of [procesarLote]
    and the armed intervals. *)
Definition mantiene_corrida (t : Tarea) : bool :=
  match t with
  | Temporizador _ | Intervalo _ => true
  | Envio c => match c_sigue c with Some _ => true | None => false end
  | _ => false
  end.

Definition corridas_vivas (w : Proceso) : nat :=
  List.length (filter mantiene_corrida (tareas w)).

Definition es_temporizador (t : Tarea) : bool :=
  match t with
  | Temporizador _ => true
  | _ => false
  end.

(** The process rests in the pause between two lots: the only pending
    tasks are timeouts of [procesarLote]. *)
Definition en_pausa (w : Proceso) : Prop :=
  forallb es_temporizador (tareas w) = true.

(** [w'] has the flag, the points, the configuration and the record of
    cycles of [w]. *)
Definition marco (w w' : Proceso) : Prop :=
  corriendo (sim w') = corriendo (sim w)
  /\ puntos (sim w') = puntos (sim w)
  /\ config (sim w') = config (sim w)
  /\ ciclos w' = ciclos w.

(** [w] is stopped and at rest, and has sent, entered, stored and drawn
    nothing since [w0]. *)
Definition quieto (w0 w : Proceso) : Prop :=
  corriendo (sim w) = false
  /\ en_pausa w
  /\ totalEnviadas (sim w) = totalEnviadas (sim w0)
  /\ ciclos w = ciclos w0
  /\ almacen w = almacen w0
  /\ azar w = azar w0.

Definition es_inicio (e : Evento) : bool :=
  match e with
  | PostIniciar | PostIniciar1 => true
  | _ => false
  end.

End Servidor.

(* ================================================================== *)
(** * Notions of the specification and sample data                     *)
(* ================================================================== *)

(** [x] multiplied by [k] when [b] holds. *)
Definition por_si (b : bool) (k x : float) : float :=
  if b then (x * k)%float else x.

(** The factor of the random variation for the draw [u]. *)
Definition factor_variacion (c : Config) (u : float) : float :=
  (1 + (u * 2 - 1) * VARIACION_CONSUMO c)%float.

(** [n] is the integer nearest to 100 times the positive value
    [m * 2^e], the larger one when two are as near:
    [n - 1/2 <= 100 * m * 2^e < n + 1/2], with the powers of two moved
    to the side where they are whole. *)
Definition centesimas_de (m : positive) (e : Z) (n : Z) : Prop :=
  (2 * n - 1) * 2 ^ Z.max 0 (- e) <= 200 * Zpos m * 2 ^ Z.max 0 e
  /\ 200 * Zpos m * 2 ^ Z.max 0 e < (2 * n + 1) * 2 ^ Z.max 0 (- e).

(** [r] is [x] rounded to two decimals: a zero gives 0; a finite [x]
    below 1e21 in magnitude gives, with the sign of [x], the number
    [n / 100] for the integer [n] nearest to 100 times its magnitude;
    anything else is left as it is. *)
Definition dos_decimales (x r : float) : Prop :=
  match Prim2SF x with
  | S754_zero _ => r = 0%float
  | S754_finite s m e =>
      if (1e21 <=? abs x)%float then r = x
      else exists n : Z,
          centesimas_de m e n
          /\ r = if s then (- SF2Prim (Num.centesimas n))%float
                 else SF2Prim (Num.centesimas n)
  | _ => r = x
  end.

(** The hour lies in a window, read as the half-open interval. *)
Definition en_ventana (w : Horario) (h : Z) : Prop :=
  inicio w <= h < fin w.

(** The date gate of the peak rule. *)
Definition desde_inicio (c : Config) (f : Fecha) : Prop :=
  match FECHA_INICIO c with
  | None => True
  | Some f0 => f0 <= f
  end.

Definition pico_elegible (tz : Z) (c : Config) (f : Fecha) : Prop :=
  SIMULAR_PICOS c = true /\
  (en_ventana (MANANA (HORARIOS_PICO c)) (Date.getHours tz f) \/
   en_ventana (TARDE (HORARIOS_PICO c)) (Date.getHours tz f)) /\
  desde_inicio c f.

Definition fin_de_semana (tz : Z) (f : Fecha) : Prop :=
  Date.getDay tz f = 6 \/ Date.getDay tz f = 0.

(** The consumption before the random variation: the base value with the
    peak and weekend factors the code applies. *)
Definition consumo_previo (tz : Z) (c : Config) (p : Punto) (f : Fecha) : float :=
  por_si ((Date.getDay tz f =? 0) || (Date.getDay tz f =? 6))
         (FACTOR_FIN_SEMANA c)
    (por_si (SIMULAR_PICOS c && deberiaaplicarPico c f
               && esHorarioPico c (Date.getHours tz f))
            (FACTOR_PICO c) (consumo_base_kwh p)).

(** The instants [inicio], [inicio + paso], ... : [n] of them. *)
Definition progresion (inicio paso : Z) (n : nat) : list Fecha :=
  map (fun k => inicio + Z.of_nat k * paso) (seq 0 n).

(** How many instants of the progression are not after [final]. *)
Definition cuantas (inicio final paso : Z) : nat :=
  if inicio <=? final then Z.to_nat ((final - inicio) / paso + 1) else O.

(** Sample data: El Salvador's offset, the first point of the documented
    structure, and a fixed sequence of draws. *)
Definition tz_sv : Z := -360.

Definition punto_N1 : Punto := {|
  docId := "doc-N1"; id := "N1"; nombre := "Auditorio Principal";
  activo := true; consumo_base_kwh := 15.5%float; potencia_base_w := 1100%float
|}.

Definition punto_apagado : Punto := {|
  docId := "doc-N2"; id := "N2"; nombre := "Biblioteca";
  activo := false; consumo_base_kwh := 8%float; potencia_base_w := 600%float
|}.

Definition azar_fijo : Azar := {|
  fuente := fun n => match n with
                     | O => 0.5%float
                     | S O => 0.25%float
                     | _ => 0.75%float
                     end;
  consumidos := 0
|}.

(** A point whose stored base consumption is negative. *)
Definition punto_base_negativa : Punto := {|
  docId := "doc-N3"; id := "N3"; nombre := "Laboratorio";
  activo := true; consumo_base_kwh := (-3)%float; potencia_base_w := 500%float
|}.

(** A point with a huge base consumption, and draws whose second one is
    low. *)
Definition punto_enorme : Punto := {|
  docId := "doc-N5"; id := "N5"; nombre := "Subestacion";
  activo := true; consumo_base_kwh := 1e308%float; potencia_base_w := 500%float
|}.

Definition azar_bajo : Azar := {|
  fuente := fun n => match n with
                     | O => 0.5%float
                     | _ => 0.1%float
                     end;
  consumidos := 0
|}.

(** [c] with other factors. *)
Definition con_factores (c : Config) (simular : bool)
           (pico finde variacion : float) : Config := {|
  INTERVALO_MS := INTERVALO_MS c;
  FECHA_INICIO := FECHA_INICIO c;
  FECHA_FIN := FECHA_FIN c;
  INCREMENTO_TIEMPO_MS := INCREMENTO_TIEMPO_MS c;
  SIMULAR_PICOS := simular;
  HORARIOS_PICO := HORARIOS_PICO c;
  FACTOR_PICO := pico;
  FACTOR_FIN_SEMANA := finde;
  VARIACION_CONSUMO := variacion;
  PROBABILIDAD_ERROR := PROBABILIDAD_ERROR c;
  BATCH_SIZE := BATCH_SIZE c;
  DELAY_ENTRE_LOTES := DELAY_ENTRE_LOTES c
|}.

(** Wednesday 2025-01-01 and Saturday 2025-01-04, 09:00 local time. *)
Definition miercoles_9h (tz : Z) : Fecha := Date.local tz Date.dia_2025_01_01 9.
Definition sabado_9h (tz : Z) : Fecha := Date.local tz (Date.dia_2025_01_01 + 3) 9.

Definition miercoles_12h (tz : Z) : Fecha := Date.local tz Date.dia_2025_01_01 12.

(** Peaks switched on, everything else as in config.js. *)
Definition CONFIG_picos (tz : Z) : Config := {|
  INTERVALO_MS := 10000;
  FECHA_INICIO := Some (Date.local tz Date.dia_2025_01_01 0);
  FECHA_FIN := None;
  INCREMENTO_TIEMPO_MS := 3600000;
  SIMULAR_PICOS := true;
  HORARIOS_PICO := {| MANANA := {| inicio := 8; fin := 12 |};
                      TARDE := {| inicio := 14; fin := 18 |} |};
  FACTOR_PICO := 1.5%float;
  FACTOR_FIN_SEMANA := 0.3%float;
  VARIACION_CONSUMO := 0.2%float;
  PROBABILIDAD_ERROR := 0.02%float;
  BATCH_SIZE := 10;
  DELAY_ENTRE_LOTES := 1000
|}.

(** A historical range of three hours, 2025-01-01 00:00:00 to 03:00:00
    local time, in steps of one hour. *)
Definition CONFIG_tres_horas (tz : Z) : Config := {|
  INTERVALO_MS := 10000;
  FECHA_INICIO := Some (Date.local tz Date.dia_2025_01_01 0);
  FECHA_FIN := Some (Date.local tz Date.dia_2025_01_01 3);
  INCREMENTO_TIEMPO_MS := 3600000;
  SIMULAR_PICOS := false;
  HORARIOS_PICO := {| MANANA := {| inicio := 8; fin := 12 |};
                      TARDE := {| inicio := 14; fin := 18 |} |};
  FACTOR_PICO := 1.5%float;
  FACTOR_FIN_SEMANA := 0.3%float;
  VARIACION_CONSUMO := 0.2%float;
  PROBABILIDAD_ERROR := 0.02%float;
  BATCH_SIZE := 10;
  DELAY_ENTRE_LOTES := 1000
|}.

(** No dates: real-time mode. *)
Definition CONFIG_tiempo_real : Config := {|
  INTERVALO_MS := 10000;
  FECHA_INICIO := None;
  FECHA_FIN := None;
  INCREMENTO_TIEMPO_MS := 3600000;
  SIMULAR_PICOS := false;
  HORARIOS_PICO := {| MANANA := {| inicio := 8; fin := 12 |};
                      TARDE := {| inicio := 14; fin := 18 |} |};
  FACTOR_PICO := 1.5%float;
  FACTOR_FIN_SEMANA := 0.3%float;
  VARIACION_CONSUMO := 0.2%float;
  PROBABILIDAD_ERROR := 0.02%float;
  BATCH_SIZE := 10;
  DELAY_ENTRE_LOTES := 1000
|}.

(** A wall-clock reading later than every date above. *)
Definition reloj : Fecha := 1767225600000.

(** *** Sample executions of the server *)

(** The current edition, logged in, one point loaded, a range of three
    hours; the generator reads the values of config.js. *)
Definition servidor_ejemplo : Servidor.Proceso :=
  Servidor.proceso_inicial (CONFIG_tres_horas tz_sv) [punto_N1] azar_fijo.

Definition paso_ejemplo := Servidor.paso tz_sv (CONFIG_inicial tz_sv).
Definition correr_ejemplo := Servidor.correr tz_sv (CONFIG_inicial tz_sv).

(** Start, and the only send of the first cycle resolves: the run now
    waits for its next timeout. *)
Definition hasta_la_pausa : list (Fecha * Servidor.Evento) :=
  [(reloj, Servidor.PostIniciar); (reloj, Servidor.EnvioResuelto 0 true)].

(** Stop during that wait, start again before the timeout fires, then the
    old timeout fires and the two pending sends resolve. *)
Definition detener_y_reiniciar : list (Fecha * Servidor.Evento) :=
  [(reloj, Servidor.PostDetener); (reloj, Servidor.PostIniciar);
   (reloj, Servidor.Vence 0);
   (reloj, Servidor.EnvioResuelto 0 true); (reloj, Servidor.EnvioResuelto 0 true)].

(** The same server when the login left no point loaded.  Two requests
    to start arrive before either has its points; the first gets them,
    its only send resolves, and its run waits for the next timeout while
    the second request still awaits its points. *)
Definition servidor_sin_cargar : Servidor.Proceso :=
  Servidor.proceso_inicial (CONFIG_tres_horas tz_sv) [] azar_fijo.

Definition pausa_con_inicio_pendiente : list (Fecha * Servidor.Evento) :=
  [(reloj, Servidor.PostIniciar); (reloj, Servidor.PostIniciar);
   (reloj, Servidor.PuntosObtenidos 0 (Some [punto_N1]));
   (reloj, Servidor.EnvioResuelto 1 true)].

(** Stop during that wait; then the second request gets its points, the
    old timeout fires and the two pending sends resolve.  No request to
    start arrives after the stop. *)
Definition detener_y_llegan_puntos : list (Fecha * Servidor.Evento) :=
  [(reloj, Servidor.PostDetener);
   (reloj, Servidor.PuntosObtenidos 0 (Some [punto_N1]));
   (reloj, Servidor.Vence 0);
   (reloj, Servidor.EnvioResuelto 0 true); (reloj, Servidor.EnvioResuelto 0 true)].

(** The basic edition, fresh, in real-time mode. *)
Definition servidor_basico : Servidor.Proceso :=
  {| Servidor.sim :=
       {| Servidor.corriendo := false; Servidor.autenticado := false;
          Servidor.puntos := []; Servidor.lecturas := [];
          Servidor.totalEnviadas := 0; Servidor.ultimaLectura := None;
          Servidor.intervalo := None; Servidor.config := CONFIG_tiempo_real |};
     Servidor.sesion := false; Servidor.tareas := []; Servidor.azar := azar_fijo;
     Servidor.almacen := []; Servidor.emitido := []; Servidor.siguiente := 0;
     Servidor.ciclos := [] |}.

(** Two requests to start, the second while the first still awaits the
    login; both log in, and the first gets its points. *)
Definition doble_inicio : list (Fecha * Servidor.Evento) :=
  [(reloj, Servidor.PostIniciar1); (reloj, Servidor.PostIniciar1);
   (reloj, Servidor.SesionIniciada 0 true); (reloj, Servidor.SesionIniciada 0 true);
   (reloj, Servidor.PuntosObtenidos 0 (Some [punto_N1]))].

(** The second request gets its points too. *)
Definition segundo_inicio : Servidor.Evento :=
  Servidor.PuntosObtenidos 0 (Some [punto_N1]).

(** Stop, and ten seconds later the interval that is still armed fires. *)
Definition detener_y_tic : list (Fecha * Servidor.Evento) :=
  [(reloj, Servidor.PostDetener); (reloj + 10000, Servidor.Tic 1)].

(** Three active points, and a Firestore that rejects the first write. *)
Definition tres_puntos : list Punto :=
  [punto_N1; punto_base_negativa;
   {| docId := "doc-N4"; id := "N4"; nombre := "Cafeteria"; activo := true;
      consumo_base_kwh := 6%float; potencia_base_w := 700%float |}].

Definition falla_el_primero (n : nat) : bool := negb (Nat.eqb n 0).

(** A cycle of the server over the three points: the second send is
    rejected, the others resolve. *)
Definition ciclo_con_fallo : list (Fecha * Servidor.Evento) :=
  [(reloj, Servidor.PostIniciar);
   (reloj, Servidor.EnvioResuelto 0 true);
   (reloj, Servidor.EnvioResuelto 0 false);
   (reloj, Servidor.EnvioResuelto 0 true)].

(* ================================================================== *)
(** * The rest of the program                                          *)
(* ================================================================== *)

(* ================================================================== *)
(** ** config/config.js: validarConfiguracion                          *)
(* ================================================================== *)

Module Configuracion.

(** The object [{ valido, errores }]. *)
Record Validacion := { valido : bool; errores : list string }.

(** [errores.push(e)] under the condition [b]. *)
Definition push_si (b : bool) (e : string) (errores : list string) : list string :=
  if b then errores ++ [e] else errores.

(** [validarConfiguracion()].  The two dates of [Config] are what
    [parsearFecha] makes of the configured strings. *)
Definition validarConfiguracion (CONFIG : Config) : Validacion :=
  let errores := [] in
  let errores :=
    push_si (INTERVALO_MS CONFIG <? 1000)
            "INTERVALO_MS debe ser al menos 1000ms (1 segundo)" errores in
  let errores :=
    match FECHA_INICIO CONFIG, FECHA_FIN CONFIG with
    | Some inicio, Some fin =>
        push_si (fin <=? inicio)
                "FECHA_INICIO debe ser anterior a FECHA_FIN" errores
    | _, _ => errores
    end in
  let errores :=
    push_si (FACTOR_PICO CONFIG <? 1)%float
            "FACTOR_PICO debe ser al menos 1" errores in
  let errores :=
    push_si ((FACTOR_FIN_SEMANA CONFIG <? 0)%float
             || (1 <? FACTOR_FIN_SEMANA CONFIG)%float)
            "FACTOR_FIN_SEMANA debe estar entre 0 y 1" errores in
  {| valido := Nat.eqb (List.length errores) 0; errores := errores |}.

End Configuracion.

(** [c] with another INCREMENTO_TIEMPO_MS. *)
Definition con_incremento (c : Config) (k : Z) : Config := {|
  INTERVALO_MS := INTERVALO_MS c;
  FECHA_INICIO := FECHA_INICIO c;
  FECHA_FIN := FECHA_FIN c;
  INCREMENTO_TIEMPO_MS := k;
  SIMULAR_PICOS := SIMULAR_PICOS c;
  HORARIOS_PICO := HORARIOS_PICO c;
  FACTOR_PICO := FACTOR_PICO c;
  FACTOR_FIN_SEMANA := FACTOR_FIN_SEMANA c;
  VARIACION_CONSUMO := VARIACION_CONSUMO c;
  PROBABILIDAD_ERROR := PROBABILIDAD_ERROR c;
  BATCH_SIZE := BATCH_SIZE c;
  DELAY_ENTRE_LOTES := DELAY_ENTRE_LOTES c
|}.

(* ================================================================== *)
(** ** src/envio.js: enviarLecturasBatch                               *)
(* ================================================================== *)

Module Envio.

(** The loop of [enviarLecturasBatch] from the readings [lecturas] on,
    [enviadas] being the count so far.  [None]: an [enviarLectura]
    rejected and the exception left the function. *)
Fixpoint enviarDesde (lecturas : list Lectura) (enviadas : Z) (m : Cli.Mundo)
  : option Z * Cli.Mundo :=
  match lecturas with
  | [] => (Some enviadas, m)
  | lectura :: resto =>
      let (ok, m1) := Cli.enviarLectura lectura m in
      if ok then enviarDesde resto (enviadas + 1) m1 else (None, m1)
  end.

Definition enviarLecturasBatch (lecturas : list Lectura) (m : Cli.Mundo)
  : option Z * Cli.Mundo :=
  enviarDesde lecturas 0 m.

(** How many of the writes asked for from the [k]-th on resolve before
    the first one that is rejected, [n] at most. *)
Fixpoint resueltas (envio : nat -> bool) (k n : nat) : nat :=
  match n with
  | O => O
  | S n' => if envio k then S (resueltas envio (S k) n') else O
  end.

End Envio.

(* ================================================================== *)
(** ** index.js: iniciar                                               *)
(* ================================================================== *)

Module Principal.

(** What [iniciar] and the functions it calls print around the run. *)
Inductive Aviso :=
| Cabecera                                   (* console.clear() and the banner *)
| ErroresDeConfiguracion (errores : list string)
| ConfiguracionMostrada                      (* mostrarConfiguracion() *)
| Autenticando
| Autenticado                                (* printed by loginSimulador *)
| ObteniendoPuntos
| SinPuntos
| PuntosMostrados (puntos : list Punto)      (* mostrarPuntos(puntos) *)
| IniciandoSimulacion
| ModoTiempoReal (intervaloMs : Z)           (* head of ejecutarTiempoReal *)
| ModoHistorico                              (* head of ejecutarHistorico *)
| ErrorFatal.

(** How [iniciar] leaves the process: the exit code ([None] when the
    process stays alive), what was printed before the run, the world
    after it, and whether an interval is armed. *)
Record Final := {
  salida : option Z;
  avisos : list Aviso;
  mundo : Cli.Mundo;
  intervalo : bool
}.

Section Iniciar.

Variable tz : Z.
Variable CONFIG : Config.

(** [ejecutarTiempoReal] up to [setInterval]: the first cycle. *)
Definition ejecutarTiempoReal (ahora : Fecha) (puntos : list Punto)
           (m : Cli.Mundo) : Cli.Mundo :=
  Cli.cicloLecturas tz CONFIG puntos ahora m.

(** [iniciar()].  [sesion] tells whether [loginSimulador] resolves,
    [obtenidos] what [obtenerPuntos] resolves with ([None]: it rejects);
    [n] bounds the turns of the historical loop. *)
Definition iniciar (n : nat) (ahora : Fecha) (sesion : bool)
           (obtenidos : option (list Punto)) (m : Cli.Mundo) : option Final :=
  let v := Configuracion.validarConfiguracion CONFIG in
  if negb (Configuracion.valido v) then
    Some {| salida := Some 1;
            avisos := [Cabecera; ErroresDeConfiguracion (Configuracion.errores v)];
            mundo := m; intervalo := false |}
  else
    let av := [Cabecera; ConfiguracionMostrada; Autenticando] in
    if negb sesion then
      Some {| salida := Some 1; avisos := av ++ [ErrorFatal];
              mundo := m; intervalo := false |}
    else
      let av := av ++ [Autenticado; ObteniendoPuntos] in
      match obtenidos with
      | None =>
          Some {| salida := Some 1; avisos := av ++ [ErrorFatal];
                  mundo := m; intervalo := false |}
      | Some [] =>
          Some {| salida := Some 1; avisos := av ++ [SinPuntos];
                  mundo := m; intervalo := false |}
      | Some puntos =>
          let av := av ++ [PuntosMostrados puntos; IniciandoSimulacion] in
          if String.eqb (MODO CONFIG) "historico" then
            match Cli.iniciar tz CONFIG n ahora puntos m with
            | None => None
            | Some (codigo, m') =>
                Some {| salida := Some codigo; avisos := av ++ [ModoHistorico];
                        mundo := m'; intervalo := false |}
            end
          else
            Some {| salida := None;
                    avisos := av ++ [ModoTiempoReal (INTERVALO_MS CONFIG)];
                    mundo := ejecutarTiempoReal ahora puntos m;
                    intervalo := true |}
      end.

End Iniciar.

End Principal.

(** The point and the instant a reading is for. *)
Definition marca (l : Lectura) : string * Fecha := (id_punto l, fecha l).

(** The pauses among the lines of the console, in order. *)
Fixpoint pausas (c : list Cli.Linea) : list Z :=
  match c with
  | [] => []
  | Cli.Pausa ms :: r => ms :: pausas r
  | _ :: r => pausas r
  end.

(* ================================================================== *)
(** ** src/obtenerPuntos.js: obtenerIdsPuntos                          *)
(* ================================================================== *)

(** [obtenerIdsPuntos], given the documents [getDocs] resolved with. *)
Definition obtenerIdsPuntos (Number_toString : float -> string)
           (docs : list Doc.Snapshot) : list JS.Valor :=
  map ObtenerPuntos.id (ObtenerPuntos.obtenerPuntos Number_toString docs).

(* ================================================================== *)
(** ** src/generador.js: debugLectura                                  *)
(* ================================================================== *)

Module Depuracion.

(** The object [debugLectura] returns.  [dia_semana] is [None] when the
    index falls outside the array of names ([undefined]). *)
Record Debug := {
  punto_id : string;
  punto_activo : bool;
  consumo_base : float;
  fecha : string;
  hora : Z;
  dia_semana : option string;
  es_fin_semana : bool;
  es_horario_pico : bool;
  simular_picos_activo : bool;
  deberia_aplicar_pico : bool
}.

Definition nombres_de_dia : list string :=
  ["Dom"; "Lun"; "Mar"; "Mie"; "Jue"; "Vie"; "Sab"]%string.

Section Debug.

Variable tz : Z.
Variable CONFIG : Config.

(** [Date.prototype.toISOString]. *)
Variable toISOString : Fecha -> string.

Definition debugLectura (punto : Punto) (fecha : Fecha) : Debug :=
  let hora := Date.getHours tz fecha in
  let diaSemana := Date.getDay tz fecha in
  {| punto_id := id punto;
     punto_activo := activo punto;
     consumo_base := consumo_base_kwh punto;
     fecha := toISOString fecha;
     hora := hora;
     dia_semana := if diaSemana <? 0 then None
                   else nth_error nombres_de_dia (Z.to_nat diaSemana);
     es_fin_semana := (diaSemana =? 0) || (diaSemana =? 6);
     es_horario_pico := esHorarioPico CONFIG hora;
     simular_picos_activo := SIMULAR_PICOS CONFIG;
     deberia_aplicar_pico := deberiaaplicarPico CONFIG fecha |}.

End Debug.

End Depuracion.

(* ================================================================== *)
(** ** server.js: the requests outside the clocks                      *)
(* ================================================================== *)

(** The handlers below belong to the current edition of server.js
    unless they say otherwise.  A handler that awaits is given from the
    moment what it awaits settles, with the outcome as an argument; the
    toggles, which read the points before they await, are given in two
    halves.  What a handler emits is returned in order beside the new
    state; the emissions of [detenerSimulador], when a handler calls it,
    come first and are in the process. *)

Module Api.

Import Servidor.

Inductive Aviso :=
| AuthStatus (autenticado : bool)
| PuntoActualizado (idPunto : string) (activo : bool)
| Puntos (ps : list Punto)
| LogPunto (idPunto : string) (activo : bool)
| LogTodos (activo : bool)
| LogErrorActualizar (idPunto : string)
| LogSesionCerrada
| LogLogin
| LogLoginFallido (mensaje : string)
| LogPuntosCargados (n : nat)
| ConfigUpdated (c : Config).

(** *** GET /api/lecturas *)

(** [simuladorState.lecturas.slice(-50)]. *)
Definition api_lecturas (w : Proceso) : list LecturaVista :=
  skipn (List.length (lecturas (sim w)) - 50) (lecturas (sim w)).

(** *** POST /api/puntos/:id/toggle and /api/puntos/toggle-all *)

(** The two handlers work on the objects of [simuladorState.puntos],
    which a cycle in flight shares; they are given as functions of that
    array, an object being known by its position. *)

Definition poner_activo (b : bool) (p : Punto) : Punto :=
  {| docId := docId p; id := id p; nombre := nombre p; activo := b;
     consumo_base_kwh := consumo_base_kwh p;
     potencia_base_w := potencia_base_w p |}.

(** [puntos.find(p => p.id === puntoId)]: the first match and its
    position. *)
Fixpoint buscar (puntoId : string) (ps : list Punto) : option (nat * Punto) :=
  match ps with
  | [] => None
  | p :: r =>
      if String.eqb (id p) puntoId then Some (O, p)
      else match buscar puntoId r with
           | Some (i, q) => Some (S i, q)
           | None => None
           end
  end.

(** [punto.activo = b] for the object at position [i]. *)
Fixpoint asignar (i : nat) (b : bool) (ps : list Punto) : list Punto :=
  match ps, i with
  | [], _ => []
  | p :: r, O => poner_activo b p :: r
  | p :: r, S i' => p :: asignar i' b r
  end.

(** A toggle suspended at [await updateDoc]: the object found, the id
    asked for and the state being written. *)
Record Cambio := { posicion : nat; idPedido : string; nuevoEstado : bool }.

(** The toggle of one point up to its await: an answer, or a write. *)
Definition toggle_pedir (sesion : bool) (puntoId : string) (ps : list Punto)
  : Respuesta + Cambio :=
  if negb sesion then inl {| codigo := 401; success := false |}
  else
    match buscar puntoId ps with
    | None => inl {| codigo := 404; success := false |}
    | Some (i, punto) =>
        inr {| posicion := i; idPedido := puntoId;
               nuevoEstado := negb (activo punto) |}
    end.

(** [updateDoc] settled: the rest of the try block, or the catch. *)
Definition toggle_resolver (ok : bool) (c : Cambio) (ps : list Punto)
  : list Punto * list Aviso * Respuesta :=
  if ok then
    let ps' := asignar (posicion c) (nuevoEstado c) ps in
    (ps',
     [PuntoActualizado (idPedido c) (nuevoEstado c); Puntos ps';
      LogPunto (idPedido c) (nuevoEstado c)],
     {| codigo := 200; success := true |})
  else
    (ps, [LogErrorActualizar (idPedido c)],
     {| codigo := 500; success := false |}).

(** The request served alone: nothing else touches the points while
    its write is pending. *)
Definition api_toggle (sesion : bool) (puntoId : string) (ok : bool)
           (ps : list Punto) : list Punto * list Aviso * Respuesta :=
  match toggle_pedir sesion puntoId ps with
  | inl r => (ps, [], r)
  | inr c => toggle_resolver ok c ps
  end.

(** The loop of toggle-all from the [k]-th [updateDoc] on, served
    alone: the points after the loop, and whether it reached the end
    ([false]: an update was rejected and the exception left the loop). *)
Fixpoint actualizarTodos (activo : bool) (resuelve : nat -> bool) (k : nat)
         (ps : list Punto) : list Punto * bool :=
  match ps with
  | [] => ([], true)
  | punto :: resto =>
      if resuelve k then
        let (resto', fin) := actualizarTodos activo resuelve (S k) resto in
        (poner_activo activo punto :: resto', fin)
      else (punto :: resto, false)
  end.

(** The request body carries the boolean [activo]. *)
Definition api_toggle_all (sesion : bool) (activo : bool) (resuelve : nat -> bool)
           (ps : list Punto) : list Punto * list Aviso * Respuesta :=
  if negb sesion then (ps, [], {| codigo := 401; success := false |})
  else
    let (ps', fin) := actualizarTodos activo resuelve 0 ps in
    if fin then
      (ps', [Puntos ps'; LogTodos activo], {| codigo := 200; success := true |})
    else (ps', [], {| codigo := 500; success := false |}).

(** *** POST /api/logout and /api/login *)

Definition poner_sesion (b : bool) (w : Proceso) : Proceso :=
  {| sim := sim w; sesion := b; tareas := tareas w; azar := azar w;
     almacen := almacen w; emitido := emitido w; siguiente := siguiente w;
     ciclos := ciclos w |}.

(** [ok]: [signOut] resolved, and [auth.currentUser] is null from then
    on. *)
Definition api_logout (ok : bool) (w : Proceso)
  : Proceso * list Aviso * Respuesta :=
  if ok then
    let w := poner_sesion false w in
    let w := if corriendo (sim w) then detenerSimulador w else w in
    (w, [AuthStatus false; LogSesionCerrada],
     {| codigo := 200; success := true |})
  else (w, [], {| codigo := 500; success := false |}).

(** A rejection as the catch of /api/login sees it: [error.code] (absent
    on what is not an error of Firebase Auth) and [error.message]. *)
Record ErrorJS := { code : option string; message : string }.

(** The [switch (error.code)] of the catch. *)
Definition mensaje_de (error : ErrorJS) : string :=
  match code error with
  | Some c =>
      if String.eqb c "auth/invalid-email"
      then "El correo electrónico no es válido"
      else if String.eqb c "auth/user-not-found"
      then "No existe una cuenta con este correo"
      else if String.eqb c "auth/wrong-password"
      then "Contraseña incorrecta"
      else if String.eqb c "auth/invalid-credential"
      then "Credenciales inválidas"
      else if String.eqb c "auth/too-many-requests"
      then "Demasiados intentos. Intenta más tarde"
      else message error
  | None => message error
  end.

Record RespuestaLogin := {
  l_codigo : Z;
  l_success : bool;
  l_message : string
}.

Definition login_fallido (error : ErrorJS) (w : Proceso)
  : Proceso * list Aviso * RespuestaLogin :=
  (w, [LogLoginFallido (mensaje_de error)],
   {| l_codigo := 401; l_success := false; l_message := mensaje_de error |}).

(** The login has two awaits.  [signInWithEmailAndPassword] resolved:
    the session is open from this moment. *)
Definition login_sesion (w : Proceso) : Proceso := poner_sesion true w.

(** Then [obtenerPuntos] settles: with the points, or with a rejection
    that the handler's catch answers like a failed login. *)
Definition login_puntos (obtenidos : ErrorJS + list Punto) (w : Proceso)
  : Proceso * list Aviso * RespuestaLogin :=
  match obtenidos with
  | inr ps =>
      (con_sim (poner_puntos ps) w,
       [LogLogin; AuthStatus true; Puntos ps; LogPuntosCargados (List.length ps)],
       {| l_codigo := 200; l_success := true;
          l_message := "Autenticación exitosa" |})
  | inl error => login_fallido error w
  end.

(** The whole request, served alone: no Firebase call without both
    credentials.  [entra] is the rejection of the sign-in, if any. *)
Definition api_login (email password : JS.Valor) (entra : option ErrorJS)
           (obtenidos : ErrorJS + list Punto) (w : Proceso)
  : Proceso * list Aviso * RespuestaLogin :=
  if negb (JS.ToBoolean email) || negb (JS.ToBoolean password) then
    (w, [],
     {| l_codigo := 400; l_success := false;
        l_message := "Email y contraseña son requeridos" |})
  else
    match entra with
    | None => login_puntos obtenidos (login_sesion w)
    | Some error => login_fallido error w
    end.

(** *** POST /api/config *)

(** A date field of the body: absent, empty (or null), or a string
    that denotes the instant [t]. *)
Inductive CampoFecha := Ausente | Vacia | Dada (t : Fecha).

Definition dada (f : CampoFecha) : option Fecha :=
  match f with
  | Dada t => Some t
  | _ => None
  end.

(** The body as the page sends it: numbers, booleans and date strings,
    each field possibly absent. *)
Record Cuerpo := {
  intervalo : option Z;
  fechaInicio : CampoFecha;
  fechaFin : CampoFecha;
  simularPicos : option bool;
  factorPico : option float;
  factorFinSemana : option float
}.

Inductive ErrorConfig :=
| InicioNoAnterior
| DemasiadasLecturas (totalLecturas : Z)
| IntervaloMinimo.

Record RespuestaConfig := {
  rc_codigo : Z;
  rc_errores : list ErrorConfig;
  rc_config : Config
}.

(** Assignments to one field of [simuladorState.config]. *)
Definition con_INTERVALO_MS (v : Z) (c : Config) : Config := {|
  INTERVALO_MS := v; FECHA_INICIO := FECHA_INICIO c; FECHA_FIN := FECHA_FIN c;
  INCREMENTO_TIEMPO_MS := INCREMENTO_TIEMPO_MS c; SIMULAR_PICOS := SIMULAR_PICOS c;
  HORARIOS_PICO := HORARIOS_PICO c; FACTOR_PICO := FACTOR_PICO c;
  FACTOR_FIN_SEMANA := FACTOR_FIN_SEMANA c; VARIACION_CONSUMO := VARIACION_CONSUMO c;
  PROBABILIDAD_ERROR := PROBABILIDAD_ERROR c; BATCH_SIZE := BATCH_SIZE c;
  DELAY_ENTRE_LOTES := DELAY_ENTRE_LOTES c |}.

Definition con_FECHA_INICIO (v : option Fecha) (c : Config) : Config := {|
  INTERVALO_MS := INTERVALO_MS c; FECHA_INICIO := v; FECHA_FIN := FECHA_FIN c;
  INCREMENTO_TIEMPO_MS := INCREMENTO_TIEMPO_MS c; SIMULAR_PICOS := SIMULAR_PICOS c;
  HORARIOS_PICO := HORARIOS_PICO c; FACTOR_PICO := FACTOR_PICO c;
  FACTOR_FIN_SEMANA := FACTOR_FIN_SEMANA c; VARIACION_CONSUMO := VARIACION_CONSUMO c;
  PROBABILIDAD_ERROR := PROBABILIDAD_ERROR c; BATCH_SIZE := BATCH_SIZE c;
  DELAY_ENTRE_LOTES := DELAY_ENTRE_LOTES c |}.

Definition con_FECHA_FIN (v : option Fecha) (c : Config) : Config := {|
  INTERVALO_MS := INTERVALO_MS c; FECHA_INICIO := FECHA_INICIO c; FECHA_FIN := v;
  INCREMENTO_TIEMPO_MS := INCREMENTO_TIEMPO_MS c; SIMULAR_PICOS := SIMULAR_PICOS c;
  HORARIOS_PICO := HORARIOS_PICO c; FACTOR_PICO := FACTOR_PICO c;
  FACTOR_FIN_SEMANA := FACTOR_FIN_SEMANA c; VARIACION_CONSUMO := VARIACION_CONSUMO c;
  PROBABILIDAD_ERROR := PROBABILIDAD_ERROR c; BATCH_SIZE := BATCH_SIZE c;
  DELAY_ENTRE_LOTES := DELAY_ENTRE_LOTES c |}.

Definition con_SIMULAR_PICOS (v : bool) (c : Config) : Config := {|
  INTERVALO_MS := INTERVALO_MS c; FECHA_INICIO := FECHA_INICIO c;
  FECHA_FIN := FECHA_FIN c;
  INCREMENTO_TIEMPO_MS := INCREMENTO_TIEMPO_MS c; SIMULAR_PICOS := v;
  HORARIOS_PICO := HORARIOS_PICO c; FACTOR_PICO := FACTOR_PICO c;
  FACTOR_FIN_SEMANA := FACTOR_FIN_SEMANA c; VARIACION_CONSUMO := VARIACION_CONSUMO c;
  PROBABILIDAD_ERROR := PROBABILIDAD_ERROR c; BATCH_SIZE := BATCH_SIZE c;
  DELAY_ENTRE_LOTES := DELAY_ENTRE_LOTES c |}.

Definition con_FACTOR_PICO (v : float) (c : Config) : Config := {|
  INTERVALO_MS := INTERVALO_MS c; FECHA_INICIO := FECHA_INICIO c;
  FECHA_FIN := FECHA_FIN c;
  INCREMENTO_TIEMPO_MS := INCREMENTO_TIEMPO_MS c; SIMULAR_PICOS := SIMULAR_PICOS c;
  HORARIOS_PICO := HORARIOS_PICO c; FACTOR_PICO := v;
  FACTOR_FIN_SEMANA := FACTOR_FIN_SEMANA c; VARIACION_CONSUMO := VARIACION_CONSUMO c;
  PROBABILIDAD_ERROR := PROBABILIDAD_ERROR c; BATCH_SIZE := BATCH_SIZE c;
  DELAY_ENTRE_LOTES := DELAY_ENTRE_LOTES c |}.

Definition con_FACTOR_FIN_SEMANA (v : float) (c : Config) : Config := {|
  INTERVALO_MS := INTERVALO_MS c; FECHA_INICIO := FECHA_INICIO c;
  FECHA_FIN := FECHA_FIN c;
  INCREMENTO_TIEMPO_MS := INCREMENTO_TIEMPO_MS c; SIMULAR_PICOS := SIMULAR_PICOS c;
  HORARIOS_PICO := HORARIOS_PICO c; FACTOR_PICO := FACTOR_PICO c;
  FACTOR_FIN_SEMANA := v; VARIACION_CONSUMO := VARIACION_CONSUMO c;
  PROBABILIDAD_ERROR := PROBABILIDAD_ERROR c; BATCH_SIZE := BATCH_SIZE c;
  DELAY_ENTRE_LOTES := DELAY_ENTRE_LOTES c |}.

Definition poner_config (c : Config) (s : SimuladorState) : SimuladorState :=
  {| corriendo := corriendo s; autenticado := autenticado s; puntos := puntos s;
     lecturas := lecturas s; totalEnviadas := totalEnviadas s;
     ultimaLectura := ultimaLectura s; Servidor.intervalo := Servidor.intervalo s;
     config := c |}.

(** [if (x) config.F = x] for a number: zero and NaN are falsy. *)
Definition si_numero (x : option float) (poner : float -> Config -> Config)
           (c : Config) : Config :=
  match x with
  | Some v => if JS.ToBoolean (JS.number v) then poner v c else c
  | None => c
  end.

(** The assignments that follow the two guarded blocks, common to both
    editions of the handler. *)
Definition resto_config (b : Cuerpo) (c : Config) : Config :=
  let c := match simularPicos b with
           | Some v => con_SIMULAR_PICOS v c
           | None => c
           end in
  let c := si_numero (factorPico b) con_FACTOR_PICO c in
  si_numero (factorFinSemana b) con_FACTOR_FIN_SEMANA c.

(** The current edition: it validates, but assigns as it goes. *)
Definition api_config (b : Cuerpo) (w : Proceso)
  : Proceso * list Aviso * RespuestaConfig :=
  let c := config (sim w) in
  let errores := [] in
  let '(errores, c) :=
    match fechaInicio b, fechaFin b with
    | Dada inicio, Dada fin =>
        let errores := if fin <=? inicio then errores ++ [InicioNoAnterior]
                       else errores in
        let diff := fin - inicio in
        let incremento := if INCREMENTO_TIEMPO_MS c =? 0 then 3600000
                          else INCREMENTO_TIEMPO_MS c in
        let totalLotes := ceil_div diff incremento in
        let totalLecturas := totalLotes * Z.of_nat (List.length (puntos (sim w))) in
        let errores := if 10000 <? totalLecturas
                       then errores ++ [DemasiadasLecturas totalLecturas]
                       else errores in
        (errores, con_FECHA_FIN (Some fin) (con_FECHA_INICIO (Some inicio) c))
    | _, _ => (errores, c)
    end in
  let '(errores, c) :=
    match intervalo b with
    | Some v =>
        if v =? 0 then (errores, c)
        else
          let errores := if v <? 5 then errores ++ [IntervaloMinimo] else errores in
          (errores, con_INTERVALO_MS (v * 1000) c)
    | None => (errores, c)
    end in
  let c :=
    match fechaInicio b, fechaFin b with
    | Ausente, _ | _, Dada _ => c
    | f, _ => con_FECHA_INICIO (dada f) c
    end in
  let c :=
    match fechaFin b, fechaInicio b with
    | Ausente, _ | _, Dada _ => c
    | f, _ => con_FECHA_FIN (dada f) c
    end in
  let c := resto_config b c in
  let w := con_sim (poner_config c) w in
  match errores with
  | [] => (w, [ConfigUpdated c], {| rc_codigo := 200; rc_errores := []; rc_config := c |})
  | _ :: _ => (w, [], {| rc_codigo := 400; rc_errores := errores; rc_config := c |})
  end.

(** The basic edition: no validation at all. *)
Definition api_config1 (b : Cuerpo) (w : Proceso)
  : Proceso * list Aviso * RespuestaConfig :=
  let c := config (sim w) in
  let c := match intervalo b with
           | Some v => if v =? 0 then c else con_INTERVALO_MS (v * 1000) c
           | None => c
           end in
  let c := match fechaInicio b with
           | Ausente => c
           | f => con_FECHA_INICIO (dada f) c
           end in
  let c := match fechaFin b with
           | Ausente => c
           | f => con_FECHA_FIN (dada f) c
           end in
  let c := resto_config b c in
  (con_sim (poner_config c) w, [ConfigUpdated c],
   {| rc_codigo := 200; rc_errores := []; rc_config := c |}).

End Api.

(* ================================================================== *)
(** ** server.js: checkFirebaseHealth                                  *)
(* ================================================================== *)

Module Salud.

Record Estado := { firebaseHealthy : bool; lastFirebaseCheck : Fecha }.

Inductive Aviso :=
| FirebaseStatus (healthy : bool)
| LogRestaurada
| LogSinConexion.

(** One run of [checkFirebaseHealth], at the moment its query settles:
    [usuario] tells whether a user was signed in when it began, [ok]
    whether the query resolved, [ahora] is the clock. *)
Definition checkFirebaseHealth (usuario ok : bool) (ahora : Fecha) (s : Estado)
  : Estado * list Aviso :=
  if negb usuario then (s, [])
  else if ok then
    let '(s, av) :=
      if negb (firebaseHealthy s)
      then ({| firebaseHealthy := true; lastFirebaseCheck := lastFirebaseCheck s |},
            [FirebaseStatus true; LogRestaurada])
      else (s, []) in
    ({| firebaseHealthy := firebaseHealthy s; lastFirebaseCheck := ahora |}, av)
  else if firebaseHealthy s then
    ({| firebaseHealthy := false; lastFirebaseCheck := lastFirebaseCheck s |},
     [FirebaseStatus false; LogSinConexion])
  else (s, []).

(** The checks of a stretch of time, in the order they settle. *)
Fixpoint revisar (cs : list (bool * bool * Fecha)) (s : Estado)
  : Estado * list Aviso :=
  match cs with
  | [] => (s, [])
  | (usuario, ok, ahora) :: cs' =>
      let (s1, av1) := checkFirebaseHealth usuario ok ahora s in
      let (s2, av2) := revisar cs' s1 in
      (s2, av1 ++ av2)
  end.

(** The state the server starts with, at time [t0]. *)
Definition inicial (t0 : Fecha) : Estado :=
  {| firebaseHealthy := true; lastFirebaseCheck := t0 |}.

(** The [firebase-status] values among the emissions. *)
Fixpoint estados (av : list Aviso) : list bool :=
  match av with
  | [] => []
  | FirebaseStatus h :: r => h :: estados r
  | _ :: r => estados r
  end.

(** Each value differs from the one before it, the first from [b]. *)
Fixpoint alterna (b : bool) (l : list bool) : Prop :=
  match l with
  | [] => True
  | x :: r => x = negb b /\ alterna x r
  end.

End Salud.

(* ================================================================== *)
(** ** Measures of the server                                          *)
(* ================================================================== *)

(** By how much the counter of sent readings exceeds the number of
    documents in the collection. *)
Definition saldo (w : Servidor.Proceso) : Z :=
  Servidor.totalEnviadas (Servidor.sim w)
  - Z.of_nat (List.length (Servidor.almacen w)).

(** At most 100 readings are kept for the page. *)
Definition acotadas (w : Servidor.Proceso) : Prop :=
  (List.length (Servidor.lecturas (Servidor.sim w)) <= 100)%nat.

(** From [w] to [w'] the counter follows the collection, the readings
    kept stay within the bound, the session is the same, and what was
    emitted is still there. *)
Definition estable (w w' : Servidor.Proceso) : Prop :=
  saldo w' = saldo w
  /\ (acotadas w -> acotadas w')
  /\ Servidor.sesion w' = Servidor.sesion w
  /\ exists mas, Servidor.emitido w' = Servidor.emitido w ++ mas.

(** [simuladorState.config = cfg]. *)
Definition con_config (cfg : Config) (w : Servidor.Proceso) : Servidor.Proceso :=
  Servidor.con_sim (Api.poner_config cfg) w.

(** The events of a run under way: a stop, and the completions of what
    is pending. *)
Definition es_de_corrida (e : Servidor.Evento) : bool :=
  match e with
  | Servidor.PostDetener | Servidor.Vence _ | Servidor.Tic _
  | Servidor.EnvioResuelto _ _ => true
  | _ => false
  end.

(** The events of the current edition of the server. *)
Definition es_actual (e : Servidor.Evento) : bool :=
  match e with
  | Servidor.PostIniciar1 => false
  | _ => true
  end.

(** The interval that [simuladorState.intervalo] holds while the flag
    is up: the one [detenerSimulador] clears. *)
Definition es_su_intervalo (w : Servidor.Proceso) (t : Servidor.Tarea) : bool :=
  Servidor.corriendo (Servidor.sim w)
  && match Servidor.intervalo (Servidor.sim w) with
     | Some handle => Servidor.es_intervalo handle t
     | None => false
     end.

(** The server rests between two cycles: what is pending is timeouts of
    [procesarLote] and the interval of the run in real time.  No send is
    in flight and no request to start awaits its login or its points. *)
Definition en_reposo (w : Servidor.Proceso) : Prop :=
  forallb (fun t => Servidor.es_temporizador t || es_su_intervalo w t)
          (Servidor.tareas w) = true.

(** A start in real-time mode, and the two sends of its first cycle
    resolve: the run now waits for its interval. *)
Definition hasta_el_intervalo : list (Fecha * Servidor.Evento) :=
  [(reloj, Servidor.PostIniciar);
   (reloj, Servidor.EnvioResuelto 0 true); (reloj, Servidor.EnvioResuelto 1 true)].

(** The current edition at rest in real-time mode, logged in. *)
Definition servidor_tiempo_real : Servidor.Proceso :=
  Servidor.proceso_inicial CONFIG_tiempo_real [punto_N1; punto_apagado] azar_fijo.

(** A request that sets a peak factor of 3 and switches the peaks on,
    and one that asks for a peak factor of -2. *)
Definition cuerpo_picos : Api.Cuerpo :=
  {| Api.intervalo := None; Api.fechaInicio := Api.Ausente;
     Api.fechaFin := Api.Ausente; Api.simularPicos := Some true;
     Api.factorPico := Some 3%float; Api.factorFinSemana := None |}.

Definition cuerpo_negativo : Api.Cuerpo :=
  {| Api.intervalo := None; Api.fechaInicio := Api.Ausente;
     Api.fechaFin := Api.Ausente; Api.simularPicos := None;
     Api.factorPico := Some (-2)%float; Api.factorFinSemana := None |}.


(** A historical range of one day, 2025-01-01 00:00 to 2025-01-02 00:00
    local time, in steps of one hour: 25 instants. *)
Definition CONFIG_un_dia : Config := {|
  INTERVALO_MS := 10000;
  FECHA_INICIO := Some (Date.local tz_sv Date.dia_2025_01_01 0);
  FECHA_FIN := Some (Date.local tz_sv (Date.dia_2025_01_01 + 1) 0);
  INCREMENTO_TIEMPO_MS := 3600000;
  SIMULAR_PICOS := false;
  HORARIOS_PICO := {| MANANA := {| inicio := 8; fin := 12 |};
                      TARDE := {| inicio := 14; fin := 18 |} |};
  FACTOR_PICO := 1.5%float;
  FACTOR_FIN_SEMANA := 0.3%float;
  VARIACION_CONSUMO := 0.2%float;
  PROBABILIDAD_ERROR := 0.02%float;
  BATCH_SIZE := 10;
  DELAY_ENTRE_LOTES := 1000
|}.

(* ================================================================== *)
(** * Properties                                                       *)
(* ================================================================== *)

(* ------------------------------------------------------------------ *)
(** ** Comparisons of binary64 values                                  *)
(* ------------------------------------------------------------------ *)

Lemma Prim2SF_cero : Prim2SF 0%float = S754_zero false.
Proof. reflexivity. Qed.

(** A value that is at least zero is not below zero. *)
Lemma ltb_cero_de_leb (u : float) :
  (0 <=? u)%float = true -> (u <? 0)%float = false.
Proof.
  rewrite FloatAxioms.leb_spec, FloatAxioms.ltb_spec, Prim2SF_cero.
  destruct (Prim2SF u) as [s|s| |s m e]; try destruct s;
    cbv [SFleb SFltb SFcompare]; congruence.
Qed.

(** Rounding a magnitude with the sign bit clear never yields a value
    below zero. *)
Lemma binary_round_aux_no_negativo (m e : Z) (l : location) :
  Num.no_negativo (binary_round_aux prec emax false m e l) = true.
Proof.
  unfold binary_round_aux.
  destruct (shr_fexp prec emax m e l) as [mrs' e'].
  destruct (shr_fexp prec emax _ e' loc_Exact) as [mrs'' e''].
  destruct (shr_m mrs''); [reflexivity | | reflexivity].
  destruct (e'' <=? emax - prec); reflexivity.
Qed.

Lemma binary_round_no_negativo (m : positive) (e : Z) :
  Num.no_negativo (binary_round prec emax false m e) = true.
Proof.
  unfold binary_round.
  destruct (shl_align m e _) as [mz ez].
  apply binary_round_aux_no_negativo.
Qed.

Lemma ltb_cero_no_negativo (x : float) :
  (x <? 0)%float = false <-> Num.no_negativo (Prim2SF x) = true.
Proof.
  rewrite FloatAxioms.ltb_spec, Prim2SF_cero.
  destruct (Prim2SF x) as [s|s| |s m e]; try destruct s;
    cbv [SFltb SFcompare Num.no_negativo negb]; intuition congruence.
Qed.

Lemma SFmul_no_negativo (x y : spec_float) :
  Num.no_negativo x = true -> Num.no_negativo y = true ->
  Num.no_negativo (SFmul prec emax x y) = true.
Proof.
  destruct x as [sx|sx| |sx mx ex], y as [sy|sy| |sy my ey];
    try reflexivity; simpl; intros Hx Hy;
    try (apply negb_true_iff in Hx; subst sx);
    try (apply negb_true_iff in Hy; subst sy);
    try reflexivity.
  apply binary_round_aux_no_negativo.
Qed.

(** The product of two values that are not below zero is not below zero
    (it may be NaN: infinity times zero). *)
Lemma mul_no_negativo (x y : float) :
  (x <? 0)%float = false -> (y <? 0)%float = false ->
  (x * y <? 0)%float = false.
Proof.
  rewrite !ltb_cero_no_negativo, mul_spec. apply SFmul_no_negativo.
Qed.

Lemma SFldexp_no_negativo (x : spec_float) (e : Z) :
  Num.no_negativo x = true -> Num.no_negativo (SFldexp prec emax x e) = true.
Proof.
  destruct x as [s|s| |s m ex]; simpl; auto.
  intros H. apply negb_true_iff in H. subst s. apply binary_round_no_negativo.
Qed.

Lemma SF2Prim_no_negativo (x : spec_float) :
  Num.no_negativo x = true -> Num.no_negativo (Prim2SF (SF2Prim x)) = true.
Proof.
  destruct x as [s|s| |s m e]; simpl.
  - destruct s; reflexivity.
  - intros H. apply negb_true_iff in H. subst s. reflexivity.
  - reflexivity.
  - intros H. apply negb_true_iff in H. subst s.
    rewrite Z_ldexp_spec. apply SFldexp_no_negativo.
    rewrite of_uint63_spec. unfold binary_normalize.
    match goal with
    | |- context [match ?k with Z0 => _ | Zpos _ => _ | Zneg _ => _ end] =>
        assert (Hk : 0 <= k) by apply Uint63.to_Z_bounded;
        destruct k as [|q|q]; [reflexivity | | lia]
    end.
    apply binary_round_no_negativo.
Qed.

Lemma centesimas_no_negativo (n : Z) :
  Num.no_negativo (Num.centesimas n) = true.
Proof.
  destruct n as [|p|p]; try reflexivity.
  unfold Num.centesimas, SFdiv.
  destruct (SFdiv_core_binary prec emax (Z.pos p) 0 100 0) as [[mz ez] lz].
  apply binary_round_aux_no_negativo.
Qed.

(** Rounding to two decimals keeps a value that is not below zero so. *)
Lemma toFixed2_no_negativo (x : float) :
  (x <? 0)%float = false -> (Num.toFixed2 x <? 0)%float = false.
Proof.
  rewrite !ltb_cero_no_negativo. unfold Num.toFixed2.
  destruct (Prim2SF x) as [s|s| |s m e] eqn:E; intros H.
  - reflexivity.
  - now rewrite E.
  - now rewrite E.
  - simpl in H. apply negb_true_iff in H. subst s.
    destruct (1e21 <=? abs x)%float.
    + now rewrite E.
    + apply SF2Prim_no_negativo, centesimas_no_negativo.
Qed.

(** A number (not NaN) that is not below zero is at least zero. *)
Lemma leb_cero_de_no_negativo (x : float) :
  (x <? 0)%float = false -> is_nan x = false -> (0 <=? x)%float = true.
Proof.
  unfold is_nan.
  rewrite FloatAxioms.ltb_spec, FloatAxioms.leb_spec, FloatAxioms.eqb_spec, Prim2SF_cero.
  destruct (Prim2SF x) as [s|s| |s m e]; try destruct s;
    cbv [SFltb SFleb SFeqb SFcompare negb]; congruence.
Qed.

Lemma SFmul_conmuta (x y : spec_float) :
  SFmul prec emax x y = SFmul prec emax y x.
Proof.
  destruct x as [sx|sx| |sx mx ex], y as [sy|sy| |sy my ey]; cbn [SFmul];
    rewrite ?(xorb_comm sx sy); try reflexivity.
  now rewrite (Pos.mul_comm mx my), (Z.add_comm ex ey).
Qed.

(** Binary64 multiplication commutes: [u * 2] is [2 * u]. *)
Lemma mul_conmuta (x y : float) : (x * y)%float = (y * x)%float.
Proof.
  apply Prim2SF_inj. rewrite !mul_spec. apply SFmul_conmuta.
Qed.

Lemma factor_variacion_2u (c : Config) (u : float) :
  factor_variacion c u = (1 + (2 * u - 1) * VARIACION_CONSUMO c)%float.
Proof.
  unfold factor_variacion. now rewrite (mul_conmuta u 2).
Qed.

Lemma por_si_no_negativo (b : bool) (k x : float) :
  (k <? 0)%float = false -> (x <? 0)%float = false ->
  (por_si b k x <? 0)%float = false.
Proof.
  intros Hk Hx. destruct b; simpl; [now apply mul_no_negativo | exact Hx].
Qed.

(* ------------------------------------------------------------------ *)
(** ** The variation factor is not negative                            *)
(* ------------------------------------------------------------------ *)

Lemma digits2_size (p : positive) : digits2_pos p = Pos.size p.
Proof. induction p; simpl; congruence. Qed.

Lemma digits_cotas (p : positive) :
  2 ^ (Zpos (digits2_pos p) - 1) <= Zpos p < 2 ^ Zpos (digits2_pos p).
Proof.
  rewrite digits2_size.
  pose proof (Pos.size_gt p) as Hgt. pose proof (Pos.size_le p) as Hle.
  apply Pos2Z.pos_lt_pos in Hgt. apply Pos2Z.pos_le_pos in Hle.
  rewrite Pos2Z.inj_pow in Hgt, Hle.
  split; [| exact Hgt].
  replace (Zpos (Pos.size p)) with (Z.succ (Zpos (Pos.size p) - 1)) in Hle by lia.
  rewrite Z.pow_succ_r in Hle by lia.
  change (Zpos p~0) with (2 * Zpos p) in Hle. lia.
Qed.

Lemma pow_xO (p : positive) : 2 ^ Zpos p~0 = 2 ^ Zpos p * 2 ^ Zpos p.
Proof.
  replace (Zpos p~0) with (Zpos p + Zpos p) by lia.
  apply Z.pow_add_r; lia.
Qed.

Lemma pow_xI (p : positive) : 2 ^ Zpos p~1 = 2 * (2 ^ Zpos p * 2 ^ Zpos p).
Proof.
  replace (Zpos p~1) with (Z.succ (Zpos p~0)) by lia.
  rewrite Z.pow_succ_r by lia. now rewrite pow_xO.
Qed.

Lemma shr_1_m (mrs : shr_record) :
  0 <= shr_m mrs -> shr_m (shr_1 mrs) = shr_m mrs / 2.
Proof.
  destruct mrs as [m r s]. cbn [shr_m]. intros Hm.
  destruct m as [|p|p]; [reflexivity | | lia].
  destruct p as [p|p|]; cbn [shr_1 shr_m].
  - rewrite Pos2Z.inj_xI. symmetry. symmetry. apply Z.div_unique with 1; lia.
  - rewrite Pos2Z.inj_xO. symmetry. symmetry. apply Z.div_unique with 0; lia.
  - reflexivity.
Qed.

Lemma iter_shr_m (p : positive) :
  forall mrs, 0 <= shr_m mrs ->
  shr_m (iter_pos shr_1 p mrs) = shr_m mrs / 2 ^ Zpos p.
Proof.
  induction p as [p IH|p IH|]; intros mrs Hm; cbn [iter_pos].
  - assert (H1 : 0 <= shr_m (shr_1 mrs)).
    { rewrite shr_1_m by exact Hm. apply Z.div_pos; lia. }
    assert (H2 : 0 <= shr_m (iter_pos shr_1 p (shr_1 mrs))).
    { rewrite IH by exact H1. apply Z.div_pos; [exact H1 | lia]. }
    rewrite IH, IH, shr_1_m by assumption.
    rewrite !Z.div_div by lia. f_equal.
    now rewrite pow_xI.
  - assert (H2 : 0 <= shr_m (iter_pos shr_1 p mrs)).
    { rewrite IH by exact Hm. apply Z.div_pos; [exact Hm | lia]. }
    rewrite IH, IH by assumption.
    rewrite !Z.div_div by lia. f_equal.
    now rewrite pow_xO.
  - now apply shr_1_m.
Qed.

Lemma shr_1_exacto (mrs : shr_record) :
  0 <= shr_m mrs -> exacto mrs -> (2 | shr_m mrs) -> exacto (shr_1 mrs).
Proof.
  destruct mrs as [m r s]. unfold exacto. cbn [shr_m shr_r shr_s].
  intros Hm [-> ->] [q Hq].
  destruct m as [|p|p]; [split; reflexivity | | lia].
  destruct p as [p|p|]; cbn; try (split; reflexivity); lia.
Qed.

Lemma iter_shr_exacto (p : positive) :
  forall mrs, 0 <= shr_m mrs -> exacto mrs -> (2 ^ Zpos p | shr_m mrs) ->
  exacto (iter_pos shr_1 p mrs).
Proof.
  induction p as [p IH|p IH|]; intros mrs Hm Hx [q Hq]; cbn [iter_pos].
  - rewrite pow_xI in Hq.
    assert (E1 : shr_m (shr_1 mrs) = q * 2 ^ Zpos p * 2 ^ Zpos p).
    { rewrite shr_1_m by exact Hm. rewrite Hq.
      replace (q * (2 * (2 ^ Zpos p * 2 ^ Zpos p)))
        with ((q * 2 ^ Zpos p * 2 ^ Zpos p) * 2) by ring.
      apply Z.div_mul. lia. }
    assert (X1 : exacto (shr_1 mrs)).
    { apply shr_1_exacto; [exact Hm | exact Hx |].
      exists (q * 2 ^ Zpos p * 2 ^ Zpos p). rewrite Hq. ring. }
    assert (H1 : 0 <= shr_m (shr_1 mrs)).
    { rewrite shr_1_m by exact Hm. apply Z.div_pos; lia. }
    assert (E2 : shr_m (iter_pos shr_1 p (shr_1 mrs)) = q * 2 ^ Zpos p).
    { rewrite iter_shr_m by exact H1. rewrite E1. apply Z.div_mul. lia. }
    apply IH.
    + rewrite iter_shr_m by exact H1. apply Z.div_pos; [exact H1 | lia].
    + apply IH; [exact H1 | exact X1 |].
      exists (q * 2 ^ Zpos p). rewrite E1. ring.
    + exists q. rewrite E2. ring.
  - rewrite pow_xO in Hq.
    assert (E2 : shr_m (iter_pos shr_1 p mrs) = q * 2 ^ Zpos p).
    { rewrite iter_shr_m by exact Hm. rewrite Hq.
      replace (q * (2 ^ Zpos p * 2 ^ Zpos p)) with ((q * 2 ^ Zpos p) * 2 ^ Zpos p) by ring.
      apply Z.div_mul. lia. }
    apply IH.
    + rewrite iter_shr_m by exact Hm. apply Z.div_pos; [exact Hm | lia].
    + apply IH; [exact Hm | exact Hx |].
      exists (q * 2 ^ Zpos p). rewrite Hq. ring.
    + exists q. rewrite E2. ring.
  - apply shr_1_exacto; [exact Hm | exact Hx |].
    exists q. rewrite Hq. reflexivity.
Qed.

Lemma round_nearest_even_cotas (m : Z) (l : location) :
  m <= round_nearest_even m l <= m + 1.
Proof.
  destruct l as [|[| |]]; cbn; try lia. destruct (Z.even m); lia.
Qed.

Lemma loc_exacto (mrs : shr_record) :
  exacto mrs -> loc_of_shr_record mrs = loc_Exact.
Proof. destruct mrs as [m r s]. intros [H1 H2]. cbn in *. now subst. Qed.

Lemma fexp_cota (d e j : Z) :
  SpecFloat.emin prec emax <= j -> d + e <= j + 1 -> fexp prec emax (d + e) <= j.
Proof.
  unfold fexp, SpecFloat.emin, prec, emax. lia.
Qed.

Lemma digits_de_cota (j : Z) (m : positive) (e : Z) :
  cota j m e -> Zpos (digits2_pos m) + e <= j + 1.
Proof.
  intros [He Hm]. pose proof (digits_cotas m) as [Hd _].
  assert (2 ^ (Zpos (digits2_pos m) - 1) <= 2 ^ (j - e)) by lia.
  apply Z.pow_le_mono_r_iff in H; lia.
Qed.

(** First stage of the rounding: shift, then round to nearest. *)
Lemma redondeo_acotado (j : Z) (m : positive) (e : Z) :
  SpecFloat.emin prec emax <= j -> cota j m e ->
  let '(mrs, e') := shr_fexp prec emax (Zpos m) e loc_Exact in
  let m2 := round_nearest_even (shr_m mrs) (loc_of_shr_record mrs) in
  e' <= j /\ 0 <= m2 <= 2 ^ (j - e').
Proof.
  intros Hj Hc. pose proof (digits_de_cota j m e Hc) as Hd.
  destruct Hc as [He Hm].
  unfold shr_fexp. cbn [Zdigits2 shr_record_of_loc].
  pose proof (fexp_cota _ _ _ Hj Hd) as Hf.
  set (e1 := fexp prec emax (Zpos (digits2_pos m) + e)) in *.
  unfold shr. destruct (e1 - e) as [|pn|pn] eqn:En.
  - cbn. split; [exact He | lia].
  - set (rec := {| shr_m := Zpos m; shr_r := false; shr_s := false |}).
    assert (H0 : 0 <= shr_m rec) by (cbn; lia).
    assert (Ex : exacto rec) by (split; reflexivity).
    pose proof (iter_shr_m pn rec H0) as Em. cbn [shr_m rec] in Em.
    pose proof (round_nearest_even_cotas (shr_m (iter_pos shr_1 pn rec))
                  (loc_of_shr_record (iter_pos shr_1 pn rec))) as Hr.
    assert (He1 : e + Zpos pn = e1) by lia. rewrite He1.
    split; [exact Hf |].
    assert (Hpow : 2 ^ (j - e) = 2 ^ (j - e1) * 2 ^ Zpos pn).
    { rewrite <- Z.pow_add_r by lia. f_equal. lia. }
    assert (Hm1 : 0 <= Zpos m / 2 ^ Zpos pn) by (apply Z.div_pos; lia).
    split; [lia |].
    destruct (Z.eq_dec (Zpos m) (2 ^ (j - e1) * 2 ^ Zpos pn)) as [Heq|Hne].
    + assert (Hx : exacto (iter_pos shr_1 pn rec)).
      { apply iter_shr_exacto; [exact H0 | exact Ex |].
        exists (2 ^ (j - e1)). cbn. exact Heq. }
      rewrite (loc_exacto _ Hx). cbn [round_nearest_even].
      rewrite Em, Heq, Z.div_mul by lia. lia.
    + assert (Hlt : Zpos m / 2 ^ Zpos pn < 2 ^ (j - e1)).
      { apply Z.div_lt_upper_bound; lia. }
      lia.
  - cbn. split; [exact He | lia].
Qed.

(** Second stage: the mantissa is brought back to the format. *)
Lemma renormalizar_acotado (j m2 e1 : Z) :
  SpecFloat.emin prec emax <= j -> e1 <= j -> 0 <= m2 <= 2 ^ (j - e1) ->
  let '(mrs, e'') := shr_fexp prec emax m2 e1 loc_Exact in
  e'' <= j /\ 0 <= shr_m mrs <= 2 ^ (j - e'').
Proof.
  intros Hj He [H0 Hm].
  assert (Hd : Zdigits2 m2 + e1 <= j + 1).
  { destruct m2 as [|q|q]; [cbn; lia | | lia].
    apply (digits_de_cota j q e1). split; assumption. }
  pose proof (fexp_cota _ _ _ Hj Hd) as Hf.
  unfold shr_fexp. cbn [shr_record_of_loc].
  set (e2 := fexp prec emax (Zdigits2 m2 + e1)) in *.
  unfold shr. destruct (e2 - e1) as [|pn|pn] eqn:En.
  - cbn. split; [exact He | lia].
  - set (rec := {| shr_m := m2; shr_r := false; shr_s := false |}).
    assert (Hr0 : 0 <= shr_m rec) by (cbn; lia).
    rewrite (iter_shr_m pn rec Hr0). cbn [shr_m rec].
    assert (He2 : e1 + Zpos pn = e2) by lia. rewrite He2.
    split; [exact Hf |].
    split; [apply Z.div_pos; lia |].
    assert (Hpow : 2 ^ (j - e1) = 2 ^ (j - e2) * 2 ^ Zpos pn).
    { rewrite <- Z.pow_add_r by lia. f_equal. lia. }
    apply Z.div_le_upper_bound; lia.
  - cbn. split; [exact He | lia].
Qed.

Lemma binary_round_aux_acotado (s : bool) (m : positive) (e j : Z) :
  SpecFloat.emin prec emax <= j <= emax - prec -> cota j m e ->
  acotado j (binary_round_aux prec emax s (Zpos m) e loc_Exact).
Proof.
  intros [Hj Hj'] Hc. unfold binary_round_aux.
  pose proof (redondeo_acotado j m e Hj Hc) as H1.
  destruct (shr_fexp prec emax (Zpos m) e loc_Exact) as [mrs' e'].
  cbv zeta in H1. destruct H1 as [He' Hm2].
  pose proof (renormalizar_acotado j _ e' Hj He' Hm2) as H2.
  destruct (shr_fexp prec emax _ e' loc_Exact) as [mrs'' e''].
  destruct H2 as [He'' Hm3].
  destruct (shr_m mrs'') as [|q|q]; [exact I | | lia].
  destruct (Z.leb_spec e'' (emax - prec)); [| lia].
  split; [exact He'' | lia].
Qed.

Lemma Prim2SF_uno : Prim2SF 1%float = uno_sf.
Proof. vm_compute. reflexivity. Qed.

Lemma Prim2SF_dos : Prim2SF 2%float = dos_sf.
Proof. vm_compute. reflexivity. Qed.

Lemma en_rango_partes (j : Z) (x : spec_float) :
  acotado j x -> Num.no_negativo x = true -> en_rango j x.
Proof.
  destruct x as [s|s| |s m e]; cbn; auto.
  intros Hc Hs. apply negb_true_iff in Hs. now subst s.
Qed.

Lemma valido_digitos (s : bool) (m : positive) (e : Z) :
  valid_binary (S754_finite s m e) = true -> Zpos (digits2_pos m) <= 53.
Proof.
  cbn. unfold bounded, canonical_mantissa. intros H.
  apply andb_true_iff in H. destruct H as [H _].
  apply Z.eqb_eq in H. unfold fexp, SpecFloat.emin, prec, emax in H. lia.
Qed.

(** A valid value between 0 and 1. *)
Lemma unidad_en_rango (x : spec_float) :
  valid_binary x = true ->
  SFleb (S754_zero false) x = true -> SFleb x uno_sf = true ->
  en_rango 0 x.
Proof.
  intros Hv H0 H1.
  destruct x as [s|s| |s m e]; [exact I | destruct s; discriminate | discriminate |].
  destruct s; [discriminate |].
  pose proof (valido_digitos _ _ _ Hv) as Hd.
  pose proof (digits_cotas m) as [_ Hm].
  assert (Hm53 : Zpos m < 2 ^ 53).
  { eapply Z.lt_le_trans; [exact Hm |]. apply Z.pow_le_mono_r; lia. }
  unfold SFleb, SFcompare, uno_sf in H1. cbn.
  destruct (Z.compare_spec e (-52)) as [He|He|He]; try discriminate.
  - subst e. split; [lia |].
    assert (Hle : (m <= 4503599627370496)%positive).
    { unfold Pos.le, Pos.compare. intros HG. rewrite HG in H1. discriminate. }
    apply Pos2Z.pos_le_pos in Hle. exact Hle.
  - split; [lia |].
    assert (2 ^ 53 <= 2 ^ (0 - e)) by (apply Z.pow_le_mono_r; lia). lia.
Qed.

Lemma iter_xO (d m : positive) : Zpos (Pos.iter xO m d) = Zpos m * 2 ^ Zpos d.
Proof.
  induction d as [|d IH] using Pos.peano_ind.
  - cbn. lia.
  - rewrite Pos.iter_succ, Pos2Z.inj_xO, IH, Pos2Z.inj_succ, Z.pow_succ_r by lia. ring.
Qed.

Lemma shl_align_valor (m : positive) (e e' : Z) :
  e' <= e -> Zpos (fst (shl_align m e e')) = Zpos m * 2 ^ (e - e')
             /\ snd (shl_align m e e') = e'.
Proof.
  intros H. unfold shl_align.
  destruct (e' - e) as [|d|d] eqn:E.
  - assert (e = e') by lia. subst. rewrite Z.sub_diag. cbn [fst snd]. split; lia.
  - lia.
  - cbn [fst snd]. rewrite iter_xO. replace (e - e') with (Zpos d) by lia. split; reflexivity.
Qed.

Lemma shl_align_igual (m : positive) (e e' : Z) :
  e < e' -> shl_align m e e' = (m, e).
Proof.
  intros H. unfold shl_align. destruct (e' - e) as [|d|d] eqn:E; try reflexivity; lia.
Qed.

Lemma binary_round_acotado (s : bool) (m : positive) (e j : Z) :
  SpecFloat.emin prec emax <= j <= emax - prec -> cota j m e ->
  acotado j (binary_round prec emax s m e).
Proof.
  intros Hj [He Hm]. unfold binary_round.
  set (e' := fexp prec emax (Zpos (digits2_pos m) + e)).
  destruct (Z.le_gt_cases e' e) as [Hle|Hgt].
  - destruct (shl_align_valor m e e' Hle) as [Hv Hs].
    destruct (shl_align m e e') as [mz ez]. cbn [fst snd] in Hv, Hs. subst ez.
    apply binary_round_aux_acotado; [exact Hj |].
    split; [lia |]. rewrite Hv.
    replace (j - e') with ((j - e) + (e - e')) by lia.
    rewrite Z.pow_add_r by lia.
    apply Z.mul_le_mono_nonneg_r; [apply Z.pow_nonneg; lia | exact Hm].
  - rewrite shl_align_igual by lia.
    apply binary_round_aux_acotado; [exact Hj | split; assumption].
Qed.

Lemma binary_normalize_acotado (z e j : Z) :
  SpecFloat.emin prec emax <= j <= emax - prec -> e <= j ->
  Z.abs z <= 2 ^ (j - e) ->
  acotado j (binary_normalize prec emax z e false).
Proof.
  intros Hj He Hz. unfold binary_normalize.
  destruct z as [|p|p]; [exact I | |];
    apply binary_round_acotado; try exact Hj; split; try exact He; exact Hz.
Qed.

Lemma rango_j : forall j, -1 <= j <= 1 -> SpecFloat.emin prec emax <= j <= emax - prec.
Proof. intros j Hj. unfold SpecFloat.emin, prec, emax. lia. Qed.

(** [u * 2] for [u] in [0,1]. *)
Lemma doble_en_rango (x : spec_float) :
  en_rango 0 x -> en_rango 1 (SFmul prec emax x dos_sf).
Proof.
  destruct x as [s|s| |s m e]; cbn [en_rango]; try contradiction.
  - intros _. exact I.
  - destruct s; [contradiction |]. intros [He Hm].
    apply en_rango_partes; cbn [SFmul dos_sf xorb].
    + apply binary_round_aux_acotado; [apply rango_j; lia |].
      split; [lia |]. rewrite Pos2Z.inj_mul.
      replace (1 - (e + -51)) with ((0 - e) + 52) by lia.
      rewrite Z.pow_add_r by lia.
      change (Zpos 4503599627370496) with (2 ^ 52).
      apply Z.mul_le_mono_nonneg_r; [lia | exact Hm].
    + apply binary_round_aux_no_negativo.
Qed.

(** [x - 1] for [x] in [0,2]. *)
Lemma menos_uno_acotado (x : spec_float) :
  en_rango 1 x -> acotado 0 (SFsub prec emax x uno_sf).
Proof.
  destruct x as [s|s| |s m e]; cbn [en_rango]; try contradiction.
  - intros _. cbn. split; [lia |]. cbn. lia.
  - destruct s; [contradiction |]. intros [He Hm].
    cbn [SFsub uno_sf cond_Zopp].
    set (ez := Z.min e (-52)).
    destruct (shl_align_valor m e ez ltac:(lia)) as [Ha _].
    destruct (shl_align_valor 4503599627370496 (-52) ez ltac:(lia)) as [Hb _].
    rewrite Ha, Hb.
    apply binary_normalize_acotado; [apply rango_j; lia | lia |].
    change (Zpos 4503599627370496) with (2 ^ 52).
    rewrite <- Z.pow_add_r by lia.
    replace (52 + (-52 - ez)) with (0 - ez) by lia.
    assert (Hpos : 0 < Zpos m * 2 ^ (e - ez)).
    { apply Z.mul_pos_pos; [lia | apply Z.pow_pos_nonneg; lia]. }
    assert (Hup : Zpos m * 2 ^ (e - ez) <= 2 * 2 ^ (0 - ez)).
    { replace (2 * 2 ^ (0 - ez)) with (2 ^ (1 - e) * 2 ^ (e - ez)).
      - apply Z.mul_le_mono_nonneg_r; [apply Z.pow_nonneg; lia | exact Hm].
      - rewrite <- Z.pow_add_r by lia. rewrite <- Z.pow_succ_r by lia. f_equal. lia. }
    lia.
Qed.

(** [t * v] for [|t| <= 1] and [v] in [0,1]. *)
Lemma producto_acotado (t v : spec_float) :
  acotado 0 t -> en_rango 0 v -> acotado 0 (SFmul prec emax t v).
Proof.
  destruct t as [st|st| |st mt et]; cbn [acotado]; try contradiction;
    destruct v as [sv|sv| |sv mv ev]; cbn [en_rango]; try contradiction;
    try (intros; exact I).
  destruct sv; [contradiction |]. intros [Het Hmt] [Hev Hmv].
  cbn [SFmul]. apply binary_round_aux_acotado; [apply rango_j; lia |].
  split; [lia |]. rewrite Pos2Z.inj_mul.
  replace (0 - (et + ev)) with ((0 - et) + (0 - ev)) by lia.
  rewrite Z.pow_add_r by lia.
  apply Z.mul_le_mono_nonneg; lia.
Qed.

(** [1 + w] for [|w| <= 1]. *)
Lemma uno_mas_no_negativo (w : spec_float) :
  acotado 0 w -> Num.no_negativo (SFadd prec emax uno_sf w) = true.
Proof.
  destruct w as [s|s| |s m e]; cbn [acotado]; try contradiction.
  - intros _. reflexivity.
  - intros [He Hm]. cbn [SFadd uno_sf cond_Zopp].
    set (ez := Z.min (-52) e).
    destruct (shl_align_valor m e ez ltac:(lia)) as [Ha _].
    destruct (shl_align_valor 4503599627370496 (-52) ez ltac:(lia)) as [Hb _].
    rewrite Ha, Hb.
    change (Zpos 4503599627370496) with (2 ^ 52).
    rewrite <- Z.pow_add_r by lia.
    replace (52 + (-52 - ez)) with (0 - ez) by lia.
    assert (Hup : Zpos m * 2 ^ (e - ez) <= 2 ^ (0 - ez)).
    { replace (2 ^ (0 - ez)) with (2 ^ (0 - e) * 2 ^ (e - ez)).
      - apply Z.mul_le_mono_nonneg_r; [apply Z.pow_nonneg; lia | exact Hm].
      - rewrite <- Z.pow_add_r by lia. f_equal. lia. }
    assert (Hz : 0 <= 2 ^ (0 - ez) + (if s then - (Zpos m * 2 ^ (e - ez)) else Zpos m * 2 ^ (e - ez))).
    { destruct s; lia. }
    unfold cond_Zopp.
    destruct (2 ^ (0 - ez) + (if s then - (Zpos m * 2 ^ (e - ez)) else Zpos m * 2 ^ (e - ez)))
      as [|p|p]; [reflexivity | | lia].
    cbn [binary_normalize]. apply binary_round_no_negativo.
Qed.

(** With the draw and VARIACION_CONSUMO between 0 and 1 the variation
    factor [1 + (u*2 - 1) * VARIACION_CONSUMO] is not negative. *)
Lemma factor_variacion_no_negativo (c : Config) (u : float) :
  (0 <=? u)%float = true -> (u <=? 1)%float = true ->
  (0 <=? VARIACION_CONSUMO c)%float = true ->
  (VARIACION_CONSUMO c <=? 1)%float = true ->
  (factor_variacion c u <? 0)%float = false.
Proof.
  intros Hu0 Hu1 Hv0 Hv1.
  apply ltb_cero_no_negativo. unfold factor_variacion.
  rewrite add_spec, mul_spec, sub_spec, mul_spec, Prim2SF_uno, Prim2SF_dos.
  unfold SF64add, SF64mul, SF64sub.
  rewrite FloatAxioms.leb_spec, ?Prim2SF_cero, ?Prim2SF_uno in Hu0, Hu1, Hv0, Hv1.
  apply uno_mas_no_negativo, producto_acotado;
    [apply menos_uno_acotado, doble_en_rango |];
    apply unidad_en_rango; try assumption; apply Prim2SF_valid.
Qed.

(* ------------------------------------------------------------------ *)
(** ** The reading generator                                           *)
(* ------------------------------------------------------------------ *)

Lemma en_ventana_bool (w : Horario) (h : Z) :
  (inicio w <=? h) && (h <? fin w) = true <-> en_ventana w h.
Proof.
  unfold en_ventana. rewrite andb_true_iff, Z.leb_le, Z.ltb_lt. tauto.
Qed.

Lemma esHorarioPico_ventanas (c : Config) (h : Z) :
  esHorarioPico c h = true <->
  en_ventana (MANANA (HORARIOS_PICO c)) h \/ en_ventana (TARDE (HORARIOS_PICO c)) h.
Proof.
  unfold esHorarioPico. cbv zeta.
  rewrite orb_true_iff, !en_ventana_bool. tauto.
Qed.

Lemma deberiaaplicarPico_desde (c : Config) (f : Fecha) :
  deberiaaplicarPico c f = true <-> desde_inicio c f.
Proof.
  unfold deberiaaplicarPico, desde_inicio.
  destruct (FECHA_INICIO c) as [f0|]; [apply Z.leb_le | tauto].
Qed.

Lemma pico_bool (tz : Z) (c : Config) (f : Fecha) :
  SIMULAR_PICOS c && deberiaaplicarPico c f
    && esHorarioPico c (Date.getHours tz f) = true
  <-> pico_elegible tz c f.
Proof.
  unfold pico_elegible.
  rewrite !andb_true_iff, esHorarioPico_ventanas, deberiaaplicarPico_desde.
  tauto.
Qed.

Lemma finde_bool (tz : Z) (f : Fecha) :
  (Date.getDay tz f =? 0) || (Date.getDay tz f =? 6) = true
  <-> fin_de_semana tz f.
Proof.
  unfold fin_de_semana. rewrite orb_true_iff, !Z.eqb_eq. tauto.
Qed.

(** The three outcomes of [generarLectura], in the order the rules are
    tried. *)
Lemma generarLectura_casos (tz : Z) (c : Config) (p : Punto) (f : Fecha) (az : Azar) :
  generarLectura tz c p f az =
    if negb (activo p) then
      ({| id_punto := id p; estado := "inactivo";
          consumo_kwh := 0%float; fecha := f |}, az)
    else if (fuente az (consumidos az) <? PROBABILIDAD_ERROR c)%float then
      ({| id_punto := id p; estado := "error";
          consumo_kwh := 0%float; fecha := f |},
       {| fuente := fuente az; consumidos := S (consumidos az) |})
    else
      ({| id_punto := id p; estado := "activo";
          consumo_kwh :=
            Num.toFixed2
              (PrimFloat.mul
                 (por_si ((Date.getDay tz f =? 0) || (Date.getDay tz f =? 6))
                         (FACTOR_FIN_SEMANA c)
                    (por_si (SIMULAR_PICOS c && deberiaaplicarPico c f
                               && esHorarioPico c (Date.getHours tz f))
                            (FACTOR_PICO c) (consumo_base_kwh p)))
                 (factor_variacion c (fuente az (S (consumidos az)))));
          fecha := f |},
       {| fuente := fuente az; consumidos := S (S (consumidos az)) |}).
Proof.
  unfold generarLectura, Math_random, por_si, factor_variacion. simpl.
  destruct (negb (activo p)); [reflexivity |].
  destruct (fuente az (consumidos az) <? PROBABILIDAD_ERROR c)%float; [reflexivity |].
  destruct (SIMULAR_PICOS c && deberiaaplicarPico c f); simpl;
    destruct (esHorarioPico c (Date.getHours tz f)); reflexivity.
Qed.

Lemma consumo_previo_factores (tz : Z) (c : Config) (p : Punto) (f : Fecha)
      (pico finde : bool) :
  (pico = true <-> pico_elegible tz c f) ->
  (finde = true <-> fin_de_semana tz f) ->
  consumo_previo tz c p f =
    por_si finde (FACTOR_FIN_SEMANA c)
      (por_si pico (FACTOR_PICO c) (consumo_base_kwh p)).
Proof.
  intros Hp Hf. unfold consumo_previo.
  rewrite <- pico_bool in Hp. rewrite <- finde_bool in Hf.
  apply eq_true_iff_eq in Hp. apply eq_true_iff_eq in Hf.
  now rewrite Hp, Hf.
Qed.

(** [toFixed(2)] picks the nearest hundredth. *)
Lemma redondeo_centesimas (m : positive) (e : Z) :
  centesimas_de m e (Num.redondeo m e).
Proof.
  unfold centesimas_de, Num.redondeo.
  destruct e as [|p|p].
  - cbn. lia.
  - replace (Z.max 0 (- Z.pos p)) with 0 by lia.
    replace (Z.max 0 (Z.pos p)) with (Z.pos p) by lia.
    rewrite Z.pow_0_r. lia.
  - replace (Z.max 0 (- Z.neg p)) with (Z.pos p) by lia.
    replace (Z.max 0 (Z.neg p)) with 0 by lia.
    rewrite Z.pow_0_r, Z.pow_add_r, Z.pow_1_r by lia.
    assert (Hd : 0 < 2 ^ Z.pos p) by (apply Z.pow_pos_nonneg; lia).
    pose proof (Z.div_mod (Z.pos m * 200 + 2 ^ Z.pos p) (2 ^ Z.pos p * 2)) as Hq.
    pose proof (Z.mod_pos_bound (Z.pos m * 200 + 2 ^ Z.pos p) (2 ^ Z.pos p * 2)) as Hr.
    set (d := 2 ^ Z.pos p) in *.
    set (q := (Z.pos m * 200 + d) / (d * 2)) in *.
    set (r := (Z.pos m * 200 + d) mod (d * 2)) in *.
    split; nia.
Qed.

Lemma toFixed2_dos_decimales (x : float) : dos_decimales x (Num.toFixed2 x).
Proof.
  unfold dos_decimales, Num.toFixed2.
  destruct (Prim2SF x) as [s|s| |s m e]; try reflexivity.
  destruct (1e21 <=? abs x)%float; [reflexivity |].
  exists (Num.redondeo m e). split; [apply redondeo_centesimas | reflexivity].
Qed.

(** C1.  For an active point on which the error rule does not fire, the
    reading is "activo" and its consumption is the base value, times
    FACTOR_PICO when the peak adjustment is eligible and the hour lies in
    a window, times FACTOR_FIN_SEMANA on Saturday and Sunday (both may
    apply, one after the other), times 1 + (2u - 1) * VARIACION_CONSUMO
    for the second draw u, rounded to two decimals once, at the end: the
    value returned is the hundredth nearest to that product. *)
Theorem generarLectura_activo
        (tz : Z) (c : Config) (p : Punto) (f : Fecha) (az : Azar)
        (pico finde : bool) :
  activo p = true ->
  (fuente az (consumidos az) <? PROBABILIDAD_ERROR c)%float = false ->
  (pico = true <-> pico_elegible tz c f) ->
  (finde = true <-> fin_de_semana tz f) ->
  let producto :=
    PrimFloat.mul
      (por_si finde (FACTOR_FIN_SEMANA c)
         (por_si pico (FACTOR_PICO c) (consumo_base_kwh p)))
      (factor_variacion c (fuente az (S (consumidos az)))) in
  fst (generarLectura tz c p f az) =
    {| id_punto := id p;
       estado := "activo";
       consumo_kwh := Num.toFixed2 producto;
       fecha := f |}
  /\ dos_decimales producto (consumo_kwh (fst (generarLectura tz c p f az))).
Proof.
  intros Ha He Hp Hf producto.
  assert (E : fst (generarLectura tz c p f az) =
              {| id_punto := id p; estado := "activo";
                 consumo_kwh := Num.toFixed2 producto; fecha := f |}).
  { rewrite generarLectura_casos, Ha, He. simpl.
    fold (consumo_previo tz c p f). subst producto.
    now rewrite (consumo_previo_factores tz c p f pico finde Hp Hf). }
  split; [exact E |].
  rewrite E. apply toFixed2_dos_decimales.
Qed.

(** C2.  An inactive point yields "inactivo" with consumption 0 whatever
    the date and the configuration, and the random source is returned
    untouched: neither draw is made. *)
Theorem generarLectura_inactivo
        (tz : Z) (c : Config) (p : Punto) (f : Fecha) (az : Azar) :
  activo p = false ->
  generarLectura tz c p f az =
    ({| id_punto := id p; estado := "inactivo";
        consumo_kwh := 0%float; fecha := f |}, az).
Proof.
  intros Ha. now rewrite generarLectura_casos, Ha.
Qed.

(** C3.  For an active reading the multiplication by FACTOR_PICO is made
    exactly when SIMULAR_PICOS is set, the local hour lies in one of the
    windows (half-open) and, when FECHA_INICIO is configured, the date
    is not before it; it is made once even when both windows hold the
    hour.  With the windows 8-12 and 14-18, hour 12 is not peak and hour
    8 is. *)
Theorem pico_si_y_solo_si
        (tz : Z) (c : Config) (p : Punto) (f : Fecha) (az : Azar) (finde : bool) :
  activo p = true ->
  (fuente az (consumidos az) <? PROBABILIDAD_ERROR c)%float = false ->
  (finde = true <-> fin_de_semana tz f) ->
  let resto x :=
    Num.toFixed2
      (PrimFloat.mul (por_si finde (FACTOR_FIN_SEMANA c) x)
                     (factor_variacion c (fuente az (S (consumidos az))))) in
  (pico_elegible tz c f ->
     consumo_kwh (fst (generarLectura tz c p f az))
     = resto (PrimFloat.mul (consumo_base_kwh p) (FACTOR_PICO c)))
  /\ (~ pico_elegible tz c f ->
     consumo_kwh (fst (generarLectura tz c p f az))
     = resto (consumo_base_kwh p))
  /\ (FECHA_INICIO c = None -> desde_inicio c f)
  /\ esHorarioPico (CONFIG_inicial tz) 12 = false
  /\ esHorarioPico (CONFIG_inicial tz) 8 = true.
Proof.
  intros Ha He Hf resto. subst resto. cbv beta.
  repeat split.
  - intros Hp.
    rewrite generarLectura_casos, Ha, He. simpl.
    fold (consumo_previo tz c p f).
    rewrite (consumo_previo_factores tz c p f true finde); [reflexivity | tauto | exact Hf].
  - intros Hp.
    rewrite generarLectura_casos, Ha, He. simpl.
    fold (consumo_previo tz c p f).
    rewrite (consumo_previo_factores tz c p f false finde); [reflexivity | | exact Hf].
    split; [discriminate | tauto].
  - intros Hn. unfold desde_inicio. now rewrite Hn.
Qed.

(** C4.  For an active point the first draw decides the error rule: the
    reading is "error" with consumption 0 exactly when the draw is below
    PROBABILIDAD_ERROR, and then one draw was taken; otherwise a second
    draw, the next of the sequence, feeds the variation.  So with
    PROBABILIDAD_ERROR = 1 every draw of [0,1) gives "error", and with
    PROBABILIDAD_ERROR = 0 none does.  An inactive point takes no draw. *)
Theorem regla_de_error
        (tz : Z) (c : Config) (p : Punto) (f : Fecha) (az : Azar) :
  activo p = true ->
  let u1 := fuente az (consumidos az) in
  let u2 := fuente az (S (consumidos az)) in
  let r := generarLectura tz c p f az in
  ((u1 <? PROBABILIDAD_ERROR c)%float = true ->
     fst r = {| id_punto := id p; estado := "error";
                consumo_kwh := 0%float; fecha := f |}
     /\ consumidos (snd r) = S (consumidos az))
  /\ ((u1 <? PROBABILIDAD_ERROR c)%float = false ->
     estado (fst r) = "activo"%string
     /\ consumo_kwh (fst r)
        = Num.toFixed2 (PrimFloat.mul (consumo_previo tz c p f)
                                      (factor_variacion c u2))
     /\ consumidos (snd r) = S (S (consumidos az)))
  /\ (estado (fst r) = "error"%string <-> (u1 <? PROBABILIDAD_ERROR c)%float = true)
  /\ (PROBABILIDAD_ERROR c = 1%float -> (u1 <? 1)%float = true ->
        estado (fst r) = "error"%string)
  /\ (PROBABILIDAD_ERROR c = 0%float -> (0 <=? u1)%float = true ->
        estado (fst r) <> "error"%string)
  /\ (forall q : Punto, activo q = false ->
        snd (generarLectura tz c q f az) = az).
Proof.
  intros Ha u1 u2 r. subst u1 u2 r.
  rewrite generarLectura_casos, Ha. cbn [negb].
  assert (Hq : forall q : Punto, activo q = false ->
                 snd (generarLectura tz c q f az) = az)
    by (intros q Hq; now rewrite generarLectura_casos, Hq).
  destruct (fuente az (consumidos az) <? PROBABILIDAD_ERROR c)%float eqn:He;
    cbn [fst snd estado consumo_kwh consumidos].
  - repeat split; try discriminate; auto.
    intros H0 Hu.
    rewrite H0 in He. rewrite (ltb_cero_de_leb _ Hu) in He. discriminate.
  - repeat split; try discriminate; auto.
    intros H1 Hu. rewrite H1 in He. congruence.
Qed.

Lemma estado_activo_casos (tz : Z) (c : Config) (p : Punto) (f : Fecha) (az : Azar) :
  estado (fst (generarLectura tz c p f az)) = "activo"%string ->
  activo p = true /\
  (fuente az (consumidos az) <? PROBABILIDAD_ERROR c)%float = false.
Proof.
  rewrite generarLectura_casos.
  destruct (activo p); simpl; [| discriminate].
  destruct (fuente az (consumidos az) <? PROBABILIDAD_ERROR c)%float; simpl;
    [discriminate | auto].
Qed.

(** C5 (as amended).  An "activo" reading is never negative when the base
    consumption and the two factors are not negative, VARIACION_CONSUMO
    lies between 0 and 1 and the draw of the variation lies between 0
    and 1 (as every value of Math.random does); it is then at least 0
    unless it is NaN. *)
Theorem consumo_no_negativo
        (tz : Z) (c : Config) (p : Punto) (f : Fecha) (az : Azar) :
  estado (fst (generarLectura tz c p f az)) = "activo"%string ->
  (consumo_base_kwh p <? 0)%float = false ->
  (FACTOR_PICO c <? 0)%float = false ->
  (FACTOR_FIN_SEMANA c <? 0)%float = false ->
  (0 <=? VARIACION_CONSUMO c)%float = true ->
  (VARIACION_CONSUMO c <=? 1)%float = true ->
  (0 <=? fuente az (S (consumidos az)))%float = true ->
  (fuente az (S (consumidos az)) <=? 1)%float = true ->
  (consumo_kwh (fst (generarLectura tz c p f az)) <? 0)%float = false
  /\ (is_nan (consumo_kwh (fst (generarLectura tz c p f az))) = false ->
      (0 <=? consumo_kwh (fst (generarLectura tz c p f az)))%float = true).
Proof.
  intros He Hb Hp Hf Hv0 Hv1 Hu0 Hu1.
  pose proof (factor_variacion_no_negativo c _ Hu0 Hu1 Hv0 Hv1) as Hv.
  destruct (estado_activo_casos tz c p f az He) as [Ha Hu].
  assert (Hr : (consumo_kwh (fst (generarLectura tz c p f az)) <? 0)%float = false).
  { rewrite generarLectura_casos, Ha, Hu. simpl.
    apply toFixed2_no_negativo, mul_no_negativo; [| exact Hv].
    now repeat apply por_si_no_negativo. }
  split; [exact Hr |].
  intros Hn. now apply leb_cero_de_no_negativo.
Qed.

(** C5 as stated fails: a point whose base consumption is negative gets
    an "activo" reading below zero (-3 * 0.9 = -2.7); so does any point
    when VARIACION_CONSUMO is 2 and the second draw is 0.1
    (15.5 * -0.6 = -9.3); and a product that overflows before a weekend
    factor of 0 gives NaN, which is not at least 0 either. *)
Lemma consumo_negativo_posible :
  estado (fst (generarLectura tz_sv (CONFIG_inicial tz_sv) punto_base_negativa
                              (miercoles_9h tz_sv) azar_fijo)) = "activo"%string
  /\ consumo_kwh (fst (generarLectura tz_sv (CONFIG_inicial tz_sv) punto_base_negativa
                                      (miercoles_9h tz_sv) azar_fijo))
     = (-2.7)%float
  /\ (0 <=? consumo_kwh (fst (generarLectura tz_sv (CONFIG_inicial tz_sv)
                                 punto_base_negativa (miercoles_9h tz_sv) azar_fijo)))%float
     = false
  /\ generarLectura tz_sv (con_factores (CONFIG_inicial tz_sv) false 1.5 0.3 2)
                    punto_N1 (miercoles_9h tz_sv) azar_bajo
     = ({| id_punto := "N1"; estado := "activo"; consumo_kwh := (-9.3)%float;
           fecha := miercoles_9h tz_sv |},
        {| fuente := fuente azar_bajo; consumidos := 2 |})
  /\ estado (fst (generarLectura tz_sv
                    (con_factores (CONFIG_inicial tz_sv) true 1e308 0 0.2)
                    punto_enorme (sabado_9h tz_sv) azar_fijo)) = "activo"%string
  /\ is_nan (consumo_kwh (fst (generarLectura tz_sv
                                 (con_factores (CONFIG_inicial tz_sv) true 1e308 0 0.2)
                                 punto_enorme (sabado_9h tz_sv) azar_fijo))) = true
  /\ (0 <=? consumo_kwh (fst (generarLectura tz_sv
                                (con_factores (CONFIG_inicial tz_sv) true 1e308 0 0.2)
                                punto_enorme (sabado_9h tz_sv) azar_fijo)))%float
     = false.
Proof. vm_compute. repeat split. Qed.

(* ------------------------------------------------------------------ *)
(** ** The generator on sample inputs                                  *)
(* ------------------------------------------------------------------ *)

(** What [toFixed(2)] makes of a few numbers: 1.005 is stored a little
    below, so it goes down; 0.125 is stored exactly, and the tie goes
    up; a negative number that rounds to zero keeps its sign. *)
Lemma toFixed2_ejemplos :
  Num.toFixed2 1.005 = 1%float
  /\ Num.toFixed2 0.125 = 0.13%float
  /\ Num.toFixed2 2.5 = 2.5%float
  /\ Num.toFixed2 (-2.675) = (-2.67)%float
  /\ Prim2SF (Num.toFixed2 (-0.001)) = S754_zero true
  /\ Num.toFixed2 123456789.987 = 123456789.99%float
  /\ Num.toFixed2 1e21 = 1e21%float.
Proof. vm_compute. repeat split. Qed.

(** Saturday 09:00 with peaks on: both factors apply, and the product
    6.2775 is returned as 6.28. *)
Lemma generarLectura_activo_ejemplo :
  fst (generarLectura tz_sv (CONFIG_picos tz_sv) punto_N1 (sabado_9h tz_sv) azar_fijo)
  = {| id_punto := "N1"; estado := "activo"; consumo_kwh := 6.28%float;
       fecha := sabado_9h tz_sv |}
  /\ (15.5 * 1.5 * 0.3 * (1 + (0.25 * 2 - 1) * 0.2) =? 6.28)%float = false
  /\ dos_decimales (15.5 * 1.5 * 0.3 * (1 + (0.25 * 2 - 1) * 0.2))%float 6.28%float.
Proof.
  destruct (generarLectura_activo tz_sv (CONFIG_picos tz_sv) punto_N1
              (sabado_9h tz_sv) azar_fijo true true) as [E D].
  - reflexivity.
  - reflexivity.
  - split; [intros _ | reflexivity].
    unfold pico_elegible, en_ventana, desde_inicio.
    vm_compute. intuition congruence.
  - split; [intros _ | reflexivity].
    left. reflexivity.
  - split; [exact E |]. split; [reflexivity |].
    rewrite E in D. exact D.
Defined.

Lemma generarLectura_inactivo_ejemplo :
  generarLectura tz_sv (CONFIG_picos tz_sv) punto_apagado (sabado_9h tz_sv) azar_fijo
  = ({| id_punto := "N2"; estado := "inactivo"; consumo_kwh := 0%float;
        fecha := sabado_9h tz_sv |}, azar_fijo).
Proof.
  apply (generarLectura_inactivo tz_sv (CONFIG_picos tz_sv) punto_apagado
           (sabado_9h tz_sv) azar_fijo).
  reflexivity.
Defined.

(** Wednesday with peaks on: 09:00 is multiplied by FACTOR_PICO, 12:00 is
    not. *)
Lemma pico_si_y_solo_si_ejemplo :
  consumo_kwh (fst (generarLectura tz_sv (CONFIG_picos tz_sv) punto_N1
                      (miercoles_9h tz_sv) azar_fijo))
  = Num.toFixed2 (15.5 * 1.5 * (1 + (0.25 * 2 - 1) * 0.2))%float
  /\ consumo_kwh (fst (generarLectura tz_sv (CONFIG_picos tz_sv) punto_N1
                         (miercoles_12h tz_sv) azar_fijo))
     = Num.toFixed2 (15.5 * (1 + (0.25 * 2 - 1) * 0.2))%float.
Proof.
  split.
  - refine (proj1 (pico_si_y_solo_si tz_sv (CONFIG_picos tz_sv) punto_N1
                     (miercoles_9h tz_sv) azar_fijo false _ _ _) _).
    + reflexivity.
    + reflexivity.
    + split; [discriminate |].
      unfold fin_de_semana. vm_compute. intuition congruence.
    + unfold pico_elegible, en_ventana, desde_inicio.
      vm_compute. intuition congruence.
  - refine (proj1 (proj2 (pico_si_y_solo_si tz_sv (CONFIG_picos tz_sv) punto_N1
                     (miercoles_12h tz_sv) azar_fijo false _ _ _)) _).
    + reflexivity.
    + reflexivity.
    + split; [discriminate |].
      unfold fin_de_semana. vm_compute. intuition congruence.
    + unfold pico_elegible, en_ventana, desde_inicio.
      vm_compute. intuition congruence.
Defined.

(** With the values of config.js the draw 0.5 is not an error and two
    draws are taken. *)
Lemma regla_de_error_ejemplo :
  estado (fst (generarLectura tz_sv (CONFIG_inicial tz_sv) punto_N1
                 (miercoles_9h tz_sv) azar_fijo)) = "activo"%string
  /\ consumidos (snd (generarLectura tz_sv (CONFIG_inicial tz_sv) punto_N1
                        (miercoles_9h tz_sv) azar_fijo)) = 2%nat.
Proof.
  destruct (regla_de_error tz_sv (CONFIG_inicial tz_sv) punto_N1
              (miercoles_9h tz_sv) azar_fijo eq_refl) as (_ & H & _).
  destruct (H eq_refl) as (He & _ & Hc).
  split; [exact He | exact Hc].
Defined.

Lemma consumo_no_negativo_ejemplo :
  (consumo_kwh (fst (generarLectura tz_sv (CONFIG_picos tz_sv) punto_N1
                       (sabado_9h tz_sv) azar_fijo)) <? 0)%float = false
  /\ (is_nan (consumo_kwh (fst (generarLectura tz_sv (CONFIG_picos tz_sv) punto_N1
                                  (sabado_9h tz_sv) azar_fijo))) = false ->
      (0 <=? consumo_kwh (fst (generarLectura tz_sv (CONFIG_picos tz_sv) punto_N1
                                 (sabado_9h tz_sv) azar_fijo)))%float = true).
Proof.
  apply (consumo_no_negativo tz_sv (CONFIG_picos tz_sv) punto_N1
           (sabado_9h tz_sv) azar_fijo); reflexivity.
Defined.

(* ------------------------------------------------------------------ *)
(** ** The point directory                                             *)
(* ------------------------------------------------------------------ *)

(** A truthy number that is not below zero is above zero. *)
Lemma positivo_de_truthy (x : float) :
  JS.ToBoolean (JS.number x) = true -> (x <? 0)%float = false ->
  (0 <? x)%float = true.
Proof.
  unfold JS.ToBoolean, is_nan.
  rewrite !FloatAxioms.ltb_spec, !FloatAxioms.eqb_spec, Prim2SF_cero.
  destruct (Prim2SF x) as [s|s| |s m e]; try destruct s;
    cbv [SFltb SFeqb SFcompare negb orb]; try congruence.
Qed.

Lemma positivo_truthy (v : JS.Valor) :
  ObtenerPuntos.positivo v = true -> JS.ToBoolean v = true.
Proof.
  destruct v as [| |b|x|s|vs|s]; simpl; try discriminate.
  unfold is_nan.
  rewrite !FloatAxioms.ltb_spec, !FloatAxioms.eqb_spec, Prim2SF_cero.
  destruct (Prim2SF x) as [s|s| |s m e]; try destruct s;
    cbv [SFltb SFeqb SFcompare negb orb]; try congruence.
  intros _.
  rewrite Z.compare_refl, Pos.compare_cont_refl. reflexivity.
Qed.

Lemma o_positivo (v : JS.Valor) (d : float) :
  (0 <? d)%float = true ->
  (ObtenerPuntos.positivo (JS.o v (JS.number d)) = true
   <-> JS.ToBoolean v = false \/ ObtenerPuntos.positivo v = true).
Proof.
  intros Hd. unfold JS.o.
  destruct (JS.ToBoolean v) eqn:Ht.
  - split; [auto | intros [H|H]; [discriminate | exact H]].
  - simpl. split; [auto | intros _; exact Hd].
Qed.

Lemma con_defecto_o (v d : JS.Valor) : ObtenerPuntos.con_defecto v d (JS.o v d).
Proof.
  unfold ObtenerPuntos.con_defecto, JS.o.
  destruct (JS.ToBoolean v); split; intros; congruence.
Qed.

Lemma o_truthy (v d : JS.Valor) :
  JS.ToBoolean d = true -> JS.ToBoolean (JS.o v d) = true.
Proof.
  intros Hd. unfold JS.o. destruct (JS.ToBoolean v) eqn:Hv; assumption.
Qed.

Lemma mapear_correcto (toS : float -> string) (d : Doc.Snapshot) :
  ObtenerPuntos.mapeo_correcto toS d (ObtenerPuntos.mapear toS d).
Proof.
  unfold ObtenerPuntos.mapeo_correcto, ObtenerPuntos.mapear. simpl.
  repeat match goal with |- _ /\ _ => split end;
    try reflexivity; try apply con_defecto_o;
    try (apply o_truthy; reflexivity);
    try (apply o_positivo; reflexivity).
  - intros [H|H]; rewrite H; reflexivity.
  - intros H1 H2. destruct (Doc.activo (Doc.data d)); simpl; congruence.
  - intros Hn. unfold JS.o. rewrite Hn.
    repeat split; intros; match goal with H : Doc.id _ = _ |- _ => rewrite H end;
      reflexivity.
  - intros H. rewrite H. reflexivity.
Qed.

(** C10 (as amended).  Every document is mapped, in order, to an object
    whose activo is true when the field is absent or null, whose nombre
    is "Punto <id>" when the stored one is falsy (the id as the template
    literal prints it: the string itself, "undefined" without an id, the
    elements joined by commas for an array), and whose consumo_base_kwh
    and potencia_base_w are 5.0 and 500 when the stored ones are falsy
    (0 included); the returned values are truthy, and they are numbers
    above zero exactly when the stored value is falsy or a number above
    zero. *)
Theorem obtenerPuntos_defectos (toS : float -> string) (docs : list Doc.Snapshot) :
  Forall2 (ObtenerPuntos.mapeo_correcto toS) docs
          (ObtenerPuntos.obtenerPuntos toS docs).
Proof.
  unfold ObtenerPuntos.obtenerPuntos.
  induction docs as [|d docs IH]; simpl; constructor.
  - apply mapear_correcto.
  - exact IH.
Qed.

(** C10 as stated fails: a stored base consumption of -3 is truthy, so it
    is returned as it is and the point does not satisfy
    consumo_base_kwh > 0 (the stored power 0 does become 500). *)
Lemma obtenerPuntos_negativo :
  map ObtenerPuntos.consumo_base_kwh
      (ObtenerPuntos.obtenerPuntos (fun _ => "0"%string) [ObtenerPuntos.doc_negativo])
  = [JS.number (-3)]
  /\ map (fun r => ObtenerPuntos.positivo (ObtenerPuntos.consumo_base_kwh r))
         (ObtenerPuntos.obtenerPuntos (fun _ => "0"%string) [ObtenerPuntos.doc_negativo])
     = [false]
  /\ map ObtenerPuntos.potencia_base_w
         (ObtenerPuntos.obtenerPuntos (fun _ => "0"%string) [ObtenerPuntos.doc_negativo])
     = [JS.number 500].
Proof. vm_compute. repeat split. Qed.

(* ------------------------------------------------------------------ *)
(** ** The historical cursor                                           *)
(* ------------------------------------------------------------------ *)

Lemma progresion_cons (inicio paso : Z) (n : nat) :
  progresion inicio paso (S n) = inicio :: progresion (inicio + paso) paso n.
Proof.
  unfold progresion. simpl. f_equal; [lia |].
  rewrite <- seq_shift, map_map. apply map_ext. intros k. lia.
Qed.

Lemma cuantas_fuera (inicio final paso : Z) :
  final < inicio -> cuantas inicio final paso = O.
Proof.
  intros H. unfold cuantas. destruct (Z.leb_spec inicio final); [lia | reflexivity].
Qed.

Lemma cuantas_dentro (inicio final paso : Z) :
  0 < paso -> inicio <= final ->
  cuantas inicio final paso = S (cuantas (inicio + paso) final paso).
Proof.
  intros Hp Hle. unfold cuantas.
  destruct (Z.leb_spec inicio final); [| lia].
  destruct (Z.leb_spec (inicio + paso) final).
  - replace (final - inicio) with ((final - (inicio + paso)) + 1 * paso) by lia.
    rewrite Z.div_add by lia.
    assert (0 <= (final - (inicio + paso)) / paso) by (apply Z.div_pos; lia).
    rewrite <- Z2Nat.inj_succ by lia. f_equal; lia.
  - rewrite Z.div_small by lia. reflexivity.
Qed.

Lemma visitas_app (a b : list Cli.Linea) :
  Cli.visitas (a ++ b) = Cli.visitas a ++ Cli.visitas b.
Proof.
  induction a as [|l a IH]; simpl; [reflexivity |].
  destruct l; simpl; rewrite ?IH; reflexivity.
Qed.

(** When every send resolves, the inner loop visits all the points and
    starts no lot. *)
Lemma lotePuntos_resuelve (tz : Z) (c : Config) (puntos : list Punto)
      (f : Fecha) (total : Z) (m : Cli.Mundo) :
  (forall k, Cli.envio m k = true) ->
  exists m',
    Cli.lotePuntos tz c puntos f total m
      = (Some (total + Z.of_nat (List.length puntos)), m')
    /\ Cli.envio m' = Cli.envio m
    /\ Cli.visitas (Cli.consola m') = Cli.visitas (Cli.consola m)
    /\ Cli.llamadas m' = (Cli.llamadas m + List.length puntos)%nat.
Proof.
  revert total m.
  induction puntos as [|p ps IH]; intros total m Hok.
  - exists m. simpl. repeat split; [do 2 f_equal; lia | lia].
  - cbn [Cli.lotePuntos]. unfold Cli.generar.
    destruct (generarLectura tz c p f (Cli.azar m)) as [l az].
    unfold Cli.enviarLectura. cbn [Cli.envio Cli.llamadas].
    rewrite Hok.
    match goal with
    | |- context [Cli.lotePuntos tz c ps f _ ?m1] =>
        destruct (IH (total + 1) m1) as (m' & E & He & Hv & Hl);
        [intros k; apply Hok |]
    end.
    exists m'. rewrite E. cbn in He, Hv, Hl |- *.
    repeat split.
    + do 2 f_equal. lia.
    + exact He.
    + rewrite Hv, visitas_app. simpl. apply app_nil_r.
    + lia.
Qed.


Section CursorDelServidor.

Import Servidor.



(** A cycle visits every point and ends, whatever the outcomes of the
    sends; it counts the sends that resolved. *)
Lemma ciclo_completo tz c ahora fecha (resto : list Punto) :
  forall (oks : list bool) (lote : list LecturaVista) (k : option Historico)
         (w : Proceso),
  tareas w = [] ->
  List.length oks = List.length resto ->
  exists w',
    dejar_correr tz c oks ahora
                 (continuarCiclo tz c ahora fecha resto lote k w) = w'
    /\ tareas w' = match k with
                   | Some h => [Temporizador (avanzar h)]
                   | None => []
                   end
    /\ marco w w'
    /\ totalEnviadas (sim w')
       = totalEnviadas (sim w) + Z.of_nat (List.length (filter (fun b => b) oks)).
Proof.
  induction resto as [|p r IH]; intros oks lote k w Ht Hl.
  - destruct oks; [| discriminate].
    eexists. split; [reflexivity |]. cbn [List.length dejar_correr continuarCiclo filter].
    unfold finCiclo, marco. destruct k as [h|]; cbn.
    + destruct (informa h); cbn; rewrite Ht; repeat split; lia.
    + rewrite Ht; repeat split; lia.
  - destruct oks as [|ok oks]; [discriminate |]. injection Hl as Hl.
    cbn [dejar_correr continuarCiclo].
    destruct (generarLectura tz c p fecha (azar w)) as [l az] eqn:G.
    unfold completar_primera. cbn. rewrite Ht. cbn.
    unfold reanudarCiclo.
    destruct ok; cbn.
    + match goal with
      | |- context [continuarCiclo tz c ahora fecha r ?lo k ?w1] =>
          destruct (IH oks lo k w1) as (w' & E & Ht' & Hm & Hn);
          [reflexivity | exact Hl |]
      end.
      exists w'. split; [exact E |]. split; [exact Ht' |].
      unfold marco in *. cbn in Hm, Hn. split; [tauto | lia].
    + match goal with
      | |- context [continuarCiclo tz c ahora fecha r ?lo k ?w1] =>
          destruct (IH oks lo k w1) as (w' & E & Ht' & Hm & Hn);
          [reflexivity | exact Hl |]
      end.
      exists w'. split; [exact E |]. split; [exact Ht' |].
      unfold marco in *. cbn in Hm, Hn. split; [tauto | lia].
Qed.



End CursorDelServidor.








(* ------------------------------------------------------------------ *)
(** ** Stopping the server                                             *)
(* ------------------------------------------------------------------ *)

Section Detener.

Import Servidor.

Lemma forallb_nth {A} (f : A -> bool) (l : list A) (i : nat) (x : A) :
  forallb f l = true -> nth_error l i = Some x -> f x = true.
Proof.
  intros Hf Hn. rewrite forallb_forall in Hf. apply Hf.
  eapply nth_error_In; eauto.
Qed.

Lemma forallb_filter {A} (f g : A -> bool) (l : list A) :
  forallb f l = true -> forallb f (filter g l) = true.
Proof.
  rewrite !forallb_forall. intros H x Hx. apply filter_In in Hx. apply H, Hx.
Qed.

Lemma forallb_firstn {A} (f : A -> bool) (l : list A) (i : nat) :
  forallb f l = true -> forallb f (firstn i l) = true.
Proof.
  revert i. induction l as [|x l IH]; intros [|i] H; simpl in *; auto.
  apply andb_true_iff in H. destruct H as [Hx Hl].
  rewrite Hx. simpl. now apply IH.
Qed.

Lemma forallb_skipn {A} (f : A -> bool) (l : list A) (i : nat) :
  forallb f l = true -> forallb f (skipn i l) = true.
Proof.
  revert i. induction l as [|x l IH]; intros [|i] H; simpl in *; auto.
  apply andb_true_iff in H. destruct H as [Hx Hl]. now apply IH.
Qed.

Lemma forallb_quitar {A} (f : A -> bool) (l : list A) (i : nat) :
  forallb f l = true -> forallb f (firstn i l ++ skipn (S i) l) = true.
Proof.
  intros H. rewrite forallb_app, forallb_firstn, forallb_skipn; auto.
Qed.

Lemma detenerSimulador_quieto (w0 w : Proceso) :
  en_pausa w ->
  totalEnviadas (sim w) = totalEnviadas (sim w0) ->
  ciclos w = ciclos w0 -> almacen w = almacen w0 -> azar w = azar w0 ->
  quieto w0 (detenerSimulador w).
Proof.
  unfold quieto, en_pausa, detenerSimulador. intros Hp Ht Hc Ha Hz.
  destruct (intervalo (sim w)); cbn; repeat split; auto.
  now apply forallb_filter.
Qed.

(** Looks the task of an event up in a process at rest: it is a timeout
    or there is none. *)
Ltac mirar_tarea Hp i :=
  match goal with
  | |- context [nth_error (tareas ?w) i] =>
      let t := fresh "t" in
      let Hn := fresh "Hn" in
      let Hk := fresh "Hk" in
      destruct (nth_error (tareas w) i) as [t|] eqn:Hn;
      [ pose proof (forallb_nth _ _ _ _ Hp Hn) as Hk;
        destruct t; try discriminate Hk
      | ]
  end.

(** No event other than a start moves a stopped process at rest. *)
Lemma paso_quieto tz c ahora (e : Evento) (w0 w : Proceso) :
  es_inicio e = false -> quieto w0 w -> quieto w0 (fst (paso tz c ahora e w)).
Proof.
  intros He (Hc & Hp & Ht & Hy & Ha & Hz).
  assert (Hq : quieto w0 w) by (repeat split; assumption).
  destruct e as [| | |i|i|i ok|i r|i ok]; try discriminate; cbn [paso].
  - cbn [fst]. now apply detenerSimulador_quieto.
  - mirar_tarea Hp i; [| exact Hq]. cbn [fst].
    unfold procesarLote. cbn [quitar con_tareas sim]. rewrite Hc. cbn [negb orb].
    apply detenerSimulador_quieto; cbn; auto.
    unfold en_pausa. cbn. now apply forallb_quitar.
  - mirar_tarea Hp i; exact Hq.
  - mirar_tarea Hp i; exact Hq.
  - mirar_tarea Hp i; exact Hq.
  - mirar_tarea Hp i; exact Hq.
Qed.

Lemma correr_quieto tz c (es : list (Fecha * Evento)) (w0 w : Proceso) :
  forallb (fun e => negb (es_inicio (snd e))) es = true ->
  quieto w0 w -> quieto w0 (correr tz c es w).
Proof.
  revert w. induction es as [|[ahora e] es IH]; intros w He Hq; [exact Hq |].
  cbn in He. apply andb_true_iff in He. destruct He as [He1 He2].
  cbn [correr]. apply IH; [exact He2 |].
  apply paso_quieto; [now apply negb_true_iff | exact Hq].
Qed.

End Detener.

(** After a stop made while the historical run rests between two steps
    (only timeouts of [procesarLote] are pending), and as long as start
    is not called again, no step executes whatever happens next: a
    timeout that fires sees the flag before anything is generated, so no
    cycle is entered, no draw is made, nothing is stored and
    totalEnviadas keeps its value. *)
Lemma detener_en_pausa
      (tz : Z) (c : Config) (ahora : Fecha) (w : Servidor.Proceso)
      (es : list (Fecha * Servidor.Evento)) :
  Servidor.en_pausa w ->
  forallb (fun e => negb (Servidor.es_inicio (snd e))) es = true ->
  let w' := Servidor.correr tz c es
              (fst (Servidor.paso tz c ahora Servidor.PostDetener w)) in
  Servidor.corriendo (Servidor.sim w') = false
  /\ Servidor.totalEnviadas (Servidor.sim w') = Servidor.totalEnviadas (Servidor.sim w)
  /\ Servidor.ciclos w' = Servidor.ciclos w
  /\ Servidor.almacen w' = Servidor.almacen w
  /\ Servidor.azar w' = Servidor.azar w.
Proof.
  intros Hp He w'.
  assert (Hq : Servidor.quieto w w').
  { subst w'. apply correr_quieto; [exact He |].
    cbn [Servidor.paso fst]. now apply detenerSimulador_quieto. }
  destruct Hq as (H1 & _ & H2 & H3 & H4 & H5). auto.
Qed.

(** The run that rests after its first cycle is stopped; the timeout then
    fires, stop is asked again, and stray completions arrive: nothing
    moves. *)
Lemma detener_en_pausa_ejemplo :
  Servidor.totalEnviadas
    (Servidor.sim
       (correr_ejemplo
          [(reloj, Servidor.Vence 0); (reloj, Servidor.PostDetener);
           (reloj, Servidor.Tic 0); (reloj, Servidor.EnvioResuelto 0 true)]
          (fst (paso_ejemplo reloj Servidor.PostDetener
                  (correr_ejemplo hasta_la_pausa servidor_ejemplo))))) = 1
  /\ Servidor.ciclos
       (correr_ejemplo
          [(reloj, Servidor.Vence 0); (reloj, Servidor.PostDetener);
           (reloj, Servidor.Tic 0); (reloj, Servidor.EnvioResuelto 0 true)]
          (fst (paso_ejemplo reloj Servidor.PostDetener
                  (correr_ejemplo hasta_la_pausa servidor_ejemplo))))
     = [(Some 0%nat, 1735711200000)].
Proof.
  destruct (detener_en_pausa tz_sv (CONFIG_inicial tz_sv) reloj
              (correr_ejemplo hasta_la_pausa servidor_ejemplo)
              [(reloj, Servidor.Vence 0); (reloj, Servidor.PostDetener);
               (reloj, Servidor.Tic 0); (reloj, Servidor.EnvioResuelto 0 true)]
              eq_refl eq_refl) as (_ & Ht & Hc & _).
  split; [exact Ht | exact Hc].
Defined.

(** C7, on the code.  The stop cancels nothing: [detenerSimulador]
    lowers the flag and leaves the timeout of [procesarLote] pending, to
    read the flag when it fires.  When nothing but such timeouts is
    pending and no start follows, that is enough: no further step
    executes and totalEnviadas keeps its value.  But when the flag is up
    again by the time the timeout fires, the stopped run takes it for its
    own and goes on.  A start made during the pause does that: the run
    stopped after its 00:00 step (one reading sent) executes its 01:00
    step beside the new run, and totalEnviadas goes from 1 to 3.  So
    does a start that was already waiting for its points when the stop
    came, with no request at all after the stop. *)
Theorem detener_no_cancela :
  (forall (tz : Z) (c : Config) (ahora : Fecha) (w : Servidor.Proceso)
          (es : list (Fecha * Servidor.Evento)),
      Servidor.en_pausa w ->
      forallb (fun e => negb (Servidor.es_inicio (snd e))) es = true ->
      let w' := Servidor.correr tz c es
                  (fst (Servidor.paso tz c ahora Servidor.PostDetener w)) in
      Servidor.corriendo (Servidor.sim w') = false
      /\ Servidor.totalEnviadas (Servidor.sim w')
         = Servidor.totalEnviadas (Servidor.sim w)
      /\ Servidor.ciclos w' = Servidor.ciclos w
      /\ Servidor.almacen w' = Servidor.almacen w
      /\ Servidor.azar w' = Servidor.azar w)
  /\ (forall w : Servidor.Proceso,
        Servidor.tareas (Servidor.detenerSimulador w)
        = match Servidor.intervalo (Servidor.sim w) with
          | Some handle =>
              filter (fun t => negb (Servidor.es_intervalo handle t))
                     (Servidor.tareas w)
          | None => Servidor.tareas w
          end)
  /\ Servidor.en_pausa (correr_ejemplo hasta_la_pausa servidor_ejemplo)
  /\ Servidor.ciclos (correr_ejemplo hasta_la_pausa servidor_ejemplo)
     = [(Some 0%nat, 1735711200000)]
  /\ Servidor.totalEnviadas
       (Servidor.sim (correr_ejemplo hasta_la_pausa servidor_ejemplo)) = 1
  /\ Servidor.ciclos
       (correr_ejemplo detener_y_reiniciar
          (correr_ejemplo hasta_la_pausa servidor_ejemplo))
     = [(Some 0%nat, 1735711200000); (Some 1%nat, 1735711200000);
        (Some 0%nat, 1735714800000)]
  /\ Servidor.totalEnviadas
       (Servidor.sim
          (correr_ejemplo detener_y_reiniciar
             (correr_ejemplo hasta_la_pausa servidor_ejemplo))) = 3
  /\ Servidor.tareas (correr_ejemplo pausa_con_inicio_pendiente servidor_sin_cargar)
     = [Servidor.Obteniendo;
        Servidor.Temporizador
          {| Servidor.corrida := 0; Servidor.informa := true;
             Servidor.fechaFin := 1735722000000;
             Servidor.incremento := 3600000; Servidor.totalLotes := 3;
             Servidor.fechaActual := 1735714800000; Servidor.lote := 1 |}]
  /\ Servidor.totalEnviadas
       (Servidor.sim (correr_ejemplo pausa_con_inicio_pendiente servidor_sin_cargar))
     = 1
  /\ forallb (fun e => negb (Servidor.es_inicio (snd e))) detener_y_llegan_puntos
     = true
  /\ Servidor.ciclos
       (correr_ejemplo detener_y_llegan_puntos
          (correr_ejemplo pausa_con_inicio_pendiente servidor_sin_cargar))
     = [(Some 0%nat, 1735711200000); (Some 1%nat, 1735711200000);
        (Some 0%nat, 1735714800000)]
  /\ Servidor.totalEnviadas
       (Servidor.sim
          (correr_ejemplo detener_y_llegan_puntos
             (correr_ejemplo pausa_con_inicio_pendiente servidor_sin_cargar))) = 3.
Proof.
  split; [| split].
  - intros tz c ahora w es Hp He. now apply detener_en_pausa.
  - intros w. unfold Servidor.detenerSimulador.
    destruct (Servidor.intervalo (Servidor.sim w)); reflexivity.
  - vm_compute. repeat split.
Qed.

(* ------------------------------------------------------------------ *)
(** ** Starting twice                                                  *)
(* ------------------------------------------------------------------ *)

(** While the flag is up, both editions of /api/iniciar answer with a
    failure and leave the process as it is. *)
Lemma iniciar_ya_corriendo (tz : Z) (c : Config) (ahora : Fecha)
      (w : Servidor.Proceso) :
  Servidor.corriendo (Servidor.sim w) = true ->
  Servidor.paso tz c ahora Servidor.PostIniciar w
  = (w, Some {| Servidor.codigo := if Servidor.sesion w then 200 else 401;
                Servidor.success := false |})
  /\ Servidor.paso tz c ahora Servidor.PostIniciar1 w
     = (w, Some {| Servidor.codigo := 200; Servidor.success := false |}).
Proof.
  intros Hc. cbn [Servidor.paso].
  unfold Servidor.api_iniciar, Servidor.api_iniciar1. rewrite Hc.
  destruct (Servidor.sesion w); split; reflexivity.
Qed.


(** C8, on the code.  A start that finds the flag up is refused and
    changes nothing.  Yet two runs can be alive at once.  In the basic
    edition a second request that arrives while the first still awaits
    the login passes the guard too: both succeed, two intervals are
    armed, stop clears the last one only and the other keeps running
    cycles with the flag down.  In the current edition a start after a
    stop finds the old timeout still pending: two chains of
    [procesarLote] run under one flag. *)
Theorem inicio_doble_corrida :
  (forall (tz : Z) (c : Config) (ahora : Fecha) (w : Servidor.Proceso),
      Servidor.corriendo (Servidor.sim w) = true ->
      fst (Servidor.paso tz c ahora Servidor.PostIniciar w) = w
      /\ option_map Servidor.success
           (snd (Servidor.paso tz c ahora Servidor.PostIniciar w)) = Some false
      /\ fst (Servidor.paso tz c ahora Servidor.PostIniciar1 w) = w
      /\ option_map Servidor.success
           (snd (Servidor.paso tz c ahora Servidor.PostIniciar1 w)) = Some false)
  /\ snd (paso_ejemplo reloj segundo_inicio
            (correr_ejemplo doble_inicio servidor_basico))
     = Some {| Servidor.codigo := 200; Servidor.success := true |}
  /\ Servidor.corridas_vivas
       (fst (paso_ejemplo reloj segundo_inicio
               (correr_ejemplo doble_inicio servidor_basico))) = 2%nat
  /\ Servidor.corriendo
       (Servidor.sim
          (correr_ejemplo detener_y_tic
             (fst (paso_ejemplo reloj segundo_inicio
                     (correr_ejemplo doble_inicio servidor_basico))))) = false
  /\ Servidor.ciclos
       (correr_ejemplo detener_y_tic
          (fst (paso_ejemplo reloj segundo_inicio
                  (correr_ejemplo doble_inicio servidor_basico))))
     = [(None, reloj); (None, reloj); (None, reloj + 10000)]
  /\ Servidor.corriendo
       (Servidor.sim
          (correr_ejemplo detener_y_reiniciar
             (correr_ejemplo hasta_la_pausa servidor_ejemplo))) = true
  /\ Servidor.corridas_vivas
       (correr_ejemplo detener_y_reiniciar
          (correr_ejemplo hasta_la_pausa servidor_ejemplo)) = 2%nat.
Proof.
  split.
  - intros tz c ahora w Hc.
    destruct (iniciar_ya_corriendo tz c ahora w Hc) as [H3 H1].
    rewrite H3, H1. repeat split.
  - vm_compute. repeat split.
Qed.

(* ------------------------------------------------------------------ *)
(** ** A point that fails                                              *)
(* ------------------------------------------------------------------ *)

Lemma continuarCiclo_corriendo (tz : Z) (c : Config) (ahora f : Fecha)
      (resto : list Punto) (lote : list Servidor.LecturaVista)
      (k : option Servidor.Historico) (w : Servidor.Proceso) :
  Servidor.corriendo (Servidor.sim (Servidor.continuarCiclo tz c ahora f resto lote k w))
  = Servidor.corriendo (Servidor.sim w).
Proof.
  destruct resto as [|p r]; cbn.
  - unfold Servidor.finCiclo. destruct k as [h|]; cbn; [| reflexivity].
    destruct (Servidor.informa h); reflexivity.
  - destruct (generarLectura tz c p f (Servidor.azar w)); reflexivity.
Qed.

(** [cicloLecturas] asks Firestore once per point, whatever the answers. *)
Lemma cicloPuntos_llamadas (tz : Z) (c : Config) (puntos : list Punto)
      (f : Fecha) (m : Cli.Mundo) :
  Cli.llamadas (Cli.cicloPuntos tz c puntos f m)
  = (Cli.llamadas m + List.length puntos)%nat.
Proof.
  revert m. induction puntos as [|p ps IH]; intros m; cbn [Cli.cicloPuntos List.length].
  - lia.
  - unfold Cli.generar.
    destruct (generarLectura tz c p f (Cli.azar m)) as [l az].
    unfold Cli.enviarLectura. cbn [Cli.envio Cli.llamadas].
    rewrite IH. destruct (Cli.envio m (Cli.llamadas m)); cbn; lia.
Qed.

(** C9, on the code.  The server's [ejecutarCiclo] and the command
    line's [cicloLecturas] catch the failure of one point and go on: the
    flag is not touched, the remaining points are visited, their readings
    stored and counted.  The historical loop of the command line has no
    such catch: with a first write rejected, [ejecutarHistorico] throws,
    the two other points of the cycle are never asked for, and the
    process exits with code 1 after one of four steps. *)
Theorem fallo_de_un_punto :
  (forall (tz : Z) (c : Config) (ahora f : Fecha) (k : option Servidor.Historico)
          (w : Servidor.Proceso) (oks : list bool),
      Servidor.tareas w = [] ->
      List.length oks = List.length (Servidor.puntos (Servidor.sim w)) ->
      let w' := Servidor.dejar_correr tz c oks ahora
                  (Servidor.ejecutarCiclo tz c ahora f k w) in
      Servidor.corriendo (Servidor.sim w') = Servidor.corriendo (Servidor.sim w)
      /\ Servidor.totalEnviadas (Servidor.sim w')
         = Servidor.totalEnviadas (Servidor.sim w)
           + Z.of_nat (List.length (filter (fun b => b) oks))
      /\ Servidor.tareas w'
         = match k with
           | Some h => [Servidor.Temporizador (Servidor.avanzar h)]
           | None => []
           end)
  /\ (forall (tz : Z) (c : Config) (ahora : Fecha) (cy : Servidor.Ciclo)
          (w : Servidor.Proceso),
      Servidor.reanudarCiclo tz c ahora cy false w
      = Servidor.continuarCiclo tz c ahora (Servidor.c_fecha cy)
          (Servidor.c_resto cy) (Servidor.c_lote cy) (Servidor.c_sigue cy)
          (Servidor.emitir
             (Servidor.Log (Servidor.ErrorEnPunto (id (Servidor.c_punto cy)))) w)
      /\ Servidor.corriendo
           (Servidor.sim (Servidor.reanudarCiclo tz c ahora cy false w))
         = Servidor.corriendo (Servidor.sim w))
  /\ (forall (tz : Z) (c : Config) (puntos : list Punto) (f : Fecha) (m : Cli.Mundo),
        Cli.llamadas (Cli.cicloLecturas tz c puntos f m)
        = (Cli.llamadas m + List.length puntos)%nat)
  /\ Servidor.totalEnviadas
       (Servidor.sim
          (correr_ejemplo ciclo_con_fallo
             (Servidor.proceso_inicial (CONFIG_tres_horas tz_sv) tres_puntos azar_fijo)))
     = 2
  /\ map id_punto
         (Servidor.almacen
            (correr_ejemplo ciclo_con_fallo
               (Servidor.proceso_inicial (CONFIG_tres_horas tz_sv) tres_puntos azar_fijo)))
     = ["N1"%string; "N4"%string]
  /\ Servidor.corriendo
       (Servidor.sim
          (correr_ejemplo ciclo_con_fallo
             (Servidor.proceso_inicial (CONFIG_tres_horas tz_sv) tres_puntos azar_fijo)))
     = true
  /\ map id_punto
         (Cli.almacen
            (Cli.cicloLecturas tz_sv (CONFIG_tres_horas tz_sv) tres_puntos reloj
               (Cli.mundo_inicial azar_fijo falla_el_primero)))
     = ["N3"%string; "N4"%string]
  /\ option_map
       (fun r => (fst r, Cli.llamadas (snd r), Cli.almacen (snd r), Cli.consola (snd r)))
       (Cli.iniciar tz_sv (CONFIG_tres_horas tz_sv) 10 reloj tres_puntos
          (Cli.mundo_inicial azar_fijo falla_el_primero))
     = Some (1, 1%nat, [], [Cli.LoteInicia 1 1735711200000; Cli.ErrorFatal]).
Proof.
  split; [| split; [| split]].
  - intros tz c ahora f k w oks Ht Hl w'. subst w'.
    unfold Servidor.ejecutarCiclo.
    match goal with
    | |- context [Servidor.continuarCiclo tz c ahora f ?ps ?lo k ?w2] =>
        destruct (ciclo_completo tz c ahora f ps oks lo k w2)
          as (w' & E & Ht' & (Hc & _) & Hn); [exact Ht | exact Hl |]
    end.
    rewrite E. cbn in Hc, Hn. auto.
  - intros tz c ahora cy w. split; [reflexivity |].
    unfold Servidor.reanudarCiclo. now rewrite continuarCiclo_corriendo.
  - intros tz c puntos f m. unfold Cli.cicloLecturas.
    now rewrite cicloPuntos_llamadas.
  - vm_compute. repeat split.
Qed.

(* ================================================================== *)
(** * Properties of the rest of the program                            *)
(* ================================================================== *)

(* ------------------------------------------------------------------ *)
(** ** Validation of the configuration                                 *)
(* ------------------------------------------------------------------ *)

Lemma push_si_vacio (b : bool) (e : string) (l : list string) :
  Configuracion.push_si b e l = [] <-> b = false /\ l = [].
Proof.
  unfold Configuracion.push_si. destruct b; split.
  - intros H. destruct l; discriminate.
  - intros [H _]. discriminate.
  - auto.
  - tauto.
Qed.

(** The configuration is valid exactly when no rule is violated. *)
Lemma validar_valido (c : Config) :
  Configuracion.valido (Configuracion.validarConfiguracion c) = true <->
  (INTERVALO_MS c <? 1000) = false
  /\ match FECHA_INICIO c, FECHA_FIN c with
     | Some inicio, Some fin => (fin <=? inicio) = false
     | _, _ => True
     end
  /\ (FACTOR_PICO c <? 1)%float = false
  /\ (FACTOR_FIN_SEMANA c <? 0)%float = false
  /\ (1 <? FACTOR_FIN_SEMANA c)%float = false.
Proof.
  unfold Configuracion.validarConfiguracion. cbn [Configuracion.valido].
  rewrite Nat.eqb_eq, length_zero_iff_nil, !push_si_vacio, orb_false_iff.
  destruct (FECHA_INICIO c), (FECHA_FIN c); rewrite ?push_si_vacio; tauto.
Qed.

(** A number that is not below 1 is not below 0. *)
Lemma ltb_cero_de_uno (x : float) :
  (x <? 1)%float = false -> (x <? 0)%float = false.
Proof.
  rewrite !FloatAxioms.ltb_spec, Prim2SF_cero, Prim2SF_uno.
  destruct (Prim2SF x) as [s|s| |s m e]; try destruct s;
    cbv [SFltb SFcompare uno_sf]; congruence.
Qed.

(** X1.  A valid configuration keeps the readings from going below zero:
    with VARIACION_CONSUMO between 0 and 1, a point whose base
    consumption is not negative never gets a negative "activo" reading. *)
Theorem validada_no_negativo
        (tz : Z) (c : Config) (p : Punto) (f : Fecha) (az : Azar) :
  Configuracion.valido (Configuracion.validarConfiguracion c) = true ->
  estado (fst (generarLectura tz c p f az)) = "activo"%string ->
  (consumo_base_kwh p <? 0)%float = false ->
  (0 <=? VARIACION_CONSUMO c)%float = true ->
  (VARIACION_CONSUMO c <=? 1)%float = true ->
  (0 <=? fuente az (S (consumidos az)))%float = true ->
  (fuente az (S (consumidos az)) <=? 1)%float = true ->
  (consumo_kwh (fst (generarLectura tz c p f az)) <? 0)%float = false.
Proof.
  intros Hv He Hb Hv0 Hv1 Hu0 Hu1.
  apply validar_valido in Hv. destruct Hv as (_ & _ & Hp & Hf & _).
  apply ltb_cero_de_uno in Hp.
  destruct (estado_activo_casos tz c p f az He) as [Ha Hu].
  rewrite generarLectura_casos, Ha, Hu. simpl.
  apply toFixed2_no_negativo, mul_no_negativo.
  - now repeat apply por_si_no_negativo.
  - now apply factor_variacion_no_negativo.
Qed.

Lemma validada_no_negativo_ejemplo :
  (consumo_kwh (fst (generarLectura tz_sv (CONFIG_picos tz_sv) punto_N1
                       (sabado_9h tz_sv) azar_fijo)) <? 0)%float = false.
Proof.
  apply (validada_no_negativo tz_sv (CONFIG_picos tz_sv) punto_N1
           (sabado_9h tz_sv) azar_fijo); reflexivity.
Defined.

(* ------------------------------------------------------------------ *)
(** ** The command line: a step that does not advance                  *)
(* ------------------------------------------------------------------ *)

Lemma bucle_sin_avance (tz : Z) (c : Config) (puntos : list Punto) (fechaFin : Fecha) :
  INCREMENTO_TIEMPO_MS c = 0 ->
  forall (n : nat) (f : Fecha) (total lote : Z) (m : Cli.Mundo),
  (forall k, Cli.envio m k = true) ->
  f <= fechaFin ->
  Cli.bucle tz c n puntos fechaFin f total lote m = None.
Proof.
  intros Hinc n.
  induction n as [|n IH]; intros f total lote m Hok Hle; [reflexivity |].
  cbn [Cli.bucle].
  destruct (Z.leb_spec f fechaFin) as [_|Hgt]; [| lia].
  destruct (lotePuntos_resuelve tz c puntos f total
              (Cli.imprimir (Cli.LoteInicia (lote + 1) f) m))
    as (m1 & E & He & _ & _); [exact Hok |].
  rewrite E. apply IH; [| lia].
  intros k. destruct (Z.rem (lote + 1) (BATCH_SIZE c) =? 0);
    cbn; rewrite ?He; apply Hok.
Qed.

(** X2.  validarConfiguracion does not look at INCREMENTO_TIEMPO_MS, and
    the historical loop of the command line trusts it: with a step of
    zero, a start date not after the end and a Firestore that accepts
    every write, the configuration is as valid as with any other step
    and the loop is never left, however many turns it is given. *)
Theorem historico_sin_avance
        (tz : Z) (c : Config) (ahora inicio : Fecha)
        (puntos : list Punto) (m : Cli.Mundo) :
  FECHA_INICIO c = Some inicio ->
  inicio <= match FECHA_FIN c with Some f => f | None => ahora end ->
  (forall i, Cli.envio m i = true) ->
  (forall k : Z,
     Configuracion.validarConfiguracion (con_incremento c k)
     = Configuracion.validarConfiguracion c)
  /\ forall n : nat,
       Cli.ejecutarHistorico tz (con_incremento c 0) n ahora puntos m = None.
Proof.
  intros Hi Hle Hok. split; [reflexivity |].
  intros n. unfold Cli.ejecutarHistorico. cbn [FECHA_INICIO FECHA_FIN con_incremento].
  rewrite Hi. apply bucle_sin_avance; [reflexivity | assumption | assumption].
Qed.

Lemma historico_sin_avance_ejemplo :
  Configuracion.valido
    (Configuracion.validarConfiguracion (con_incremento (CONFIG_tres_horas tz_sv) 0))
  = true
  /\ forall n : nat,
       Cli.ejecutarHistorico tz_sv (con_incremento (CONFIG_tres_horas tz_sv) 0) n
                             reloj [punto_N1]
                             (Cli.mundo_inicial azar_fijo (fun _ => true)) = None.
Proof.
  split; [reflexivity |].
  apply (historico_sin_avance tz_sv (CONFIG_tres_horas tz_sv) reloj
           (Date.local tz_sv Date.dia_2025_01_01 0) [punto_N1]
           (Cli.mundo_inicial azar_fijo (fun _ => true)));
    [reflexivity | vm_compute; discriminate | reflexivity].
Defined.

(* ------------------------------------------------------------------ *)
(** ** The command line: what comes before the first write             *)
(* ------------------------------------------------------------------ *)

(** X3.  [iniciar] asks Firestore for no write and draws no random
    number unless the configuration is valid, the login succeeds and
    [obtenerPuntos] resolves with at least one point; otherwise the
    process exits with code 1 and the world is as it was. *)
Theorem iniciar_sin_condiciones
        (tz : Z) (c : Config) (n : nat) (ahora : Fecha) (sesion : bool)
        (obtenidos : option (list Punto)) (m : Cli.Mundo) :
  Configuracion.valido (Configuracion.validarConfiguracion c) = false
  \/ sesion = false \/ obtenidos = None \/ obtenidos = Some [] ->
  exists r,
    Principal.iniciar tz c n ahora sesion obtenidos m = Some r
    /\ Principal.salida r = Some 1
    /\ Principal.mundo r = m
    /\ Principal.intervalo r = false.
Proof.
  intros H. unfold Principal.iniciar.
  destruct (Configuracion.valido (Configuracion.validarConfiguracion c)); cbn [negb].
  - destruct sesion; cbn [negb].
    + destruct obtenidos as [[|p ps]|].
      * eexists. split; [reflexivity |]. repeat split.
      * destruct H as [H|[H|[H|H]]]; discriminate.
      * eexists. split; [reflexivity |]. repeat split.
    + eexists. split; [reflexivity |]. repeat split.
  - eexists. split; [reflexivity |]. repeat split.
Qed.

Lemma iniciar_sin_condiciones_ejemplo :
  exists r,
    Principal.iniciar tz_sv (CONFIG_inicial tz_sv) 5 reloj true (Some [])
                      (Cli.mundo_inicial azar_fijo (fun _ => true)) = Some r
    /\ Principal.salida r = Some 1
    /\ Principal.mundo r = Cli.mundo_inicial azar_fijo (fun _ => true)
    /\ Principal.intervalo r = false.
Proof.
  apply (iniciar_sin_condiciones tz_sv (CONFIG_inicial tz_sv) 5 reloj true (Some [])
           (Cli.mundo_inicial azar_fijo (fun _ => true))).
  right. right. right. reflexivity.
Defined.

Lemma generarLectura_marca (tz : Z) (c : Config) (p : Punto) (f : Fecha) (az : Azar) :
  marca (fst (generarLectura tz c p f az)) = (id p, f).
Proof.
  rewrite generarLectura_casos. unfold marca.
  destruct (negb (activo p)); [reflexivity |].
  destruct (fuente az (consumidos az) <? PROBABILIDAD_ERROR c)%float; reflexivity.
Qed.

Lemma lotePuntos_almacen (tz : Z) (c : Config) (puntos : list Punto)
      (f : Fecha) (total : Z) (m : Cli.Mundo) :
  (forall k, Cli.envio m k = true) ->
  exists m',
    Cli.lotePuntos tz c puntos f total m
      = (Some (total + Z.of_nat (List.length puntos)), m')
    /\ Cli.envio m' = Cli.envio m
    /\ map marca (Cli.almacen m')
       = map marca (Cli.almacen m) ++ map (fun p => (id p, f)) puntos.
Proof.
  revert total m.
  induction puntos as [|p ps IH]; intros total m Hok.
  - exists m. simpl. rewrite app_nil_r. repeat split. do 2 f_equal. lia.
  - cbn [Cli.lotePuntos]. unfold Cli.generar.
    pose proof (generarLectura_marca tz c p f (Cli.azar m)) as Hm.
    destruct (generarLectura tz c p f (Cli.azar m)) as [l az].
    unfold Cli.enviarLectura. cbn [Cli.envio Cli.llamadas].
    rewrite Hok.
    match goal with
    | |- context [Cli.lotePuntos tz c ps f _ ?m1] =>
        destruct (IH (total + 1) m1) as (m' & E & He & Ha);
        [intros k; apply Hok |]
    end.
    exists m'. rewrite E. cbn in He, Ha, Hm |- *.
    split; [do 2 f_equal; lia |]. split; [exact He |].
    rewrite Ha, map_app. cbn. rewrite Hm, <- app_assoc. reflexivity.
Qed.

Lemma bucle_almacen (tz : Z) (c : Config) (puntos : list Punto) (fechaFin : Fecha) :
  0 < INCREMENTO_TIEMPO_MS c ->
  forall (n : nat) (f : Fecha) (total lote : Z) (m : Cli.Mundo),
  (forall k, Cli.envio m k = true) ->
  (cuantas f fechaFin (INCREMENTO_TIEMPO_MS c) < n)%nat ->
  exists m0,
    Cli.bucle tz c n puntos fechaFin f total lote m
    = Some (Cli.Sale0,
            Cli.imprimir
              (Cli.Completada
                 (total + Z.of_nat (cuantas f fechaFin (INCREMENTO_TIEMPO_MS c)
                                    * List.length puntos))
                 (List.length puntos)) m0)
    /\ map marca (Cli.almacen m0)
       = map marca (Cli.almacen m)
         ++ flat_map (fun t => map (fun p => (id p, t)) puntos)
                     (progresion f (INCREMENTO_TIEMPO_MS c)
                                 (cuantas f fechaFin (INCREMENTO_TIEMPO_MS c))).
Proof.
  intros Hinc n.
  induction n as [|n IH]; intros f total lote m Hok Hn; [lia |].
  cbn [Cli.bucle].
  destruct (Z.leb_spec f fechaFin) as [Hle|Hgt].
  - rewrite (cuantas_dentro _ _ _ Hinc Hle) in Hn |- *.
    destruct (lotePuntos_almacen tz c puntos f total
                (Cli.imprimir (Cli.LoteInicia (lote + 1) f) m))
      as (m1 & E & He & Ha); [exact Hok |].
    rewrite E.
    match goal with
    | |- context [Cli.bucle tz c n puntos fechaFin _ ?t ?l ?m2] =>
        destruct (IH (f + INCREMENTO_TIEMPO_MS c) t l m2) as (m0 & E' & Ha');
        [ | lia | ]
    end.
    + intros k. destruct (Z.rem (lote + 1) (BATCH_SIZE c) =? 0);
        cbn; rewrite ?He; apply Hok.
    + exists m0. rewrite E'. split.
      * do 4 f_equal. lia.
      * rewrite Ha', progresion_cons. cbn [flat_map].
        assert (Hm2 : forall m' : Cli.Mundo,
                   Cli.almacen
                     (if Z.rem (lote + 1) (BATCH_SIZE c) =? 0
                      then Cli.imprimir (Cli.Pausa (DELAY_ENTRE_LOTES c)) m' else m')
                   = Cli.almacen m').
        { intros m'. destruct (Z.rem (lote + 1) (BATCH_SIZE c) =? 0); reflexivity. }
        rewrite Hm2, Ha. cbn. rewrite <- app_assoc. reflexivity.
  - rewrite (cuantas_fuera _ _ _ Hgt).
    exists m. split.
    + do 4 f_equal. lia.
    + cbn. now rewrite app_nil_r.
Qed.

(** X4.  With a valid configuration, a login that succeeds, at least one
    point, a positive step and a Firestore that accepts every write, the
    historical run of [iniciar] stores one reading per point for each
    instant FECHA_INICIO, FECHA_INICIO + step, ... up to the end date,
    in that order, reports as many readings as it stored, and exits with
    code 0. *)
Theorem iniciar_historico_completo
        (tz : Z) (c : Config) (ahora inicio : Fecha)
        (p : Punto) (ps : list Punto) (m : Cli.Mundo) :
  Configuracion.valido (Configuracion.validarConfiguracion c) = true ->
  FECHA_INICIO c = Some inicio ->
  0 < INCREMENTO_TIEMPO_MS c ->
  (forall k, Cli.envio m k = true) ->
  let final := match FECHA_FIN c with Some f => f | None => ahora end in
  let n := cuantas inicio final (INCREMENTO_TIEMPO_MS c) in
  exists r m0,
    Principal.iniciar tz c (S n) ahora true (Some (p :: ps)) m = Some r
    /\ Principal.salida r = Some 0
    /\ Principal.mundo r
       = Cli.imprimir (Cli.Completada (Z.of_nat (n * S (List.length ps)))
                                      (S (List.length ps))) m0
    /\ map marca (Cli.almacen (Principal.mundo r))
       = map marca (Cli.almacen m)
         ++ flat_map (fun t => map (fun q => (id q, t)) (p :: ps))
                     (progresion inicio (INCREMENTO_TIEMPO_MS c) n).
Proof.
  intros Hv Hi Hinc Hok final n.
  unfold Principal.iniciar. rewrite Hv. cbn [negb].
  unfold MODO. rewrite Hi. cbn [String.eqb Ascii.eqb Bool.eqb].
  unfold Cli.iniciar, Cli.ejecutarHistorico. rewrite Hi.
  destruct (bucle_almacen tz c (p :: ps) final Hinc (S n) inicio 0 0 m Hok)
    as (m0 & E & Ha); [subst n; lia |].
  fold final. rewrite E.
  eexists. exists m0. split; [reflexivity |].
  cbn [Principal.salida Principal.mundo]. repeat split.
  cbn [Cli.imprimir Cli.almacen]. exact Ha.
Qed.

Lemma iniciar_historico_completo_ejemplo :
  exists r m0,
    Principal.iniciar tz_sv (CONFIG_tres_horas tz_sv) 5 reloj true
                      (Some [punto_N1; punto_apagado])
                      (Cli.mundo_inicial azar_fijo (fun _ => true)) = Some r
    /\ Principal.salida r = Some 0
    /\ Principal.mundo r = Cli.imprimir (Cli.Completada 8 2) m0
    /\ map marca (Cli.almacen (Principal.mundo r))
       = [("N1"%string, 1735711200000); ("N2"%string, 1735711200000);
          ("N1"%string, 1735714800000); ("N2"%string, 1735714800000);
          ("N1"%string, 1735718400000); ("N2"%string, 1735718400000);
          ("N1"%string, 1735722000000); ("N2"%string, 1735722000000)].
Proof.
  exact (iniciar_historico_completo tz_sv (CONFIG_tres_horas tz_sv) reloj
           (Date.local tz_sv Date.dia_2025_01_01 0) punto_N1 [punto_apagado]
           (Cli.mundo_inicial azar_fijo (fun _ => true))
           eq_refl eq_refl eq_refl (fun _ => eq_refl)).
Defined.

(* ------------------------------------------------------------------ *)
(** ** Sending in a batch                                              *)
(* ------------------------------------------------------------------ *)

Lemma resueltas_cota (envio : nat -> bool) (n : nat) :
  forall k, (Envio.resueltas envio k n <= n)%nat.
Proof.
  induction n as [|n IH]; intros k; cbn; [lia |].
  destruct (envio k); [specialize (IH (S k)) |]; lia.
Qed.

Lemma enviarDesde_prefijo (lecturas : list Lectura) :
  forall (enviadas : Z) (m : Cli.Mundo),
  let k := Envio.resueltas (Cli.envio m) (Cli.llamadas m) (List.length lecturas) in
  let r := Envio.enviarDesde lecturas enviadas m in
  Cli.almacen (snd r) = Cli.almacen m ++ firstn k lecturas
  /\ Cli.envio (snd r) = Cli.envio m
  /\ Cli.azar (snd r) = Cli.azar m
  /\ Cli.consola (snd r) = Cli.consola m
  /\ (k = List.length lecturas ->
      fst r = Some (enviadas + Z.of_nat k)
      /\ Cli.llamadas (snd r) = (Cli.llamadas m + k)%nat)
  /\ ((k < List.length lecturas)%nat ->
      fst r = None
      /\ Cli.llamadas (snd r) = (Cli.llamadas m + S k)%nat).
Proof.
  induction lecturas as [|l ls IH]; intros enviadas m; cbn zeta.
  - cbn. rewrite app_nil_r. repeat split; try lia. f_equal. lia.
  - cbn [Envio.enviarDesde Cli.enviarLectura List.length Envio.resueltas].
    destruct (Cli.envio m (Cli.llamadas m)) eqn:E.
    + match goal with
      | |- context [Envio.enviarDesde ls ?e ?m1] =>
          specialize (IH e m1)
      end.
      cbn zeta in IH. cbn [Cli.envio Cli.llamadas Cli.almacen Cli.azar Cli.consola] in IH.
      destruct IH as (Ha & He & Hz & Hc & Hall & Hpart).
      rewrite Ha, He, Hz, Hc. cbn [firstn]. rewrite <- app_assoc. cbn [app].
      split; [reflexivity |]. split; [reflexivity |]. split; [reflexivity |].
      split; [reflexivity |]. split.
      * intros Hk. injection Hk as Hk. destruct (Hall Hk) as [H1 H2].
        rewrite H1, H2. split; [f_equal; lia | lia].
      * intros Hk. destruct (Hpart ltac:(lia)) as [H1 H2].
        rewrite H1, H2. split; [reflexivity | lia].
    + cbn. rewrite app_nil_r. repeat split; try discriminate; lia.
Qed.

(** X6.  [enviarLecturasBatch] stores the readings in order up to the
    first write that Firestore rejects, and nothing after it; it returns
    the count only when every write resolved, and otherwise throws with
    the earlier readings left in the collection. *)
Theorem enviarLecturasBatch_prefijo (lecturas : list Lectura) (m : Cli.Mundo) :
  let k := Envio.resueltas (Cli.envio m) (Cli.llamadas m) (List.length lecturas) in
  Cli.almacen (snd (Envio.enviarLecturasBatch lecturas m))
  = Cli.almacen m ++ firstn k lecturas
  /\ (fst (Envio.enviarLecturasBatch lecturas m) = Some (Z.of_nat (List.length lecturas))
      <-> k = List.length lecturas)
  /\ (fst (Envio.enviarLecturasBatch lecturas m) = None
      <-> (k < List.length lecturas)%nat)
  /\ Cli.llamadas (snd (Envio.enviarLecturasBatch lecturas m))
     = (Cli.llamadas m + Nat.min (S k) (List.length lecturas))%nat.
Proof.
  intros k. unfold Envio.enviarLecturasBatch.
  destruct (enviarDesde_prefijo lecturas 0 m) as (Ha & _ & _ & _ & Hall & Hpart).
  fold k in Ha, Hall, Hpart.
  assert (Hk : (k <= List.length lecturas)%nat) by apply resueltas_cota.
  split; [exact Ha |].
  destruct (Nat.eq_dec k (List.length lecturas)) as [E|E].
  - destruct (Hall E) as [H1 H2]. rewrite H1, H2, E. cbn [Z.add].
    repeat split; try lia; try discriminate; auto.
  - destruct (Hpart ltac:(lia)) as [H1 H2]. rewrite H1, H2.
    repeat split; try lia; try discriminate; auto.
Qed.

(* ------------------------------------------------------------------ *)
(** ** debugLectura                                                    *)
(* ------------------------------------------------------------------ *)

Lemma getDay_rango (tz : Z) (t : Fecha) : 0 <= Date.getDay tz t < 7.
Proof. unfold Date.getDay. apply Z.mod_pos_bound. lia. Qed.

Lemma getHours_rango (tz : Z) (t : Fecha) : 0 <= Date.getHours tz t < 24.
Proof. unfold Date.getHours. apply Z.mod_pos_bound. lia. Qed.

(** X7.  [debugLectura] explains [generarLectura]: the day always has a
    name (the index never leaves the array), the weekend flag is set
    exactly for "Dom" and "Sab", the hour lies between 0 and 23, and for
    an active point that the error rule spares the reading is the base
    value times FACTOR_FIN_SEMANA when the weekend flag is set, times
    FACTOR_PICO when the three peak flags are all set, times the random
    variation. *)
Theorem debugLectura_explica
        (tz : Z) (c : Config) (toISOString : Fecha -> string)
        (p : Punto) (f : Fecha) (az : Azar) :
  let d := Depuracion.debugLectura tz c toISOString p f in
  (exists nombre,
      Depuracion.dia_semana d = Some nombre
      /\ (Depuracion.es_fin_semana d = true
          <-> nombre = "Dom"%string \/ nombre = "Sab"%string))
  /\ 0 <= Depuracion.hora d < 24
  /\ (Depuracion.punto_activo d = true ->
      (fuente az (consumidos az) <? PROBABILIDAD_ERROR c)%float = false ->
      consumo_kwh (fst (generarLectura tz c p f az))
      = Num.toFixed2
          (PrimFloat.mul
             (por_si (Depuracion.es_fin_semana d) (FACTOR_FIN_SEMANA c)
                (por_si (Depuracion.simular_picos_activo d
                         && Depuracion.deberia_aplicar_pico d
                         && Depuracion.es_horario_pico d)
                        (FACTOR_PICO c) (Depuracion.consumo_base d)))
             (factor_variacion c (fuente az (S (consumidos az)))))).
Proof.
  intros d. subst d. cbn [Depuracion.debugLectura Depuracion.dia_semana
    Depuracion.es_fin_semana Depuracion.hora Depuracion.punto_activo
    Depuracion.simular_picos_activo Depuracion.deberia_aplicar_pico
    Depuracion.es_horario_pico Depuracion.consumo_base].
  split; [| split].
  - pose proof (getDay_rango tz f) as Hd.
    assert (Hc : Date.getDay tz f = 0 \/ Date.getDay tz f = 1 \/ Date.getDay tz f = 2
                 \/ Date.getDay tz f = 3 \/ Date.getDay tz f = 4
                 \/ Date.getDay tz f = 5 \/ Date.getDay tz f = 6) by lia.
    destruct Hc as [E|[E|[E|[E|[E|[E|E]]]]]]; rewrite E; cbn;
      eexists; (split; [reflexivity |]);
      split; intros H; try discriminate; try reflexivity;
      try (left; reflexivity); try (right; reflexivity);
      destruct H as [H|H]; discriminate.
  - apply getHours_rango.
  - intros Ha Hu. rewrite generarLectura_casos, Ha, Hu. reflexivity.
Qed.

(* ------------------------------------------------------------------ *)
(** ** Switching points on and off                                     *)
(* ------------------------------------------------------------------ *)

Lemma buscar_asignar (puntoId : string) (ps : list Punto) (i : nat) (p : Punto) (b : bool) :
  Api.buscar puntoId ps = Some (i, p) ->
  nth_error ps i = Some p
  /\ id p = puntoId
  /\ (forall j q, (j < i)%nat -> nth_error ps j = Some q -> id q <> puntoId)
  /\ Api.buscar puntoId (Api.asignar i b ps) = Some (i, Api.poner_activo b p)
  /\ (forall j, j <> i -> nth_error (Api.asignar i b ps) j = nth_error ps j)
  /\ nth_error (Api.asignar i b ps) i = Some (Api.poner_activo b p)
  /\ List.length (Api.asignar i b ps) = List.length ps.
Proof.
  revert i. induction ps as [|q r IH]; intros i H; [discriminate |].
  cbn [Api.buscar] in H.
  destruct (String.eqb (id q) puntoId) eqn:E.
  - injection H as <- <-. apply String.eqb_eq in E.
    cbn [Api.asignar nth_error Api.buscar Api.poner_activo id].
    rewrite E, String.eqb_refl.
    repeat split; auto; try lia.
    intros [|j] Hj; [congruence | reflexivity].
  - destruct (Api.buscar puntoId r) as [[i' p']|] eqn:B; [| discriminate].
    injection H as <- <-.
    destruct (IH i' eq_refl) as (H1 & H2 & H3 & H4 & H5 & H6 & H7).
    cbn [Api.asignar nth_error Api.buscar List.length].
    rewrite E, H4.
    repeat split; auto.
    + intros [|j] q' Hj Hq.
      * injection Hq as <-. apply String.eqb_neq. exact E.
      * apply (H3 j q'); [lia | exact Hq].
    + intros [|j] Hj; [reflexivity |]. cbn. apply H5. congruence.
Qed.

Lemma poner_activo_negb (p : Punto) :
  Api.poner_activo (negb (negb (activo p))) (Api.poner_activo (negb (activo p)) p) = p.
Proof. destruct p as [d i n a cb pb]. cbn. now rewrite negb_involutive. Qed.

Lemma asignar_asignar (i : nat) (ps : list Punto) (p : Punto) :
  nth_error ps i = Some p ->
  Api.asignar i (negb (negb (activo p))) (Api.asignar i (negb (activo p)) ps) = ps.
Proof.
  revert i. induction ps as [|q r IH]; intros [|i] H; try discriminate.
  - injection H as ->. cbn. now rewrite poner_activo_negb.
  - cbn. f_equal. now apply IH.
Qed.

(** The request served alone, in one piece. *)
Lemma api_toggle_casos (sesion : bool) (puntoId : string) (ok : bool)
      (ps : list Punto) :
  Api.api_toggle sesion puntoId ok ps
  = if negb sesion then
      (ps, [], {| Servidor.codigo := 401; Servidor.success := false |})
    else
      match Api.buscar puntoId ps with
      | None => (ps, [], {| Servidor.codigo := 404; Servidor.success := false |})
      | Some (i, punto) =>
          if ok then
            (Api.asignar i (negb (activo punto)) ps,
             [Api.PuntoActualizado puntoId (negb (activo punto));
              Api.Puntos (Api.asignar i (negb (activo punto)) ps);
              Api.LogPunto puntoId (negb (activo punto))],
             {| Servidor.codigo := 200; Servidor.success := true |})
          else
            (ps, [Api.LogErrorActualizar puntoId],
             {| Servidor.codigo := 500; Servidor.success := false |})
      end.
Proof.
  unfold Api.api_toggle, Api.toggle_pedir, Api.toggle_resolver.
  destruct sesion; cbn [negb]; [| reflexivity].
  destruct (Api.buscar puntoId ps) as [[i p]|]; [| reflexivity].
  destruct ok; reflexivity.
Qed.

(** X8.  The toggle of a point acts on the first point that carries the
    id and on nothing else: its flag is inverted, every other point and
    the length of the array stay as they are; an unknown id answers 404
    and a rejected write 500, both without any change. Two toggles in a
    row give the array back. *)
Theorem api_toggle_efecto (puntoId : string) (ps : list Punto) :
  (forall ok, Api.buscar puntoId ps = None ->
      Api.api_toggle true puntoId ok ps
      = (ps, [], {| Servidor.codigo := 404; Servidor.success := false |}))
  /\ (forall ok, fst (fst (Api.api_toggle false puntoId ok ps)) = ps
                 /\ Servidor.codigo (snd (Api.api_toggle false puntoId ok ps)) = 401)
  /\ fst (fst (Api.api_toggle true puntoId false ps)) = ps
  /\ (forall i p, Api.buscar puntoId ps = Some (i, p) ->
      let ps' := fst (fst (Api.api_toggle true puntoId true ps)) in
      Servidor.codigo (snd (Api.api_toggle true puntoId true ps)) = 200
      /\ nth_error ps i = Some p
      /\ id p = puntoId
      /\ (forall j q, (j < i)%nat -> nth_error ps j = Some q -> id q <> puntoId)
      /\ nth_error ps' i = Some (Api.poner_activo (negb (activo p)) p)
      /\ (forall j, j <> i -> nth_error ps' j = nth_error ps j)
      /\ List.length ps' = List.length ps
      /\ fst (fst (Api.api_toggle true puntoId true ps')) = ps
      /\ Servidor.codigo (snd (Api.api_toggle true puntoId false ps)) = 500).
Proof.
  split; [| split; [| split]].
  - intros ok H. rewrite !api_toggle_casos. cbn [negb]. now rewrite H.
  - intros ok. rewrite api_toggle_casos. split; reflexivity.
  - rewrite !api_toggle_casos. cbn [negb].
    destruct (Api.buscar puntoId ps) as [[i p]|]; reflexivity.
  - intros i p H. cbn zeta. rewrite !api_toggle_casos. cbn [negb]. rewrite H. cbn [fst snd].
    destruct (buscar_asignar puntoId ps i p (negb (activo p)) H)
      as (H1 & H2 & H3 & H4 & H5 & H6 & H7).
    rewrite H4. cbn [fst snd Servidor.codigo Api.poner_activo activo].
    repeat split; auto.
    now apply asignar_asignar.
Qed.

Lemma actualizarTodos_prefijo (a : bool) (resuelve : nat -> bool) (ps : list Punto) :
  forall k,
  let n := Envio.resueltas resuelve k (List.length ps) in
  Api.actualizarTodos a resuelve k ps
  = (map (Api.poner_activo a) (firstn n ps) ++ skipn n ps,
     Nat.eqb n (List.length ps)).
Proof.
  induction ps as [|p r IH]; intros k; cbn zeta; [reflexivity |].
  cbn [Api.actualizarTodos List.length Envio.resueltas].
  destruct (resuelve k); [| reflexivity].
  rewrite IH. cbn. reflexivity.
Qed.

(** X9.  Toggle-all writes the points one after the other and stops at
    the first write that is rejected: the points before it have the new
    state, the others keep theirs, and the answer is 500; when every
    write resolves all the points have the new state. Nothing is rolled
    back. *)
Theorem api_toggle_all_prefijo (a : bool) (resuelve : nat -> bool) (ps : list Punto) :
  let n := Envio.resueltas resuelve 0 (List.length ps) in
  let r := Api.api_toggle_all true a resuelve ps in
  fst (fst r) = map (Api.poner_activo a) (firstn n ps) ++ skipn n ps
  /\ (Servidor.codigo (snd r) = 200 <-> n = List.length ps)
  /\ (Servidor.codigo (snd r) = 500 <-> (n < List.length ps)%nat)
  /\ (n = List.length ps ->
      fst (fst r) = map (Api.poner_activo a) ps
      /\ forall p, In p (fst (fst r)) -> activo p = a).
Proof.
  cbn zeta. unfold Api.api_toggle_all. cbn [negb].
  rewrite actualizarTodos_prefijo.
  pose proof (resueltas_cota resuelve (List.length ps) 0) as Hc.
  destruct (Nat.eqb_spec (Envio.resueltas resuelve 0 (List.length ps)) (List.length ps))
    as [E|E]; cbn [fst snd Servidor.codigo].
  - split; [reflexivity |]. split; [tauto |]. split; [split; [discriminate | lia] |].
    intros _. rewrite E, firstn_all, skipn_all, app_nil_r.
    split; [reflexivity |].
    intros p Hp. apply in_map_iff in Hp. destruct Hp as (q & <- & _). reflexivity.
  - split; [reflexivity |]. split; [split; [discriminate | tauto] |].
    split; [split; [lia | reflexivity] | tauto].
Qed.

(** X10.  A point switched off through the API gives readings of state
    "inactivo" with a consumption of zero, and takes no random draw. *)
Theorem toggle_y_lectura
        (tz : Z) (c : Config) (puntoId : string) (ps : list Punto)
        (i : nat) (p : Punto) (f : Fecha) (az : Azar) :
  Api.buscar puntoId ps = Some (i, p) ->
  activo p = true ->
  exists q,
    nth_error (fst (fst (Api.api_toggle true puntoId true ps))) i = Some q
    /\ generarLectura tz c q f az
       = ({| id_punto := puntoId; estado := "inactivo";
             consumo_kwh := 0%float; fecha := f |}, az).
Proof.
  intros H Ha.
  destruct (buscar_asignar puntoId ps i p (negb (activo p)) H)
    as (_ & Hid & _ & _ & _ & Hn & _).
  rewrite !api_toggle_casos. cbn [negb]. rewrite H. cbn [fst].
  eexists. split; [exact Hn |].
  rewrite generarLectura_casos. cbn [Api.poner_activo activo id].
  rewrite Ha, Hid. reflexivity.
Qed.

Lemma toggle_y_lectura_ejemplo :
  exists q,
    nth_error (fst (fst (Api.api_toggle true "N1" true [punto_apagado; punto_N1]))) 1
    = Some q
    /\ generarLectura tz_sv (CONFIG_inicial tz_sv) q (miercoles_9h tz_sv) azar_fijo
       = ({| id_punto := "N1"; estado := "inactivo";
             consumo_kwh := 0%float; fecha := miercoles_9h tz_sv |}, azar_fijo).
Proof.
  exact (toggle_y_lectura tz_sv (CONFIG_inicial tz_sv) "N1" [punto_apagado; punto_N1]
           1 punto_N1 (miercoles_9h tz_sv) azar_fijo eq_refl eq_refl).
Defined.

Lemma asignar_idem (i : nat) (b : bool) (ps : list Punto) :
  Api.asignar i b (Api.asignar i b ps) = Api.asignar i b ps.
Proof.
  revert i. induction ps as [|q r IH]; intros [|i]; cbn; try reflexivity.
  now rewrite IH.
Qed.

(** X23.  Two toggles of the same point whose writes overlap invert its
    flag once, not twice: each request computes the new state before it
    awaits, so both write the same state, both answer 200, and the point
    is left in the state a single toggle gives, in either order of
    completion. *)
Theorem toggles_solapados (puntoId : string) (ps : list Punto) (c : Api.Cambio) :
  Api.toggle_pedir true puntoId ps = inr c ->
  let uno := Api.toggle_resolver true c ps in
  let dos := Api.toggle_resolver true c (fst (fst uno)) in
  Servidor.codigo (snd uno) = 200
  /\ Servidor.codigo (snd dos) = 200
  /\ fst (fst dos) = fst (fst uno)
  /\ fst (fst uno) = fst (fst (Api.api_toggle true puntoId true ps))
  /\ exists p,
       nth_error ps (Api.posicion c) = Some p
       /\ nth_error (fst (fst dos)) (Api.posicion c)
          = Some (Api.poner_activo (negb (activo p)) p).
Proof.
  intros H. cbn zeta. unfold Api.api_toggle. rewrite H.
  unfold Api.toggle_pedir in H. cbn [negb] in H.
  destruct (Api.buscar puntoId ps) as [[i p]|] eqn:B; [| discriminate].
  injection H as <-.
  cbn [Api.toggle_resolver fst snd Servidor.codigo Api.posicion Api.nuevoEstado].
  rewrite asignar_idem.
  destruct (buscar_asignar puntoId ps i p (negb (activo p)) B)
    as (H1 & _ & _ & _ & _ & H6 & _).
  repeat split. exists p. split; [exact H1 | exact H6].
Qed.

Lemma toggles_solapados_ejemplo :
  fst (fst (Api.toggle_resolver true
              {| Api.posicion := 1; Api.idPedido := "N1"; Api.nuevoEstado := false |}
              (fst (fst (Api.toggle_resolver true
                           {| Api.posicion := 1; Api.idPedido := "N1";
                              Api.nuevoEstado := false |}
                           [punto_apagado; punto_N1])))))
  = fst (fst (Api.api_toggle true "N1" true [punto_apagado; punto_N1])).
Proof.
  destruct (toggles_solapados "N1" [punto_apagado; punto_N1]
              {| Api.posicion := 1; Api.idPedido := "N1"; Api.nuevoEstado := false |}
              eq_refl) as (_ & _ & H1 & H2 & _).
  cbn zeta in H1, H2. rewrite H1. exact H2.
Defined.

(* ------------------------------------------------------------------ *)
(** ** The ids of the points                                           *)
(* ------------------------------------------------------------------ *)

(** X24.  [obtenerIdsPuntos] gives the stored id of every document, in
    the order of the documents, without any default: a document that has
    no id field gives undefined there, and the name obtenerPuntos makes
    up for it when it has no name either is "Punto undefined". *)
Theorem obtenerIdsPuntos_sin_defecto
        (toS : float -> string) (docs : list Doc.Snapshot) :
  obtenerIdsPuntos toS docs = map (fun d => Doc.id (Doc.data d)) docs
  /\ List.length (obtenerIdsPuntos toS docs) = List.length docs
  /\ forall i d,
       nth_error docs i = Some d ->
       Doc.id (Doc.data d) = JS.undefined ->
       nth_error (obtenerIdsPuntos toS docs) i = Some JS.undefined
       /\ (JS.ToBoolean (Doc.nombre (Doc.data d)) = false ->
           option_map ObtenerPuntos.nombre
             (nth_error (ObtenerPuntos.obtenerPuntos toS docs) i)
           = Some (JS.cadena "Punto undefined")).
Proof.
  assert (E : obtenerIdsPuntos toS docs = map (fun d => Doc.id (Doc.data d)) docs).
  { unfold obtenerIdsPuntos, ObtenerPuntos.obtenerPuntos.
    rewrite map_map. reflexivity. }
  split; [exact E |]. split; [rewrite E; apply length_map |].
  intros i d Hd Hu. split.
  - rewrite E, nth_error_map, Hd. cbn. now rewrite Hu.
  - intros Hn. unfold ObtenerPuntos.obtenerPuntos.
    rewrite nth_error_map, Hd. cbn. unfold JS.o. rewrite Hn, Hu. reflexivity.
Qed.

(* ------------------------------------------------------------------ *)
(** ** The health check of Firebase                                    *)
(* ------------------------------------------------------------------ *)

Lemma estados_app (a b : list Salud.Aviso) :
  Salud.estados (a ++ b) = Salud.estados a ++ Salud.estados b.
Proof.
  induction a as [|x a IH]; [reflexivity |].
  destruct x; cbn; rewrite ?IH; reflexivity.
Qed.

Lemma last_indep {A} (x : A) (l : list A) (d e : A) :
  last (x :: l) d = last (x :: l) e.
Proof.
  revert x. induction l as [|y l IH]; intros x; [reflexivity |].
  change (last (y :: l) d = last (y :: l) e). apply IH.
Qed.

Lemma last_cons {A} (x : A) (l : list A) (d : A) :
  last (x :: l) d = last l x.
Proof.
  destruct l as [|y l]; [reflexivity |].
  change (last (y :: l) d = last (y :: l) x). apply last_indep.
Qed.

Lemma checkFirebaseHealth_casos (usuario ok : bool) (ahora : Fecha) (s : Salud.Estado) :
  let r := Salud.checkFirebaseHealth usuario ok ahora s in
  (Salud.estados (snd r) = []
   /\ Salud.firebaseHealthy (fst r) = Salud.firebaseHealthy s
   \/ Salud.estados (snd r) = [negb (Salud.firebaseHealthy s)]
      /\ Salud.firebaseHealthy (fst r) = negb (Salud.firebaseHealthy s))
  /\ Salud.lastFirebaseCheck (fst r)
     = (if usuario && ok then ahora else Salud.lastFirebaseCheck s)
  /\ (usuario = true -> Salud.firebaseHealthy (fst r) = ok)
  /\ (usuario = false -> r = (s, [])).
Proof.
  unfold Salud.checkFirebaseHealth.
  destruct s as [h t], usuario, ok, h; cbn; repeat split; auto; discriminate.
Qed.

(** X11.  [checkFirebaseHealth] reports changes only: over any sequence
    of checks the emitted firebase-status values alternate, starting
    with the opposite of the state the sequence began in, and the last
    one emitted is the state the flag is left in; lastFirebaseCheck is
    the time of the last check that resolved with a user signed in; and
    without a user a check changes and emits nothing. *)
Theorem firebase_status_alterna (cs : list (bool * bool * Fecha)) :
  forall s : Salud.Estado,
  let r := Salud.revisar cs s in
  Salud.alterna (Salud.firebaseHealthy s) (Salud.estados (snd r))
  /\ Salud.firebaseHealthy (fst r)
     = last (Salud.estados (snd r)) (Salud.firebaseHealthy s)
  /\ Salud.lastFirebaseCheck (fst r)
     = last (map snd (filter (fun c => fst (fst c) && snd (fst c)) cs))
            (Salud.lastFirebaseCheck s)
  /\ (forallb (fun c => negb (fst (fst c))) cs = true -> r = (s, [])).
Proof.
  induction cs as [|[[usuario ok] ahora] cs IH]; intros s; cbn zeta.
  - cbn. auto.
  - cbn [Salud.revisar].
    destruct (checkFirebaseHealth_casos usuario ok ahora s) as (Hc & Ht & _ & Hn).
    destruct (Salud.checkFirebaseHealth usuario ok ahora s) as [s1 av1].
    cbn [fst snd] in Hc, Ht, Hn.
    specialize (IH s1). cbn zeta in IH.
    destruct (Salud.revisar cs s1) as [s2 av2].
    cbn [fst snd] in IH |- *. destruct IH as (Ha & Hl & Hk & Hz).
    rewrite estados_app.
    split; [| split; [| split]].
    + destruct Hc as [[E1 E2]|[E1 E2]]; rewrite E1; cbn.
      * now rewrite <- E2.
      * split; [reflexivity |]. now rewrite <- E2.
    + destruct Hc as [[E1 E2]|[E1 E2]]; rewrite E1; cbn [app].
      * now rewrite Hl, E2.
      * rewrite Hl, E2. symmetry. apply last_cons.
    + cbn [filter fst snd]. rewrite Hk, Ht.
      destruct (usuario && ok); [| reflexivity].
      cbn [map snd]. symmetry. apply last_cons.
    + cbn [forallb fst]. intros H. apply andb_true_iff in H. destruct H as [H1 H2].
      apply negb_true_iff in H1. specialize (Hn H1). injection Hn as -> ->.
      specialize (Hz H2). injection Hz as -> ->. reflexivity.
Qed.

(* ------------------------------------------------------------------ *)
(** ** What the server counts and keeps                                *)
(* ------------------------------------------------------------------ *)

Section Medidas.

Import Servidor.

Lemma estable_refl (w : Proceso) : estable w w.
Proof.
  repeat split; auto. exists []. now rewrite app_nil_r.
Qed.

Lemma estable_trans (a b c : Proceso) : estable a b -> estable b c -> estable a c.
Proof.
  intros (H1 & H2 & H3 & m1 & H4) (H5 & H6 & H7 & m2 & H8).
  split; [congruence |]. split; [auto |]. split; [congruence |].
  exists (m1 ++ m2). rewrite H8, H4. now rewrite app_assoc.
Qed.

(** A change that touches neither the counter, nor the collection, nor
    the readings kept. *)
Lemma estable_marco (w w' : Proceso) (mas : list Emision) :
  totalEnviadas (sim w') = totalEnviadas (sim w) ->
  almacen w' = almacen w ->
  lecturas (sim w') = lecturas (sim w) ->
  sesion w' = sesion w ->
  emitido w' = emitido w ++ mas ->
  estable w w'.
Proof.
  intros H1 H2 H3 H4 H5. unfold estable, saldo, acotadas. rewrite H1, H2, H3.
  repeat split; auto. now exists mas.
Qed.

(** Closes a goal of [estable_marco]: the fields by computation, the
    emissions by the lists [emitir] appended. *)
Ltac marco_trivial :=
  eapply estable_marco;
  [ reflexivity | reflexivity | reflexivity | reflexivity
  | cbn; rewrite <- ?app_assoc; cbn;
    first [ reflexivity | symmetry; apply app_nil_r ] ].

Lemma detenerSimulador_estable (w : Proceso) : estable w (detenerSimulador w).
Proof.
  unfold detenerSimulador. destruct (intervalo (sim w)); marco_trivial.
Qed.

Lemma finCiclo_campos ahora lote k (w : Proceso) :
  lecturas (sim (finCiclo ahora lote k w)) = firstn 100 (lote ++ lecturas (sim w))
  /\ totalEnviadas (sim (finCiclo ahora lote k w)) = totalEnviadas (sim w)
  /\ almacen (finCiclo ahora lote k w) = almacen w.
Proof.
  unfold finCiclo.
  destruct k as [h|]; [destruct (informa (avanzar h)) |]; repeat split.
Qed.

Lemma finCiclo_estable ahora lote k (w : Proceso) : estable w (finCiclo ahora lote k w).
Proof.
  destruct (finCiclo_campos ahora lote k w) as (H1 & H2 & H3).
  unfold estable, saldo, acotadas. rewrite H1, H2, H3.
  split; [reflexivity |]. split; [intros _; rewrite length_firstn; lia |].
  unfold finCiclo.
  destruct k as [h|]; [destruct (informa (avanzar h)) |]; cbn;
    (split; [reflexivity |]); rewrite <- ?app_assoc; eexists; reflexivity.
Qed.

Lemma continuarCiclo_estable tz c ahora f resto lote k (w : Proceso) :
  estable w (continuarCiclo tz c ahora f resto lote k w).
Proof.
  destruct resto as [|p r]; cbn [continuarCiclo].
  - apply finCiclo_estable.
  - destruct (generarLectura tz c p f (azar w)). marco_trivial.
Qed.

Lemma ejecutarCiclo_estable tz c ahora f k (w : Proceso) :
  estable w (ejecutarCiclo tz c ahora f k w).
Proof.
  unfold ejecutarCiclo.
  eapply estable_trans; [| apply continuarCiclo_estable].
  marco_trivial.
Qed.

Lemma procesarLote_estable tz c ahora h (w : Proceso) :
  estable w (procesarLote tz c ahora h w).
Proof.
  unfold procesarLote.
  destruct (negb (corriendo (sim w)) || (fechaFin h <? fechaActual h)).
  - eapply estable_trans; [| apply detenerSimulador_estable].
    marco_trivial.
  - eapply estable_trans; [| apply ejecutarCiclo_estable].
    destruct (informa (otro_lote h) && _); marco_trivial.
Qed.

Lemma iniciarModo_estable tz c mejorado ahora (w : Proceso) :
  estable w (iniciarModo tz c mejorado ahora w).
Proof.
  unfold iniciarModo, iniciarModoHistorico, iniciarModoTiempoReal.
  cbn [emitir sim config].
  destruct (FECHA_INICIO (config (sim w))) as [f0|].
  - eapply estable_trans; [| apply procesarLote_estable].
    destruct mejorado; marco_trivial.
  - eapply estable_trans; [| eapply estable_trans; [apply ejecutarCiclo_estable |]];
      [| marco_trivial].
    marco_trivial.
Qed.

Lemma reanudarCiclo_estable tz c ahora cy ok (w : Proceso) :
  estable w (reanudarCiclo tz c ahora cy ok w).
Proof.
  unfold reanudarCiclo. destruct ok.
  - eapply estable_trans; [| apply continuarCiclo_estable].
    unfold estable, saldo, acotadas. cbn. rewrite length_app. cbn.
    split; [lia |]. repeat split; auto. exists []. now rewrite app_nil_r.
  - eapply estable_trans; [| apply continuarCiclo_estable].
    marco_trivial.
Qed.

Lemma quitar_estable i (w : Proceso) : estable w (quitar i w).
Proof. marco_trivial. Qed.

Lemma paso_estable tz c ahora (e : Evento) (w : Proceso) :
  estable w (fst (paso tz c ahora e w)).
Proof.
  destruct e as [| | |i|i|i ok|i r|i ok]; cbn [paso].
  - unfold api_iniciar.
    destruct (negb (sesion w)); [apply estable_refl |].
    destruct (corriendo (sim w)); [apply estable_refl |].
    destruct (puntos (sim w)); cbn [fst].
    + marco_trivial.
    + unfold arrancar. cbn [fst].
      eapply estable_trans; [| apply iniciarModo_estable].
      marco_trivial.
  - unfold api_iniciar1.
    destruct (corriendo (sim w)); [apply estable_refl |].
    destruct (negb (autenticado (sim w))); marco_trivial.
  - apply detenerSimulador_estable.
  - destruct (nth_error (tareas w) i) as [[h|n|cy| | |]|]; try apply estable_refl.
    cbn [fst]. eapply estable_trans; [apply (quitar_estable i) |].
    apply procesarLote_estable.
  - destruct (nth_error (tareas w) i) as [[h|n|cy| | |]|]; try apply estable_refl.
    apply ejecutarCiclo_estable.
  - destruct (nth_error (tareas w) i) as [[h|n|cy| | |]|]; try apply estable_refl.
    cbn [fst]. eapply estable_trans; [apply (quitar_estable i) |].
    apply reanudarCiclo_estable.
  - destruct (nth_error (tareas w) i) as [[h|n|cy| | |]|]; try apply estable_refl;
      destruct r as [ps|]; try apply estable_refl; cbn [fst].
    + unfold arrancar. cbn [fst].
      eapply estable_trans; [| apply iniciarModo_estable].
      marco_trivial.
    + marco_trivial.
    + unfold arrancar1. cbn [fst].
      eapply estable_trans;
        [| eapply estable_trans; [apply (iniciarModo_estable tz c false ahora) |]];
        [| marco_trivial].
      marco_trivial.
    + marco_trivial.
  - destruct (nth_error (tareas w) i) as [[h|n|cy| | |]|]; try apply estable_refl.
    destruct ok; marco_trivial.
Qed.

Lemma correr_estable tz c (es : list (Fecha * Evento)) :
  forall w : Proceso, estable w (correr tz c es w).
Proof.
  induction es as [|[ahora e] es IH]; intros w; [apply estable_refl |].
  cbn [correr]. eapply estable_trans; [apply paso_estable | apply IH].
Qed.

End Medidas.

(** X12.  Whatever happens on the server, totalEnviadas grows by exactly
    the number of readings that were stored in the collection: a write
    that is rejected is not counted, one that resolves is counted once. *)
Theorem totalEnviadas_cuenta_almacen
        (tz : Z) (c : Config) (es : list (Fecha * Servidor.Evento))
        (w : Servidor.Proceso) :
  let w' := Servidor.correr tz c es w in
  Servidor.totalEnviadas (Servidor.sim w') - Servidor.totalEnviadas (Servidor.sim w)
  = Z.of_nat (List.length (Servidor.almacen w'))
    - Z.of_nat (List.length (Servidor.almacen w)).
Proof.
  intros w'. destruct (correr_estable tz c es w) as [H _].
  unfold saldo in H. fold w' in H. lia.
Qed.

(** X13.  The server keeps at most 100 readings for the page, the newest
    first, and GET /api/lecturas returns the last 50 of that list: never
    more than 50 readings, and, once 50 older readings are kept, none of
    the readings of the cycle that has just ended. *)
Theorem api_lecturas_antiguas
        (tz : Z) (c : Config) (ahora : Fecha)
        (lote : list Servidor.LecturaVista) (k : option Servidor.Historico)
        (w : Servidor.Proceso) :
  (forall es, acotadas w -> acotadas (Servidor.correr tz c es w))
  /\ (List.length (Api.api_lecturas w) <= 50)%nat
  /\ let w' := Servidor.finCiclo ahora lote k w in
     Servidor.lecturas (Servidor.sim w')
     = firstn 100 (lote ++ Servidor.lecturas (Servidor.sim w))
     /\ ((List.length lote + 50 <= List.length (Servidor.lecturas (Servidor.sim w')))%nat ->
         Api.api_lecturas w'
         = skipn (List.length (Servidor.lecturas (Servidor.sim w')) - 50
                  - List.length lote)
                 (firstn (100 - List.length lote)
                         (Servidor.lecturas (Servidor.sim w)))).
Proof.
  split; [| split].
  - intros es. apply (correr_estable tz c es w).
  - unfold Api.api_lecturas. rewrite length_skipn. lia.
  - cbn zeta.
    destruct (finCiclo_campos ahora lote k w) as (E & _ & _).
    split; [exact E |].
    unfold Api.api_lecturas. rewrite E. intros H.
    rewrite length_firstn in H.
    assert (Hl : (List.length lote <= 100)%nat) by lia.
    rewrite firstn_app.
    rewrite (firstn_all2 (n := 100) lote) by lia.
    rewrite skipn_app.
    rewrite skipn_all2 by (rewrite length_app, length_firstn in *; lia).
    reflexivity.
Qed.

(* ------------------------------------------------------------------ *)
(** ** A stop during a cycle                                           *)
(* ------------------------------------------------------------------ *)

(** X14.  [detenerSimulador] does not interrupt the cycle in flight,
    which never looks at the flag: after a stop made while a send is
    pending, the send settles, the remaining points of the cycle are
    still generated and sent, and totalEnviadas grows by every write
    that resolves, all with the flag down. A historical run then leaves
    the timeout of its next step behind. *)
Theorem detener_no_interrumpe
        (tz : Z) (c : Config) (ahora : Fecha) (w : Servidor.Proceso)
        (cy : Servidor.Ciclo) (ok : bool) (oks : list bool) :
  Servidor.tareas (Servidor.detenerSimulador w) = [Servidor.Envio cy] ->
  List.length oks = List.length (Servidor.c_resto cy) ->
  let w' := Servidor.dejar_correr tz c (ok :: oks) ahora
              (fst (Servidor.paso tz c ahora Servidor.PostDetener w)) in
  Servidor.corriendo (Servidor.sim w') = false
  /\ Servidor.totalEnviadas (Servidor.sim w')
     = Servidor.totalEnviadas (Servidor.sim w)
       + Z.of_nat (List.length (filter (fun b => b) (ok :: oks)))
  /\ Servidor.tareas w'
     = match Servidor.c_sigue cy with
       | Some h => [Servidor.Temporizador (Servidor.avanzar h)]
       | None => []
       end.
Proof.
  intros Ht Hl w'. subst w'.
  cbn [Servidor.paso fst Servidor.dejar_correr].
  unfold Servidor.completar_primera. rewrite Ht.
  cbn [Servidor.paso]. rewrite Ht. cbn [nth_error fst].
  assert (Hq : Servidor.tareas (Servidor.quitar 0 (Servidor.detenerSimulador w)) = []).
  { cbn [Servidor.quitar Servidor.con_tareas Servidor.tareas]. rewrite Ht.
    reflexivity. }
  assert (Hc : Servidor.corriendo (Servidor.sim (Servidor.detenerSimulador w)) = false).
  { unfold Servidor.detenerSimulador.
    destruct (Servidor.intervalo (Servidor.sim w)); reflexivity. }
  assert (Hn : Servidor.totalEnviadas (Servidor.sim (Servidor.detenerSimulador w))
               = Servidor.totalEnviadas (Servidor.sim w)).
  { unfold Servidor.detenerSimulador.
    destruct (Servidor.intervalo (Servidor.sim w)); reflexivity. }
  unfold Servidor.reanudarCiclo.
  destruct ok.
  - match goal with
    | |- context [Servidor.continuarCiclo tz c ahora ?f ?r ?lo ?k ?w1] =>
        destruct (ciclo_completo tz c ahora f r oks lo k w1)
          as (w' & E & Ht' & (Hc' & _) & Hn');
        [exact Hq | exact Hl |]
    end.
    rewrite E.
    cbn [Servidor.sim Servidor.corriendo Servidor.totalEnviadas
         Servidor.contar_enviada Servidor.quitar Servidor.con_tareas
         Servidor.emitir] in Hc', Hn'.
    rewrite Hc', Hn', Hc, Hn, Ht'.
    cbn [filter List.length]. repeat split. lia.
  - match goal with
    | |- context [Servidor.continuarCiclo tz c ahora ?f ?r ?lo ?k ?w1] =>
        destruct (ciclo_completo tz c ahora f r oks lo k w1)
          as (w' & E & Ht' & (Hc' & _) & Hn');
        [exact Hq | exact Hl |]
    end.
    rewrite E.
    cbn [Servidor.sim Servidor.corriendo Servidor.totalEnviadas
         Servidor.contar_enviada Servidor.quitar Servidor.con_tareas
         Servidor.emitir] in Hc', Hn'.
    rewrite Hc', Hn', Hc, Hn, Ht'.
    cbn [filter]. repeat split.
Qed.

(** Real-time mode, two points: the stop arrives while the first send
    of the first cycle is pending; that send and the next one resolve. *)
Lemma detener_no_interrumpe_ejemplo :
  Servidor.corriendo
    (Servidor.sim
       (Servidor.dejar_correr tz_sv (CONFIG_inicial tz_sv) [true; true] reloj
          (fst (paso_ejemplo reloj Servidor.PostDetener
                  (fst (paso_ejemplo reloj Servidor.PostIniciar
                          servidor_tiempo_real)))))) = false
  /\ Servidor.totalEnviadas
       (Servidor.sim
          (Servidor.dejar_correr tz_sv (CONFIG_inicial tz_sv) [true; true] reloj
             (fst (paso_ejemplo reloj Servidor.PostDetener
                     (fst (paso_ejemplo reloj Servidor.PostIniciar
                             servidor_tiempo_real)))))) = 2.
Proof.
  destruct (detener_no_interrumpe tz_sv (CONFIG_inicial tz_sv) reloj
              (fst (paso_ejemplo reloj Servidor.PostIniciar servidor_tiempo_real))
              {| Servidor.c_fecha := reloj; Servidor.c_punto := punto_N1;
                 Servidor.c_lectura :=
                   fst (generarLectura tz_sv (CONFIG_inicial tz_sv) punto_N1 reloj
                          azar_fijo);
                 Servidor.c_resto := [punto_apagado]; Servidor.c_lote := [];
                 Servidor.c_sigue := None |}
              true [true] eq_refl eq_refl) as (H1 & H2 & _).
  split; [exact H1 | exact H2].
Defined.

(* ------------------------------------------------------------------ *)
(** ** The estimate of the historical run                              *)
(* ------------------------------------------------------------------ *)




(* ------------------------------------------------------------------ *)
(** ** The configuration of the server and the run under way           *)
(* ------------------------------------------------------------------ *)

Section ConfigYCorrida.

Import Servidor.

Variable tz : Z.
Variable gen : Config.
Variable cfg : Config.

Lemma detenerSimulador_config (w : Proceso) :
  detenerSimulador (con_config cfg w) = con_config cfg (detenerSimulador w).
Proof.
  unfold detenerSimulador, con_config. cbn [sim con_sim Api.poner_config intervalo].
  destruct (intervalo (sim w)); reflexivity.
Qed.

Lemma continuarCiclo_config ahora f resto lote k (w : Proceso) :
  continuarCiclo tz gen ahora f resto lote k (con_config cfg w)
  = con_config cfg (continuarCiclo tz gen ahora f resto lote k w).
Proof.
  destruct resto as [|p r]; cbn [continuarCiclo].
  - unfold finCiclo, con_config.
    destruct k as [h|]; [destruct (informa (avanzar h)) |]; reflexivity.
  - unfold con_config. cbn [azar con_sim].
    destruct (generarLectura tz gen p f (azar w)); reflexivity.
Qed.

Lemma ejecutarCiclo_config ahora f k (w : Proceso) :
  ejecutarCiclo tz gen ahora f k (con_config cfg w)
  = con_config cfg (ejecutarCiclo tz gen ahora f k w).
Proof.
  unfold ejecutarCiclo.
  rewrite <- continuarCiclo_config. reflexivity.
Qed.

Lemma procesarLote_config ahora h (w : Proceso) :
  procesarLote tz gen ahora h (con_config cfg w)
  = con_config cfg (procesarLote tz gen ahora h w).
Proof.
  unfold procesarLote.
  change (corriendo (sim (con_config cfg w))) with (corriendo (sim w)).
  destruct (negb (corriendo (sim w)) || (fechaFin h <? fechaActual h)).
  - rewrite <- detenerSimulador_config. reflexivity.
  - rewrite <- ejecutarCiclo_config.
    destruct (informa (otro_lote h) && _); reflexivity.
Qed.

Lemma reanudarCiclo_config ahora cy ok (w : Proceso) :
  reanudarCiclo tz gen ahora cy ok (con_config cfg w)
  = con_config cfg (reanudarCiclo tz gen ahora cy ok w).
Proof.
  unfold reanudarCiclo. destruct ok; rewrite <- continuarCiclo_config; reflexivity.
Qed.

Lemma paso_config ahora (e : Evento) (w : Proceso) :
  es_de_corrida e = true ->
  fst (paso tz gen ahora e (con_config cfg w))
  = con_config cfg (fst (paso tz gen ahora e w)).
Proof.
  intros He.
  destruct e as [| | |i|i|i ok|i r|i ok]; try discriminate; cbn [paso];
    change (tareas (con_config cfg w)) with (tareas w).
  - cbn [fst]. apply detenerSimulador_config.
  - destruct (nth_error (tareas w) i) as [[h|n|cy| | |]|]; try reflexivity.
    cbn [fst]. rewrite <- procesarLote_config. reflexivity.
  - destruct (nth_error (tareas w) i) as [[h|n|cy| | |]|]; try reflexivity.
    cbn [fst]. apply ejecutarCiclo_config.
  - destruct (nth_error (tareas w) i) as [[h|n|cy| | |]|]; try reflexivity.
    cbn [fst]. rewrite <- reanudarCiclo_config. reflexivity.
Qed.

Lemma correr_config (es : list (Fecha * Evento)) :
  forallb (fun e => es_de_corrida (snd e)) es = true ->
  forall w : Proceso,
  correr tz gen es (con_config cfg w) = con_config cfg (correr tz gen es w).
Proof.
  induction es as [|[ahora e] es IH]; intros He w; [reflexivity |].
  cbn [forallb snd] in He. apply andb_true_iff in He. destruct He as [H1 H2].
  cbn [correr]. rewrite paso_config by exact H1. now apply IH.
Qed.

End ConfigYCorrida.

Lemma api_config_estado (b : Api.Cuerpo) (w : Servidor.Proceso) :
  fst (fst (Api.api_config b w)) = con_config (Api.rc_config (snd (Api.api_config b w))) w
  /\ fst (fst (Api.api_config1 b w))
     = con_config (Api.rc_config (snd (Api.api_config1 b w))) w.
Proof.
  split; [| reflexivity].
  unfold Api.api_config.
  repeat match goal with
         | |- context [let '(_, _) := ?x in _] => destruct x
         end.
  match goal with
  | |- context [match ?l with [] => _ | _ :: _ => _ end] => destruct l
  end; reflexivity.
Qed.

(** X16.  POST /api/config, in either edition, changes nothing for a run
    under way and nothing of what [generarLectura] computes: the
    generator reads the CONFIG of config.js, of which the server's
    configuration is a copy made at start-up. Whatever the body, the
    cycles that follow the request generate, send, store and count the
    same readings, draw the same random numbers and emit the same
    messages as they would have without it. *)
Theorem api_config_no_alcanza
        (tz : Z) (gen : Config) (b : Api.Cuerpo)
        (es : list (Fecha * Servidor.Evento)) (w : Servidor.Proceso) :
  forallb (fun e => es_de_corrida (snd e)) es = true ->
  let w1 := Servidor.correr tz gen es w in
  (let w2 := Servidor.correr tz gen es (fst (fst (Api.api_config b w))) in
   w2 = con_config (Api.rc_config (snd (Api.api_config b w))) w1
   /\ Servidor.almacen w2 = Servidor.almacen w1
   /\ Servidor.azar w2 = Servidor.azar w1
   /\ Servidor.totalEnviadas (Servidor.sim w2) = Servidor.totalEnviadas (Servidor.sim w1)
   /\ Servidor.lecturas (Servidor.sim w2) = Servidor.lecturas (Servidor.sim w1)
   /\ Servidor.ciclos w2 = Servidor.ciclos w1
   /\ Servidor.emitido w2 = Servidor.emitido w1)
  /\ (let w2 := Servidor.correr tz gen es (fst (fst (Api.api_config1 b w))) in
      w2 = con_config (Api.rc_config (snd (Api.api_config1 b w))) w1
      /\ Servidor.almacen w2 = Servidor.almacen w1
      /\ Servidor.azar w2 = Servidor.azar w1
      /\ Servidor.totalEnviadas (Servidor.sim w2)
         = Servidor.totalEnviadas (Servidor.sim w1)
      /\ Servidor.lecturas (Servidor.sim w2) = Servidor.lecturas (Servidor.sim w1)
      /\ Servidor.ciclos w2 = Servidor.ciclos w1
      /\ Servidor.emitido w2 = Servidor.emitido w1).
Proof.
  intros He w1.
  destruct (api_config_estado b w) as [E E1].
  split; cbn zeta.
  - rewrite E, correr_config by exact He. fold w1. repeat split.
  - rewrite E1, correr_config by exact He. fold w1. repeat split.
Qed.

(** A run in its first cycle; the request sets a peak factor of 3
    and switches the peaks on; the two sends of the cycle resolve. *)

Lemma api_config_no_alcanza_ejemplo :
  Servidor.almacen
    (correr_ejemplo
       [(reloj, Servidor.EnvioResuelto 0 true); (reloj, Servidor.EnvioResuelto 0 true)]
       (fst (fst (Api.api_config cuerpo_picos
                    (fst (paso_ejemplo reloj Servidor.PostIniciar
                            servidor_tiempo_real))))))
  = Servidor.almacen
      (correr_ejemplo
         [(reloj, Servidor.EnvioResuelto 0 true); (reloj, Servidor.EnvioResuelto 0 true)]
         (fst (paso_ejemplo reloj Servidor.PostIniciar servidor_tiempo_real))).
Proof.
  destruct (api_config_no_alcanza tz_sv (CONFIG_inicial tz_sv) cuerpo_picos
              [(reloj, Servidor.EnvioResuelto 0 true);
               (reloj, Servidor.EnvioResuelto 0 true)]
              (fst (paso_ejemplo reloj Servidor.PostIniciar servidor_tiempo_real))
              eq_refl) as [(_ & H & _) _].
  exact H.
Defined.

(* ------------------------------------------------------------------ *)
(** ** Logging out and in                                              *)
(* ------------------------------------------------------------------ *)

Section Sesion.

Import Servidor.

(** Without a session no event of the current edition moves a stopped
    process at rest: a request to start is refused. *)
Lemma paso_sin_sesion tz c ahora (e : Evento) (w0 w : Proceso) :
  es_actual e = true -> sesion w = false -> quieto w0 w ->
  quieto w0 (fst (paso tz c ahora e w))
  /\ sesion (fst (paso tz c ahora e w)) = false.
Proof.
  intros He Hs Hq.
  split.
  - destruct e; try discriminate;
      try (apply paso_quieto; [reflexivity | exact Hq]).
    cbn [paso]. unfold api_iniciar. rewrite Hs. exact Hq.
  - destruct (paso_estable tz c ahora e w) as (_ & _ & H & _). congruence.
Qed.

Lemma correr_sin_sesion tz c (es : list (Fecha * Evento)) (w0 : Proceso) :
  forallb (fun e => es_actual (snd e)) es = true ->
  forall w, sesion w = false -> quieto w0 w ->
  quieto w0 (correr tz c es w) /\ sesion (correr tz c es w) = false.
Proof.
  induction es as [|[ahora e] es IH]; intros He w Hs Hq; [auto |].
  cbn [forallb snd] in He. apply andb_true_iff in He. destruct He as [H1 H2].
  destruct (paso_sin_sesion tz c ahora e w0 w H1 Hs Hq) as [Hq' Hs'].
  cbn [correr]. now apply IH.
Qed.

End Sesion.

(** A logout at rest leaves the process stopped, at rest and without a
    session: the interval of the run is cleared with the flag. *)
Lemma logout_quieto (w : Servidor.Proceso) :
  en_reposo w ->
  Servidor.quieto w (fst (fst (Api.api_logout true w)))
  /\ Servidor.sesion (fst (fst (Api.api_logout true w))) = false.
Proof.
  unfold en_reposo, es_su_intervalo. intros Hr.
  rewrite forallb_forall in Hr.
  unfold Api.api_logout. cbn [fst Api.poner_sesion Servidor.sim].
  destruct (Servidor.corriendo (Servidor.sim w)) eqn:Hc.
  - unfold Servidor.detenerSimulador.
    change (Servidor.sim (Api.poner_sesion false w)) with (Servidor.sim w).
    destruct (Servidor.intervalo (Servidor.sim w)) as [h|] eqn:Hi;
      cbn; (split; [| reflexivity]); unfold Servidor.quieto, Servidor.en_pausa; cbn;
      repeat split; auto; apply forallb_forall; intros t Ht.
    + apply filter_In in Ht. destruct Ht as [Hin Hn].
      specialize (Hr t Hin). cbn in Hr.
      destruct (Servidor.es_temporizador t); [reflexivity |].
      cbn in Hr. rewrite Hr in Hn. discriminate.
    + specialize (Hr t Ht). cbn in Hr.
      destruct (Servidor.es_temporizador t); [reflexivity | discriminate].
  - split; [| reflexivity]. unfold Servidor.quieto, Servidor.en_pausa. cbn.
    repeat split; auto. apply forallb_forall. intros t Ht.
    specialize (Hr t Ht). cbn in Hr.
    destruct (Servidor.es_temporizador t); [reflexivity | discriminate].
Qed.

(** X17.  After a logout made while the server rests between two cycles
    (what is pending is timeouts of [procesarLote] and the interval of
    the run in real time: no send in flight, no start still waiting for
    its points), no cycle is entered until somebody logs in again,
    whatever requests and completions arrive: the run is stopped and its
    interval cleared, a pending timeout finds the flag down, and every
    POST /api/iniciar is answered 401 and starts nothing. *)
Theorem logout_en_pausa
        (tz : Z) (c : Config) (ahora : Fecha) (w : Servidor.Proceso)
        (es : list (Fecha * Servidor.Evento)) :
  en_reposo w ->
  forallb (fun e => es_actual (snd e)) es = true ->
  let w' := Servidor.correr tz c es (fst (fst (Api.api_logout true w))) in
  Servidor.sesion w' = false
  /\ Servidor.corriendo (Servidor.sim w') = false
  /\ Servidor.totalEnviadas (Servidor.sim w') = Servidor.totalEnviadas (Servidor.sim w)
  /\ Servidor.ciclos w' = Servidor.ciclos w
  /\ Servidor.almacen w' = Servidor.almacen w
  /\ Servidor.azar w' = Servidor.azar w
  /\ Servidor.paso tz c ahora Servidor.PostIniciar w'
     = (w', Some {| Servidor.codigo := 401; Servidor.success := false |}).
Proof.
  intros Hp He w'.
  destruct (logout_quieto w Hp) as [Hq Hs].
  destruct (correr_sin_sesion tz c es w He _ Hs Hq) as [(H1 & _ & H2 & H3 & H4 & H5) H6].
  fold w' in H1, H2, H3, H4, H5, H6.
  repeat split; auto.
  cbn [Servidor.paso]. unfold Servidor.api_iniciar. rewrite H6. reflexivity.
Qed.

(** The historical run that rests after its first cycle, then the
    logout, the timeout that fires and a request to start; and the run
    in real time that rests after its first cycle, then the logout, a
    stray tick and a request to start. *)
Lemma logout_en_pausa_ejemplo :
  (Servidor.ciclos
     (correr_ejemplo
        [(reloj, Servidor.Vence 0); (reloj, Servidor.PostIniciar)]
        (fst (fst (Api.api_logout true
                     (correr_ejemplo hasta_la_pausa servidor_ejemplo)))))
   = [(Some 0%nat, 1735711200000)]
   /\ Servidor.totalEnviadas
        (Servidor.sim
           (correr_ejemplo
              [(reloj, Servidor.Vence 0); (reloj, Servidor.PostIniciar)]
              (fst (fst (Api.api_logout true
                           (correr_ejemplo hasta_la_pausa servidor_ejemplo)))))) = 1)
  /\ Servidor.tareas (correr_ejemplo hasta_el_intervalo servidor_tiempo_real)
     = [Servidor.Intervalo 0]
  /\ Servidor.ciclos
       (correr_ejemplo
          [(reloj + 10000, Servidor.Tic 0); (reloj + 10000, Servidor.PostIniciar)]
          (fst (fst (Api.api_logout true
                       (correr_ejemplo hasta_el_intervalo servidor_tiempo_real)))))
     = [(None, reloj)]
  /\ Servidor.totalEnviadas
       (Servidor.sim
          (correr_ejemplo
             [(reloj + 10000, Servidor.Tic 0); (reloj + 10000, Servidor.PostIniciar)]
             (fst (fst (Api.api_logout true
                          (correr_ejemplo hasta_el_intervalo servidor_tiempo_real))))))
     = 2.
Proof.
  destruct (logout_en_pausa tz_sv (CONFIG_inicial tz_sv) reloj
              (correr_ejemplo hasta_la_pausa servidor_ejemplo)
              [(reloj, Servidor.Vence 0); (reloj, Servidor.PostIniciar)]
              eq_refl eq_refl) as (_ & _ & Ht & Hc & _).
  destruct (logout_en_pausa tz_sv (CONFIG_inicial tz_sv) reloj
              (correr_ejemplo hasta_el_intervalo servidor_tiempo_real)
              [(reloj + 10000, Servidor.Tic 0); (reloj + 10000, Servidor.PostIniciar)]
              eq_refl eq_refl) as (_ & _ & Ht' & Hc' & _).
  split; [split; [exact Hc | exact Ht] |].
  split; [reflexivity |].
  split; [exact Hc' | exact Ht'].
Defined.

(** X18.  POST /api/login opens the session when the sign-in resolves
    and only then loads the points. When that load is rejected the
    request is answered 401 like a failed sign-in, with the message of
    the rejection unless its code is one of the five the handler words
    itself, but the session stays open: the next POST /api/iniciar is
    not refused for want of a login. Without an email or a password
    nothing is tried and nothing changes. *)
Theorem login_sin_puntos
        (tz : Z) (c : Config) (ahora : Fecha)
        (email password : JS.Valor) (error : Api.ErrorJS) (w : Servidor.Proceso) :
  (JS.ToBoolean email = false \/ JS.ToBoolean password = false ->
   forall entra obtenidos,
     fst (Api.api_login email password entra obtenidos w) = (w, [])
     /\ Api.l_codigo (snd (Api.api_login email password entra obtenidos w)) = 400)
  /\ (JS.ToBoolean email = true -> JS.ToBoolean password = true ->
      let r := Api.api_login email password None (inl error) w in
      Api.l_codigo (snd r) = 401
      /\ (Api.code error = None -> Api.l_message (snd r) = Api.message error)
      /\ Servidor.sesion (fst (fst r)) = true
      /\ Servidor.sim (fst (fst r)) = Servidor.sim w
      /\ option_map Servidor.codigo
            (snd (Servidor.paso tz c ahora Servidor.PostIniciar (fst (fst r))))
         <> Some 401).
Proof.
  split.
  - intros H entra obtenidos. unfold Api.api_login.
    destruct H as [H|H]; rewrite H; cbn [negb orb]; [split; reflexivity |].
    rewrite orb_true_r. split; reflexivity.
  - intros He Hp. cbn zeta. unfold Api.api_login. rewrite He, Hp. cbn [negb orb].
    cbn [Api.login_puntos Api.login_fallido fst snd Api.l_codigo Api.l_message].
    split; [reflexivity |]. split.
    { intros Hc. unfold Api.mensaje_de. now rewrite Hc. }
    split; [reflexivity |]. split; [reflexivity |].
    cbn [Servidor.paso]. unfold Servidor.api_iniciar.
    change (Servidor.sesion (Api.login_sesion w)) with true.
    change (Servidor.sim (Api.login_sesion w)) with (Servidor.sim w).
    cbn [negb].
    destruct (Servidor.corriendo (Servidor.sim w)); [cbn; discriminate |].
    destruct (Servidor.puntos (Servidor.sim w)); cbn; discriminate.
Qed.

(* ------------------------------------------------------------------ *)
(** ** What POST /api/config stores                                    *)
(* ------------------------------------------------------------------ *)

Lemma resto_config_fechas (b : Api.Cuerpo) (c : Config) :
  INTERVALO_MS (Api.resto_config b c) = INTERVALO_MS c
  /\ FECHA_INICIO (Api.resto_config b c) = FECHA_INICIO c
  /\ FECHA_FIN (Api.resto_config b c) = FECHA_FIN c.
Proof.
  unfold Api.resto_config, Api.si_numero.
  destruct (Api.simularPicos b);
    destruct (Api.factorPico b) as [x|];
    try destruct (JS.ToBoolean (JS.number x));
    destruct (Api.factorFinSemana b) as [y|];
    try destruct (JS.ToBoolean (JS.number y)); repeat split.
Qed.

(** X19.  The current edition validates the dates and the interval, but
    it assigns as it goes: a request answered 400 has been applied all
    the same. An interval below 5 seconds, or a start date not before
    the end date, is refused and stored; no config-updated is emitted
    then. *)
Theorem api_config_rechaza_y_aplica (b : Api.Cuerpo) (w : Servidor.Proceso) :
  let r := Api.api_config b w in
  let cfg := Servidor.config (Servidor.sim (fst (fst r))) in
  (forall v, Api.intervalo b = Some v -> v <> 0 ->
     INTERVALO_MS cfg = v * 1000
     /\ (v < 5 -> Api.rc_codigo (snd r) = 400 /\ snd (fst r) = []))
  /\ (forall i f, Api.fechaInicio b = Api.Dada i -> Api.fechaFin b = Api.Dada f ->
       FECHA_INICIO cfg = Some i /\ FECHA_FIN cfg = Some f
       /\ (f <= i -> Api.rc_codigo (snd r) = 400 /\ snd (fst r) = []))
  /\ (Api.rc_codigo (snd r) = 200 \/ Api.rc_codigo (snd r) = 400)
  /\ (Api.rc_codigo (snd r) = 400 <-> Api.rc_errores (snd r) <> []).
Proof.
  cbn zeta. unfold Api.api_config.
  set (c0 := Servidor.config (Servidor.sim w)).
  destruct (Api.fechaInicio b) as [| |i0] eqn:Ei;
    destruct (Api.fechaFin b) as [| |f0] eqn:Ef;
    destruct (Api.intervalo b) as [v0|] eqn:Ev;
    try destruct (Z.eqb_spec v0 0) as [Hz|Hz];
    try destruct (Z.ltb_spec v0 5) as [H5|H5];
    try destruct (Z.leb_spec f0 i0) as [Hle|Hle];
    try match goal with
        | |- context [10000 <? ?t] => destruct (10000 <? t)
        end;
    cbn [app fst snd Api.rc_codigo Api.rc_errores Servidor.config Servidor.sim
         Servidor.con_sim Api.poner_config Api.dada];
    match goal with
    | |- context [Api.resto_config b ?c1] =>
        destruct (resto_config_fechas b c1) as (R1 & R2 & R3);
        rewrite R1, R2, R3
    end;
    cbn [INTERVALO_MS FECHA_INICIO FECHA_FIN Api.con_INTERVALO_MS
         Api.con_FECHA_INICIO Api.con_FECHA_FIN];
    (split;
     [intros v Hv Hnz;
      first [discriminate
            | injection Hv as <-;
              first [contradiction
                    | split; [reflexivity | intros; first [lia | auto]]]] |]);
    (split;
     [intros i f Hi Hf;
      first [discriminate
            | injection Hi as <-; injection Hf as <-;
              split; [reflexivity |];
              split; [reflexivity | intros; first [lia | auto]]] |]);
    (split; [auto |]);
    split; intros H; try discriminate; try lia; try reflexivity;
    try (exfalso; apply H; reflexivity).
Qed.

Lemma resto_config_pico (b : Api.Cuerpo) (c : Config) :
  FACTOR_PICO (Api.resto_config b c)
  = match Api.factorPico b with
    | Some x => if JS.ToBoolean (JS.number x) then x else FACTOR_PICO c
    | None => FACTOR_PICO c
    end.
Proof.
  unfold Api.resto_config, Api.si_numero.
  destruct (Api.simularPicos b);
    destruct (Api.factorPico b) as [x|];
    try destruct (JS.ToBoolean (JS.number x));
    destruct (Api.factorFinSemana b) as [y|];
    try destruct (JS.ToBoolean (JS.number y)); reflexivity.
Qed.

Lemma api_config_pico (b : Api.Cuerpo) (w : Servidor.Proceso) :
  FACTOR_PICO (Api.rc_config (snd (Api.api_config b w)))
  = FACTOR_PICO (Api.resto_config b (Servidor.config (Servidor.sim w)))
  /\ FACTOR_PICO (Api.rc_config (snd (Api.api_config1 b w)))
     = FACTOR_PICO (Api.resto_config b (Servidor.config (Servidor.sim w))).
Proof.
  unfold Api.api_config, Api.api_config1.
  destruct (Api.fechaInicio b) as [| |i0];
    destruct (Api.fechaFin b) as [| |f0];
    destruct (Api.intervalo b) as [v0|];
    try destruct (v0 =? 0); try destruct (v0 <? 5);
    try destruct (f0 <=? i0);
    try match goal with
        | |- context [10000 <? ?t] => destruct (10000 <? t)
        end;
    cbn [app fst snd Api.rc_config];
    rewrite !resto_config_pico; split; reflexivity.
Qed.

(** X20.  Neither edition of POST /api/config checks the factors. A
    factorPico of 0 or NaN is ignored (the peak factor cannot be set to
    zero this way), and any other number is stored as it is: below 1, or
    negative, it leaves the server with a configuration that
    validarConfiguracion rejects. *)
Theorem api_config_sin_validar (x : float) (b : Api.Cuerpo) (w : Servidor.Proceso) :
  Api.factorPico b = Some x ->
  let c := Api.rc_config (snd (Api.api_config b w)) in
  let c1 := Api.rc_config (snd (Api.api_config1 b w)) in
  (JS.ToBoolean (JS.number x) = false ->
   FACTOR_PICO c = FACTOR_PICO (Servidor.config (Servidor.sim w))
   /\ FACTOR_PICO c1 = FACTOR_PICO (Servidor.config (Servidor.sim w)))
  /\ (JS.ToBoolean (JS.number x) = true ->
      FACTOR_PICO c = x /\ FACTOR_PICO c1 = x
      /\ Api.rc_codigo (snd (Api.api_config1 b w)) = 200
      /\ ((x <? 1)%float = true ->
          Configuracion.valido (Configuracion.validarConfiguracion c) = false
          /\ Configuracion.valido (Configuracion.validarConfiguracion c1) = false)).
Proof.
  intros Hx c c1.
  destruct (api_config_pico b w) as [E E1]. fold c in E. fold c1 in E1.
  rewrite resto_config_pico, Hx in E, E1.
  split.
  - intros Hf. rewrite Hf in E, E1. auto.
  - intros Ht. rewrite Ht in E, E1.
    split; [exact E |]. split; [exact E1 |]. split; [reflexivity |].
    intros Hlt. split.
    + destruct (Configuracion.valido (Configuracion.validarConfiguracion c)) eqn:V;
        [| reflexivity].
      apply validar_valido in V. destruct V as (_ & _ & V & _). congruence.
    + destruct (Configuracion.valido (Configuracion.validarConfiguracion c1)) eqn:V;
        [| reflexivity].
      apply validar_valido in V. destruct V as (_ & _ & V & _). congruence.
Qed.

Lemma api_config_sin_validar_ejemplo :
  FACTOR_PICO (Api.rc_config (snd (Api.api_config cuerpo_negativo servidor_ejemplo)))
  = (-2)%float
  /\ Api.rc_codigo (snd (Api.api_config1 cuerpo_negativo servidor_ejemplo)) = 200
  /\ Configuracion.valido
       (Configuracion.validarConfiguracion
          (Api.rc_config (snd (Api.api_config cuerpo_negativo servidor_ejemplo))))
     = false.
Proof.
  destruct (api_config_sin_validar (-2)%float cuerpo_negativo servidor_ejemplo eq_refl)
    as [_ H].
  destruct (H eq_refl) as (H1 & _ & H2 & H3).
  destruct (H3 eq_refl) as [H4 _].
  split; [exact H1 |]. split; [exact H2 | exact H4].
Defined.

(* ------------------------------------------------------------------ *)
(** ** Starting with no points, and the basic edition's historical mode *)
(* ------------------------------------------------------------------ *)

Section SinPuntos.

Import Servidor.

(** A chain of [procesarLote] over an empty array of points: every
    instant of the range gets its cycle, and no cycle sends anything. *)
Lemma corrida_vacia tz c ahora (n : nat) :
  forall (oks : list bool) (h : Historico) (w : Proceso),
  tareas w = [] ->
  corriendo (sim w) = true ->
  puntos (sim w) = [] ->
  0 < incremento h ->
  cuantas (fechaActual h) (fechaFin h) (incremento h) = n ->
  List.length oks = n ->
  exists w',
    dejar_correr tz c oks ahora (procesarLote tz c ahora h w) = w'
    /\ tareas w' = []
    /\ corriendo (sim w') = false
    /\ ciclos w' = ciclos w
                   ++ map (fun f => (Some (corrida h), f))
                          (progresion (fechaActual h) (incremento h) n)
    /\ totalEnviadas (sim w') = totalEnviadas (sim w)
    /\ almacen w' = almacen w
    /\ azar w' = azar w.
Proof.
  induction n as [|n IH]; intros oks h w Ht Hc Hp Hinc Hn Hl.
  - assert (Hgt : fechaFin h < fechaActual h).
    { destruct (Z.lt_ge_cases (fechaFin h) (fechaActual h)) as [H|H]; [exact H |].
      rewrite (cuantas_dentro _ _ _ Hinc) in Hn by lia. discriminate. }
    destruct oks; [| discriminate].
    unfold procesarLote. rewrite Hc. cbn [negb orb].
    apply Z.ltb_lt in Hgt. rewrite Hgt.
    eexists. split; [reflexivity |]. cbn [dejar_correr].
    unfold detenerSimulador. cbn [sim emitir intervalo].
    destruct (intervalo (sim w)); cbn; rewrite Ht, app_nil_r; repeat split.
  - assert (Hle : fechaActual h <= fechaFin h).
    { destruct (Z.lt_ge_cases (fechaFin h) (fechaActual h)) as [H|H]; [| lia].
      rewrite (cuantas_fuera _ _ _ H) in Hn. discriminate. }
    rewrite (cuantas_dentro _ _ _ Hinc Hle) in Hn. injection Hn as Hn.
    destruct oks as [|o oks]; [discriminate |]. injection Hl as Hl.
    unfold procesarLote. rewrite Hc. cbn [negb orb].
    assert (Hnlt : (fechaFin h <? fechaActual h) = false) by (apply Z.ltb_ge; lia).
    rewrite Hnlt.
    match goal with
    | |- context [ejecutarCiclo tz c ahora _ _ ?w0] => set (w1 := w0)
    end.
    assert (Hw1 : tareas w1 = [] /\ corriendo (sim w1) = true
                  /\ puntos (sim w1) = [] /\ ciclos w1 = ciclos w
                  /\ totalEnviadas (sim w1) = totalEnviadas (sim w)
                  /\ almacen w1 = almacen w /\ azar w1 = azar w).
    { subst w1. destruct (informa (otro_lote h) && _); cbn; auto 10. }
    destruct Hw1 as (Ht0 & Hc0 & Hp0 & Hy0 & Hn0 & Ha0 & Hz0). clearbody w1.
    unfold ejecutarCiclo. cbn [sim puntos]. rewrite Hp0.
    cbn [continuarCiclo]. unfold finCiclo.
    cbn [sim con_sim emitir guardar_lecturas totalEnviadas option_map].
    set (h1 := avanzar (otro_lote h)).
    match goal with
    | |- context [agendar (Temporizador h1) ?w0] => set (w2 := w0)
    end.
    assert (Hw2 : tareas w2 = [] /\ corriendo (sim w2) = true
                  /\ puntos (sim w2) = []
                  /\ ciclos w2 = ciclos w ++ [(Some (corrida h), fechaActual h)]
                  /\ totalEnviadas (sim w2) = totalEnviadas (sim w)
                  /\ almacen w2 = almacen w /\ azar w2 = azar w).
    { subst w2. destruct (informa h1); cbn; rewrite ?Ht0, ?Hc0, ?Hp0, ?Hy0;
        repeat split; auto. }
    destruct Hw2 as (Ht2 & Hc2 & Hp2 & Hy2 & Hn2 & Ha2 & Hz2). clearbody w2.
    cbn [dejar_correr]. unfold completar_primera.
    cbn [agendar con_tareas tareas]. rewrite Ht2. cbn [app].
    cbn [paso tareas agendar con_tareas]. rewrite Ht2. cbn [app nth_error fst].
    destruct (IH oks h1 (quitar 0 (agendar (Temporizador h1) w2)))
      as (w' & E & Ht' & Hc' & Hy' & Hn' & Ha' & Hz').
    + cbn. rewrite Ht2. reflexivity.
    + exact Hc2.
    + exact Hp2.
    + exact Hinc.
    + exact Hn.
    + exact Hl.
    + exists w'. split; [exact E |]. split; [exact Ht' |]. split; [exact Hc' |].
      cbn [quitar agendar con_tareas sim ciclos almacen azar] in Hy', Hn', Ha', Hz'.
      rewrite Hy', Hy2, Hn', Hn2, Ha', Ha2, Hz', Hz2, progresion_cons.
      cbn [map]. rewrite <- app_assoc. repeat split.
Qed.

End SinPuntos.

(** X21.  The server does not mind an empty array of points (the command
    line exits with an error). When [obtenerPuntos] resolves with no
    point, POST /api/iniciar answers success, and the historical run is
    carried out in full: one cycle for every instant of the range, none
    of which generates, draws or sends anything; then it stops. *)
Theorem servidor_sin_puntos
        (tz : Z) (gen c : Config) (ahora inicio : Fecha)
        (w : Servidor.Proceso) (oks : list bool) :
  Servidor.sesion w = true ->
  Servidor.corriendo (Servidor.sim w) = false ->
  Servidor.tareas w = [] ->
  Servidor.puntos (Servidor.sim w) = [] ->
  Servidor.config (Servidor.sim w) = c ->
  FECHA_INICIO c = Some inicio ->
  0 < INCREMENTO_TIEMPO_MS c ->
  let final := match FECHA_FIN c with Some f => f | None => ahora end in
  let n := cuantas inicio final (INCREMENTO_TIEMPO_MS c) in
  List.length oks = n ->
  let w1 := fst (Servidor.paso tz gen ahora Servidor.PostIniciar w) in
  let r := Servidor.paso tz gen ahora (Servidor.PuntosObtenidos 0 (Some [])) w1 in
  let w' := Servidor.dejar_correr tz gen oks ahora (fst r) in
  Servidor.tareas w1 = [Servidor.Obteniendo]
  /\ snd r = Some {| Servidor.codigo := 200; Servidor.success := true |}
  /\ Servidor.ciclos w'
     = Servidor.ciclos w
       ++ map (fun f => (Some (Servidor.siguiente w), f))
              (progresion inicio (INCREMENTO_TIEMPO_MS c) n)
  /\ Servidor.totalEnviadas (Servidor.sim w') = Servidor.totalEnviadas (Servidor.sim w)
  /\ Servidor.almacen w' = Servidor.almacen w
  /\ Servidor.azar w' = Servidor.azar w
  /\ Servidor.corriendo (Servidor.sim w') = false.
Proof.
  intros Hs Hc Ht Hp Hcfg Hi Hinc final n Hl w1 r w'.
  subst w' r w1.
  cbn [Servidor.paso]. unfold Servidor.api_iniciar.
  rewrite Hs, Hc, Hp. cbn [negb fst].
  cbn [Servidor.agendar Servidor.con_tareas Servidor.tareas]. rewrite Ht.
  cbn [app nth_error].
  split; [reflexivity |].
  unfold Servidor.arrancar, Servidor.iniciarModo, Servidor.iniciarModoHistorico.
  cbn [Servidor.sim Servidor.con_sim Servidor.emitir Servidor.config
       Servidor.poner_corriendo Servidor.poner_puntos Servidor.quitar
       Servidor.con_tareas Servidor.agendar].
  rewrite Hcfg, Hi. cbn [fst snd].
  split; [reflexivity |].
  assert (Hz : (INCREMENTO_TIEMPO_MS c =? 0) = false) by (apply Z.eqb_neq; lia).
  rewrite Hz. fold final.
  match goal with
  | |- context [Servidor.procesarLote tz gen ahora ?h ?w0] =>
      destruct (corrida_vacia tz gen ahora n oks h w0)
        as (w' & E & _ & Hc' & Hy' & Hn' & Ha' & Hz');
      [cbn; rewrite Ht; reflexivity | reflexivity | reflexivity | exact Hinc
      | reflexivity | exact Hl |]
  end.
  rewrite E. rewrite Hy', Hn', Ha', Hz', Hc'. repeat split.
Qed.

Lemma servidor_sin_puntos_ejemplo :
  Servidor.ciclos
    (Servidor.dejar_correr tz_sv (CONFIG_inicial tz_sv) [true; true; true; true] reloj
       (fst (paso_ejemplo reloj (Servidor.PuntosObtenidos 0 (Some []))
               (fst (paso_ejemplo reloj Servidor.PostIniciar
                       (Servidor.proceso_inicial (CONFIG_tres_horas tz_sv) []
                          azar_fijo))))))
  = [(Some 0%nat, 1735711200000); (Some 0%nat, 1735714800000);
     (Some 0%nat, 1735718400000); (Some 0%nat, 1735722000000)]
  /\ Servidor.totalEnviadas
       (Servidor.sim
          (Servidor.dejar_correr tz_sv (CONFIG_inicial tz_sv) [true; true; true; true]
             reloj
             (fst (paso_ejemplo reloj (Servidor.PuntosObtenidos 0 (Some []))
                     (fst (paso_ejemplo reloj Servidor.PostIniciar
                             (Servidor.proceso_inicial (CONFIG_tres_horas tz_sv) []
                                azar_fijo))))))) = 0.
Proof.
  destruct (servidor_sin_puntos tz_sv (CONFIG_inicial tz_sv) (CONFIG_tres_horas tz_sv)
              reloj (Date.local tz_sv Date.dia_2025_01_01 0)
              (Servidor.proceso_inicial (CONFIG_tres_horas tz_sv) [] azar_fijo)
              [true; true; true; true]
              eq_refl eq_refl eq_refl eq_refl eq_refl eq_refl eq_refl eq_refl)
    as (_ & _ & H1 & H2 & _).
  split; [exact H1 | exact H2].
Defined.





(* ------------------------------------------------------------------ *)
(** ** The command line in real-time mode                              *)
(* ------------------------------------------------------------------ *)

(** X5.  In real-time mode [iniciar] runs the first cycle at once,
    asking Firestore for one write per point whatever the answers, and
    leaves the process alive with its interval armed. *)
Theorem iniciar_tiempo_real
        (tz : Z) (c : Config) (n : nat) (ahora : Fecha)
        (p : Punto) (ps : list Punto) (m : Cli.Mundo) :
  Configuracion.valido (Configuracion.validarConfiguracion c) = true ->
  FECHA_INICIO c = None ->
  exists r,
    Principal.iniciar tz c n ahora true (Some (p :: ps)) m = Some r
    /\ Principal.salida r = None
    /\ Principal.intervalo r = true
    /\ Principal.mundo r = Cli.cicloLecturas tz c (p :: ps) ahora m
    /\ Cli.llamadas (Principal.mundo r) = (Cli.llamadas m + S (List.length ps))%nat.
Proof.
  intros Hv Hi. unfold Principal.iniciar. rewrite Hv. cbn [negb].
  unfold MODO. rewrite Hi. cbn [String.eqb Ascii.eqb Bool.eqb].
  eexists. split; [reflexivity |].
  cbn [Principal.salida Principal.intervalo Principal.mundo].
  repeat split.
  unfold Principal.ejecutarTiempoReal, Cli.cicloLecturas.
  rewrite cicloPuntos_llamadas. reflexivity.
Qed.

Lemma iniciar_tiempo_real_ejemplo :
  exists r,
    Principal.iniciar tz_sv CONFIG_tiempo_real 0 reloj true
                      (Some [punto_N1; punto_apagado])
                      (Cli.mundo_inicial azar_fijo (fun _ => false)) = Some r
    /\ Principal.salida r = None
    /\ Principal.intervalo r = true
    /\ Principal.mundo r
       = Cli.cicloLecturas tz_sv CONFIG_tiempo_real [punto_N1; punto_apagado] reloj
                           (Cli.mundo_inicial azar_fijo (fun _ => false))
    /\ Cli.llamadas (Principal.mundo r) = 2%nat.
Proof.
  exact (iniciar_tiempo_real tz_sv CONFIG_tiempo_real 0 reloj punto_N1 [punto_apagado]
           (Cli.mundo_inicial azar_fijo (fun _ => false)) eq_refl eq_refl).
Defined.

(* ------------------------------------------------------------------ *)
(** ** The pauses of the historical loop                               *)
(* ------------------------------------------------------------------ *)

Lemma pausas_app (a b : list Cli.Linea) : pausas (a ++ b) = pausas a ++ pausas b.
Proof.
  induction a as [|l a IH]; simpl; [reflexivity |].
  destruct l; simpl; rewrite ?IH; reflexivity.
Qed.

Lemma lotePuntos_pausas (tz : Z) (c : Config) (puntos : list Punto)
      (f : Fecha) (total : Z) (m : Cli.Mundo) :
  (forall k, Cli.envio m k = true) ->
  exists m',
    Cli.lotePuntos tz c puntos f total m
      = (Some (total + Z.of_nat (List.length puntos)), m')
    /\ Cli.envio m' = Cli.envio m
    /\ pausas (Cli.consola m') = pausas (Cli.consola m).
Proof.
  revert total m.
  induction puntos as [|p ps IH]; intros total m Hok.
  - exists m. simpl. repeat split. do 2 f_equal. lia.
  - cbn [Cli.lotePuntos]. unfold Cli.generar.
    destruct (generarLectura tz c p f (Cli.azar m)) as [l az].
    unfold Cli.enviarLectura. cbn [Cli.envio Cli.llamadas].
    rewrite Hok.
    match goal with
    | |- context [Cli.lotePuntos tz c ps f _ ?m1] =>
        destruct (IH (total + 1) m1) as (m' & E & He & Hp);
        [intros k; apply Hok |]
    end.
    exists m'. rewrite E. cbn in He, Hp |- *.
    split; [do 2 f_equal; lia |]. split; [exact He |].
    rewrite Hp, pausas_app. simpl. apply app_nil_r.
Qed.

(** One more lot reaches a multiple of the batch size exactly when the
    quotient grows. *)
Lemma cociente_siguiente (l b : Z) :
  0 <= l -> 0 < b ->
  (l + 1) / b = l / b + (if Z.rem (l + 1) b =? 0 then 1 else 0).
Proof.
  intros Hl Hb. rewrite Z.rem_mod_nonneg by lia.
  pose proof (Z.div_mod l b ltac:(lia)) as E.
  pose proof (Z.mod_pos_bound l b Hb) as Hr.
  destruct (Z.eq_dec (l mod b + 1) b) as [Hq|Hq].
  - assert (E1 : l + 1 = (l / b + 1) * b) by lia.
    rewrite E1, Z.mod_mul, Z.div_mul by lia. reflexivity.
  - assert (Hm : (l + 1) mod b = l mod b + 1).
    { symmetry. apply (Z.mod_unique (l + 1) b (l / b)); lia. }
    assert (Hd : (l + 1) / b = l / b).
    { symmetry. apply (Z.div_unique (l + 1) b (l / b) (l mod b + 1)); lia. }
    rewrite Hm, Hd.
    destruct (Z.eqb_spec (l mod b + 1) 0); lia.
Qed.

Lemma bucle_pausas (tz : Z) (c : Config) (puntos : list Punto) (fechaFin : Fecha) :
  0 < INCREMENTO_TIEMPO_MS c ->
  0 < BATCH_SIZE c ->
  forall (n : nat) (f : Fecha) (total lote : Z) (m : Cli.Mundo),
  (forall k, Cli.envio m k = true) ->
  0 <= lote ->
  (cuantas f fechaFin (INCREMENTO_TIEMPO_MS c) < n)%nat ->
  exists m',
    Cli.bucle tz c n puntos fechaFin f total lote m = Some (Cli.Sale0, m')
    /\ pausas (Cli.consola m')
       = pausas (Cli.consola m)
         ++ repeat (DELAY_ENTRE_LOTES c)
              (Z.to_nat ((lote + Z.of_nat (cuantas f fechaFin (INCREMENTO_TIEMPO_MS c)))
                         / BATCH_SIZE c - lote / BATCH_SIZE c)).
Proof.
  intros Hinc Hb n.
  induction n as [|n IH]; intros f total lote m Hok Hl Hn; [lia |].
  cbn [Cli.bucle].
  destruct (Z.leb_spec f fechaFin) as [Hle|Hgt].
  - rewrite (cuantas_dentro _ _ _ Hinc Hle) in Hn |- *.
    destruct (lotePuntos_pausas tz c puntos f total
                (Cli.imprimir (Cli.LoteInicia (lote + 1) f) m))
      as (m1 & E & He & Hp); [exact Hok |].
    rewrite E.
    match goal with
    | |- context [Cli.bucle tz c n puntos fechaFin _ ?t ?l ?m2] =>
        destruct (IH (f + INCREMENTO_TIEMPO_MS c) t l m2) as (m' & E' & Hp');
        [ | lia | lia | ]
    end.
    + intros k. destruct (Z.rem (lote + 1) (BATCH_SIZE c) =? 0);
        cbn; rewrite ?He; apply Hok.
    + exists m'. split; [exact E' |].
      rewrite Hp'.
      set (N := cuantas (f + INCREMENTO_TIEMPO_MS c) fechaFin (INCREMENTO_TIEMPO_MS c)).
      replace (lote + Z.of_nat (S N)) with (lote + 1 + Z.of_nat N) by lia.
      pose proof (cociente_siguiente lote (BATCH_SIZE c) Hl Hb) as Hq.
      assert (Hmono : (lote + 1) / BATCH_SIZE c
                      <= (lote + 1 + Z.of_nat N) / BATCH_SIZE c)
        by (apply Z.div_le_mono; lia).
      destruct (Z.rem (lote + 1) (BATCH_SIZE c) =? 0).
      * cbn [Cli.imprimir Cli.consola]. rewrite pausas_app, Hp.
        cbn [Cli.imprimir Cli.consola]. rewrite pausas_app. cbn [pausas].
        rewrite app_nil_r, <- app_assoc. f_equal.
        replace (Z.to_nat ((lote + 1 + Z.of_nat N) / BATCH_SIZE c - lote / BATCH_SIZE c))
          with (S (Z.to_nat ((lote + 1 + Z.of_nat N) / BATCH_SIZE c
                             - (lote + 1) / BATCH_SIZE c))) by lia.
        reflexivity.
      * rewrite Hp. cbn [Cli.imprimir Cli.consola]. rewrite pausas_app. cbn [pausas].
        rewrite app_nil_r. do 3 f_equal. lia.
  - rewrite (cuantas_fuera _ _ _ Hgt).
    eexists. split; [reflexivity |].
    cbn [Cli.imprimir Cli.consola]. rewrite pausas_app. cbn [pausas].
    rewrite app_nil_r. replace (lote + Z.of_nat 0) with lote by lia.
    rewrite Z.sub_diag. cbn. now rewrite app_nil_r.
Qed.

(** X25.  The historical loop of the command line pauses after every
    BATCH_SIZE-th lot: with a positive step and batch size, when every
    write resolves, a complete run of n lots makes the integer quotient
    of n by BATCH_SIZE pauses, each of DELAY_ENTRE_LOTES milliseconds. *)
Theorem pausas_por_lote
        (tz : Z) (c : Config) (ahora inicio : Fecha)
        (puntos : list Punto) (m : Cli.Mundo) :
  FECHA_INICIO c = Some inicio ->
  0 < INCREMENTO_TIEMPO_MS c ->
  0 < BATCH_SIZE c ->
  (forall k, Cli.envio m k = true) ->
  let final := match FECHA_FIN c with Some f => f | None => ahora end in
  let n := cuantas inicio final (INCREMENTO_TIEMPO_MS c) in
  exists m',
    Cli.ejecutarHistorico tz c (S n) ahora puntos m = Some (Cli.Sale0, m')
    /\ pausas (Cli.consola m')
       = pausas (Cli.consola m)
         ++ repeat (DELAY_ENTRE_LOTES c) (Z.to_nat (Z.of_nat n / BATCH_SIZE c)).
Proof.
  intros Hi Hinc Hb Hok final n.
  unfold Cli.ejecutarHistorico. rewrite Hi. fold final.
  destruct (bucle_pausas tz c puntos final Hinc Hb (S n) inicio 0 0 m Hok)
    as (m' & E & Hp); [lia | subst n; lia |].
  exists m'. split; [exact E |].
  rewrite Hp. fold n. rewrite Z.add_0_l, Z.div_0_l, Z.sub_0_r by lia. reflexivity.
Qed.

(** Twenty-five hourly lots with the batch size of config.js, 10: two
    pauses of one second. *)
Lemma pausas_por_lote_ejemplo :
  exists m',
    Cli.ejecutarHistorico tz_sv CONFIG_un_dia 26 reloj [punto_N1]
                          (Cli.mundo_inicial azar_fijo (fun _ => true))
    = Some (Cli.Sale0, m')
    /\ pausas (Cli.consola m') = [1000; 1000].
Proof.
  exact (pausas_por_lote tz_sv CONFIG_un_dia reloj
           (Date.local tz_sv Date.dia_2025_01_01 0) [punto_N1]
           (Cli.mundo_inicial azar_fijo (fun _ => true))
           eq_refl eq_refl eq_refl (fun _ => eq_refl)).
Defined.
